(** * TheXTech: 3DS render backend and world loader, shallow embedding

    Sources embedded here:
    - [src/core/3ds/render_3ds.cpp]: frame controller ([s_ensureInFrame],
      [setTarget*], [repaint]), lazy texture loader ([lazyLoadPicture],
      [lazyLoad], [lazyUnLoad], [deleteTexture]) and the sprite
      dispatcher ([minport_RenderTexturePrivate]);
    - the world loader [OpenWorld] with [ClearWorld] (file with the world
      loading code): the loading loops, the credits and the two closing
      loops.

    Machine integers are [Z] with the wrap-around written out, C integer
    division is [Z.quot], [float] arithmetic whose rounding matters is
    IEEE 754 single precision, files are byte lists, and every call into
    citro2d/citro3d, libc or the logger is recorded in a trace. *)

From Stdlib Require Import ZArith QArith String Ascii List Lia Bool.
From Stdlib Require SpecFloat.
From Stdlib.Strings Require Import Byte.
From stdpp Require Import base option gmap strings list.

Local Open Scope Z_scope.

(** ** Machine integers *)

Module MachineInt.

(** Conversion to [int16_t] (two's complement wrap-around). *)
Definition wrap16 (z : Z) : Z := (z + 32768) mod 65536 - 32768.

(** Conversion to [int] (32 bits, two's complement wrap-around): what
    [int(x)] and arithmetic on [int] give. *)
Definition wrap32 (z : Z) : Z := (z + 2147483648) mod 4294967296 - 2147483648.

(** Conversion to [uint32_t]. *)
Definition wrapu32 (z : Z) : Z := z mod 4294967296.

Definition in_int16 (z : Z) : Prop := -32768 <= z <= 32767.
Definition in_int32 (z : Z) : Prop := -2147483648 <= z <= 2147483647.

(** C++ [a / b] on [int]: truncation toward zero; a zero divisor traps. *)
Definition cdiv (a b : Z) : option Z :=
  if bool_decide (b = 0) then None else Some (Z.quot a b).

End MachineInt.

(** ** Single-precision floats *)

Module Float32.
Import MachineInt.

(** A [float] is an IEEE 754 binary32 number: 24 bits of precision,
    exponents below 128, results rounded to the nearest value, ties to
    even.  The operations are those of the standard library's
    specification of floating-point arithmetic at that format. *)
Definition float : Type := SpecFloat.spec_float.
Definition prec : Z := 24.
Definition emax : Z := 128.

Definition fadd (x y : float) : float := SpecFloat.SFadd prec emax x y.
Definition fdiv (x y : float) : float := SpecFloat.SFdiv prec emax x y.

(** The literals [2.0f] and [0.5f]. *)
Definition two : float := SpecFloat.S754_finite false 8388608 (-22).
Definition half : float := SpecFloat.S754_finite false 8388608 (-24).

(** The [float] nearest to an integer (an [int] converted to [float]). *)
Definition of_Z (z : Z) : float := SpecFloat.binary_normalize prec emax z 0 false.

(** Conversion of a [float] to [int]: the fraction is dropped.  C++
    leaves the conversion undefined for a value outside the range of the
    integer type; there the model gives what the conversion instruction
    of the target (VFP [vcvt.s32.f32]) gives: the nearest bound of
    [int], and 0 for a NaN. *)
Definition to_int32 (x : float) : Z :=
  match x with
  | SpecFloat.S754_zero _ => 0
  | SpecFloat.S754_nan => 0
  | SpecFloat.S754_infinity s => if s then -2147483648 else 2147483647
  | SpecFloat.S754_finite s m e =>
      let magnitude :=
        match e with
        | Z0 => Z.pos m
        | Z.pos p => Z.shiftl (Z.pos m) (Z.pos p)
        | Z.neg p => Z.shiftr (Z.pos m) (Z.pos p)
        end in
      Z.max (-2147483648) (Z.min 2147483647 (if s then - magnitude else magnitude))
  end.

(** Conversion of a [float] to [int16_t]: to [int], then the low 16
    bits. *)
Definition to_int16 (x : float) : Z := wrap16 (to_int32 x).

End Float32.

(** ** Doubles that hold whole numbers *)

Module Float64.

(** The world loader stores integers in [double] fields.  A [double]
    that holds a whole number is modelled by that number, and
    [of_Z z] is the whole number that the conversion of the integer [z]
    to [double] gives (and the rounding of a sum of two such doubles
    that is [z] exactly): [z] itself up to [2^53] in magnitude, beyond
    that the nearest number with a mantissa of 53 bits, a tie going to
    the even mantissa.  (No integer type of the source comes near the
    range where a [double] overflows.) *)
Definition of_Z (z : Z) : Z :=
  let a := Z.abs z in
  if a <? 9007199254740992 then z
  else
    let e := Z.log2 a - 52 in
    let q := Z.shiftr a e in
    let r := a - Z.shiftl q e in
    let half := Z.shiftl 1 (e - 1) in
    let m := if r <? half then q
             else if half <? r then q + 1
             else if Z.even q then q else q + 1 in
    Z.sgn z * Z.shiftl m e.

(** The integers that every [double] conversion keeps. *)
Definition exact (z : Z) : Prop := Z.abs z <= 9007199254740992.

(** The same conversion through the standard library's specification of
    IEEE 754 arithmetic, at the format of [double] (53 bits of
    precision, exponents below 1024). *)
Definition of_Z_ieee (z : Z) : option Z :=
  match SpecFloat.binary_normalize 53 1024 z 0 false with
  | SpecFloat.S754_zero _ => Some 0
  | SpecFloat.S754_finite s m e =>
      let magnitude :=
        match e with
        | Z0 => Z.pos m
        | Z.pos p => Z.shiftl (Z.pos m) (Z.pos p)
        | Z.neg p => Z.shiftr (Z.pos m) (Z.pos p)
        end in
      Some (if s then - magnitude else magnitude)
  | _ => None
  end.

End Float64.

(** ** World loader ([OpenWorld]) *)

Module WorldLoader.
Import MachineInt.

(** Entries supplied by the file-format library ([WorldData]).  Its
    integers are wider than [int] on some targets, which is why the
    loader converts the ids with [int(...)]. *)
Record WorldTerrainTile := { tt_x : Z; tt_y : Z; tt_id : Z }.
Record WorldScenery := { sc_x : Z; sc_y : Z; sc_id : Z }.
Record WorldPathTile := { pt_x : Z; pt_y : Z; pt_id : Z }.
Record WorldMusicBox := { mb_x : Z; mb_y : Z; mb_id : Z }.
Record WorldLevelTile := {
  lt_x : Z; lt_y : Z; lt_id : Z;
  lt_lvlfile : string; lt_title : string;
  lt_top_exit : Z; lt_left_exit : Z; lt_bottom_exit : Z; lt_right_exit : Z;
  lt_entertowarp : Z; lt_alwaysVisible : bool; lt_pathbg : bool;
  lt_gamestart : bool; lt_gotox : Z; lt_gotoy : Z; lt_bigpathbg : bool
}.

Record WorldData := {
  tiles : list WorldTerrainTile;
  scenery : list WorldScenery;
  paths : list WorldPathTile;
  levels : list WorldLevelTile;
  music : list WorldMusicBox
}.

(** Engine-side records.  The coordinates and sizes of a location are
    [double]s in the source; they only ever hold whole numbers (integers
    of the file, table entries and constants, converted with
    [Float64.of_Z]) and are modelled by these numbers. *)
Record Location_t := mkLocation { X : Z; Y : Z; Width : Z; Height : Z }.

Definition set_X (v : Z) (l : Location_t) := mkLocation v (Y l) (Width l) (Height l).
Definition set_Y (v : Z) (l : Location_t) := mkLocation (X l) v (Width l) (Height l).
Definition set_Width (v : Z) (l : Location_t) := mkLocation (X l) (Y l) v (Height l).
Definition set_Height (v : Z) (l : Location_t) := mkLocation (X l) (Y l) (Width l) v.

Definition blankLocation : Location_t := mkLocation 0 0 0 0.

Record Tile_t := mkTile { Tile_Location : Location_t; Tile_Type : Z }.
Record Scene_t := mkScene { Scene_Location : Location_t; Scene_Type : Z; Scene_Active : bool }.
Record WorldPath_t := mkWorldPath { WorldPath_Location : Location_t; WorldPath_Type : Z; WorldPath_Active : bool }.
Record WorldMusic_t := mkWorldMusic { WorldMusic_Location : Location_t; WorldMusic_Type : Z }.
Record WorldLevel_t := mkWorldLevel {
  WorldLevel_Location : Location_t;
  WorldLevel_Type : Z;
  WorldLevel_FileName : string;
  WorldLevel_LevelName : string;
  WorldLevel_LevelExit : gmap Z Z;
  WorldLevel_StartWarp : Z;
  WorldLevel_Visible : bool;
  WorldLevel_Active : bool;
  WorldLevel_Path : bool;
  WorldLevel_Start : bool;
  WorldLevel_WarpX : Z;
  WorldLevel_WarpY : Z;
  WorldLevel_Path2 : bool
}.

Definition blankTile : Tile_t := mkTile blankLocation 0.
Definition blankScene : Scene_t := mkScene blankLocation 0 false.
Definition blankPath : WorldPath_t := mkWorldPath blankLocation 0 false.
Definition blankMusic : WorldMusic_t := mkWorldMusic blankLocation 0.
Definition blankLevel : WorldLevel_t :=
  mkWorldLevel blankLocation 0 "" "" ∅ 0 false false false false 0 0 false.

(** A fixed-range global array with cells [0..hi].  An access outside the
    range is an error ([None]): nothing is stored there. *)
Definition arr_read {T} (hi : Z) (blank : T) (i : Z) (a : gmap Z T) : option T :=
  if bool_decide (0 <= i <= hi) then Some (default blank (a !! i)) else None.

Definition arr_write {T} (hi : Z) (blank : T) (i : Z) (f : T -> T) (a : gmap Z T)
  : option (gmap Z T) :=
  if bool_decide (0 <= i <= hi) then Some (<[i := f (default blank (a !! i))]> a) else None.

(** The shape shared by the five loading loops:
<<
    for(auto &x : items) {
        num++;
        if(num > maxN) { num = maxN; break; }
        body
    }
>> *)
Fixpoint load_loop {A T} (maxN : Z) (body : A -> Z -> gmap Z T -> option (gmap Z T))
    (items : list A) (num : Z) (arr : gmap Z T) : option (Z * gmap Z T) :=
  match items with
  | [] => Some (num, arr)
  | x :: rest =>
      let num := num + 1 in
      if bool_decide (num > maxN) then Some (maxN, arr)
      else arr' ← body x num arr; load_loop maxN body rest num arr'
  end.

Section OpenWorld.

(** Array capacities and the tile/scenery size tables come from
    [globals.h], which is not part of the embedded sources: they are
    parameters.  [TileWidth i] is what the read [TileWidth[i]] yields;
    the loader indexes the tables with the type it has just stored. *)
Variables maxTiles maxScenes maxWorldPaths maxWorldLevels maxWorldMusic : Z.
Variables TileWidth TileHeight SceneWidth SceneHeight : Z -> Z.

(** The body of the terrain loop:
<<
        Tile[numTiles].Location.X = t.x;
        Tile[numTiles].Location.Y = t.y;
        Tile[numTiles].Type = int(t.id);
        Tile[numTiles].Location.Width = TileWidth[Tile[numTiles].Type];
        Tile[numTiles].Location.Height = TileHeight[Tile[numTiles].Type];
>> *)
Definition tile_body (t : WorldTerrainTile) (numTiles : Z) (Tile : gmap Z Tile_t)
  : option (gmap Z Tile_t) :=
  let wr := arr_write maxTiles blankTile numTiles in
  Tile ← wr (fun c => mkTile (set_X (Float64.of_Z (tt_x t)) (Tile_Location c)) (Tile_Type c)) Tile;
  Tile ← wr (fun c => mkTile (set_Y (Float64.of_Z (tt_y t)) (Tile_Location c)) (Tile_Type c)) Tile;
  Tile ← wr (fun c => mkTile (Tile_Location c) (wrap32 (tt_id t))) Tile;
  cur ← arr_read maxTiles blankTile numTiles Tile;
  Tile ← wr (fun c => mkTile (set_Width (Float64.of_Z (TileWidth (Tile_Type cur))) (Tile_Location c))
                      (Tile_Type c)) Tile;
  cur ← arr_read maxTiles blankTile numTiles Tile;
  wr (fun c => mkTile (set_Height (Float64.of_Z (TileHeight (Tile_Type cur))) (Tile_Location c))
               (Tile_Type c)) Tile.

(** The body of the scenery loop; the type is [int(s.id)]. *)
Definition scene_body (s : WorldScenery) (numScenes : Z) (Scene : gmap Z Scene_t)
  : option (gmap Z Scene_t) :=
  let wr := arr_write maxScenes blankScene numScenes in
  Scene ← wr (fun c => mkScene (Scene_Location c) (wrap32 (sc_id s)) (Scene_Active c)) Scene;
  Scene ← wr (fun c => mkScene (set_X (Float64.of_Z (sc_x s)) (Scene_Location c))
                        (Scene_Type c) (Scene_Active c)) Scene;
  Scene ← wr (fun c => mkScene (set_Y (Float64.of_Z (sc_y s)) (Scene_Location c))
                        (Scene_Type c) (Scene_Active c)) Scene;
  cur ← arr_read maxScenes blankScene numScenes Scene;
  Scene ← wr (fun c => mkScene (set_Width (Float64.of_Z (SceneWidth (Scene_Type cur)))
                                  (Scene_Location c))
                               (Scene_Type c) (Scene_Active c)) Scene;
  cur ← arr_read maxScenes blankScene numScenes Scene;
  Scene ← wr (fun c => mkScene (set_Height (Float64.of_Z (SceneHeight (Scene_Type cur)))
                                  (Scene_Location c))
                               (Scene_Type c) (Scene_Active c)) Scene;
  wr (fun c => mkScene (Scene_Location c) (Scene_Type c) true) Scene.

(** The body of the path loop; the type is [int(p.id)]. *)
Definition path_body (p : WorldPathTile) (numWorldPaths : Z) (WorldPath : gmap Z WorldPath_t)
  : option (gmap Z WorldPath_t) :=
  let wr := arr_write maxWorldPaths blankPath numWorldPaths in
  let loc g := fun c => mkWorldPath (g (WorldPath_Location c)) (WorldPath_Type c) (WorldPath_Active c) in
  WorldPath ← wr (loc (set_X (Float64.of_Z (pt_x p)))) WorldPath;
  WorldPath ← wr (loc (set_Y (Float64.of_Z (pt_y p)))) WorldPath;
  WorldPath ← wr (fun c => mkWorldPath (WorldPath_Location c) (wrap32 (pt_id p))
                         (WorldPath_Active c)) WorldPath;
  WorldPath ← wr (loc (set_Width 32)) WorldPath;
  wr (loc (set_Height 32)) WorldPath.

(** The assignments of the level loop, in order; the type is
    [int(l.id)] and the start warp [int(l.entertowarp)]; the exits go
    into an array of [int]; the warp target is kept in [double]s like
    the location. *)
Definition level_fields (l : WorldLevelTile) : list (WorldLevel_t -> WorldLevel_t) :=
  let upd_loc g c :=
    mkWorldLevel (g (WorldLevel_Location c)) (WorldLevel_Type c) (WorldLevel_FileName c)
      (WorldLevel_LevelName c) (WorldLevel_LevelExit c) (WorldLevel_StartWarp c)
      (WorldLevel_Visible c) (WorldLevel_Active c) (WorldLevel_Path c) (WorldLevel_Start c)
      (WorldLevel_WarpX c) (WorldLevel_WarpY c) (WorldLevel_Path2 c) in
  let upd_exit k v c :=
    mkWorldLevel (WorldLevel_Location c) (WorldLevel_Type c) (WorldLevel_FileName c)
      (WorldLevel_LevelName c) (<[k := v]> (WorldLevel_LevelExit c)) (WorldLevel_StartWarp c)
      (WorldLevel_Visible c) (WorldLevel_Active c) (WorldLevel_Path c) (WorldLevel_Start c)
      (WorldLevel_WarpX c) (WorldLevel_WarpY c) (WorldLevel_Path2 c) in
  [ upd_loc (set_X (Float64.of_Z (lt_x l)));
    upd_loc (set_Y (Float64.of_Z (lt_y l)));
    (fun c => mkWorldLevel (WorldLevel_Location c) (wrap32 (lt_id l)) (WorldLevel_FileName c)
      (WorldLevel_LevelName c) (WorldLevel_LevelExit c) (WorldLevel_StartWarp c)
      (WorldLevel_Visible c) (WorldLevel_Active c) (WorldLevel_Path c) (WorldLevel_Start c)
      (WorldLevel_WarpX c) (WorldLevel_WarpY c) (WorldLevel_Path2 c));
    (fun c => mkWorldLevel (WorldLevel_Location c) (WorldLevel_Type c) (lt_lvlfile l)
      (WorldLevel_LevelName c) (WorldLevel_LevelExit c) (WorldLevel_StartWarp c)
      (WorldLevel_Visible c) (WorldLevel_Active c) (WorldLevel_Path c) (WorldLevel_Start c)
      (WorldLevel_WarpX c) (WorldLevel_WarpY c) (WorldLevel_Path2 c));
    (fun c => mkWorldLevel (WorldLevel_Location c) (WorldLevel_Type c) (WorldLevel_FileName c)
      (lt_title l) (WorldLevel_LevelExit c) (WorldLevel_StartWarp c)
      (WorldLevel_Visible c) (WorldLevel_Active c) (WorldLevel_Path c) (WorldLevel_Start c)
      (WorldLevel_WarpX c) (WorldLevel_WarpY c) (WorldLevel_Path2 c));
    upd_exit 1 (wrap32 (lt_top_exit l));
    upd_exit 2 (wrap32 (lt_left_exit l));
    upd_exit 3 (wrap32 (lt_bottom_exit l));
    upd_exit 4 (wrap32 (lt_right_exit l));
    upd_loc (set_Width 32);
    upd_loc (set_Height 32);
    (fun c => mkWorldLevel (WorldLevel_Location c) (WorldLevel_Type c) (WorldLevel_FileName c)
      (WorldLevel_LevelName c) (WorldLevel_LevelExit c) (wrap32 (lt_entertowarp l))
      (WorldLevel_Visible c) (WorldLevel_Active c) (WorldLevel_Path c) (WorldLevel_Start c)
      (WorldLevel_WarpX c) (WorldLevel_WarpY c) (WorldLevel_Path2 c));
    (fun c => mkWorldLevel (WorldLevel_Location c) (WorldLevel_Type c) (WorldLevel_FileName c)
      (WorldLevel_LevelName c) (WorldLevel_LevelExit c) (WorldLevel_StartWarp c)
      (lt_alwaysVisible l) (WorldLevel_Active c) (WorldLevel_Path c) (WorldLevel_Start c)
      (WorldLevel_WarpX c) (WorldLevel_WarpY c) (WorldLevel_Path2 c));
    (fun c => mkWorldLevel (WorldLevel_Location c) (WorldLevel_Type c) (WorldLevel_FileName c)
      (WorldLevel_LevelName c) (WorldLevel_LevelExit c) (WorldLevel_StartWarp c)
      (WorldLevel_Visible c) (WorldLevel_Visible c) (WorldLevel_Path c) (WorldLevel_Start c)
      (WorldLevel_WarpX c) (WorldLevel_WarpY c) (WorldLevel_Path2 c));
    (fun c => mkWorldLevel (WorldLevel_Location c) (WorldLevel_Type c) (WorldLevel_FileName c)
      (WorldLevel_LevelName c) (WorldLevel_LevelExit c) (WorldLevel_StartWarp c)
      (WorldLevel_Visible c) (WorldLevel_Active c) (lt_pathbg l) (WorldLevel_Start c)
      (WorldLevel_WarpX c) (WorldLevel_WarpY c) (WorldLevel_Path2 c));
    (fun c => mkWorldLevel (WorldLevel_Location c) (WorldLevel_Type c) (WorldLevel_FileName c)
      (WorldLevel_LevelName c) (WorldLevel_LevelExit c) (WorldLevel_StartWarp c)
      (WorldLevel_Visible c) (WorldLevel_Active c) (WorldLevel_Path c) (lt_gamestart l)
      (WorldLevel_WarpX c) (WorldLevel_WarpY c) (WorldLevel_Path2 c));
    (fun c => mkWorldLevel (WorldLevel_Location c) (WorldLevel_Type c) (WorldLevel_FileName c)
      (WorldLevel_LevelName c) (WorldLevel_LevelExit c) (WorldLevel_StartWarp c)
      (WorldLevel_Visible c) (WorldLevel_Active c) (WorldLevel_Path c) (WorldLevel_Start c)
      (Float64.of_Z (lt_gotox l)) (WorldLevel_WarpY c) (WorldLevel_Path2 c));
    (fun c => mkWorldLevel (WorldLevel_Location c) (WorldLevel_Type c) (WorldLevel_FileName c)
      (WorldLevel_LevelName c) (WorldLevel_LevelExit c) (WorldLevel_StartWarp c)
      (WorldLevel_Visible c) (WorldLevel_Active c) (WorldLevel_Path c) (WorldLevel_Start c)
      (WorldLevel_WarpX c) (Float64.of_Z (lt_gotoy l)) (WorldLevel_Path2 c));
    (fun c => mkWorldLevel (WorldLevel_Location c) (WorldLevel_Type c) (WorldLevel_FileName c)
      (WorldLevel_LevelName c) (WorldLevel_LevelExit c) (WorldLevel_StartWarp c)
      (WorldLevel_Visible c) (WorldLevel_Active c) (WorldLevel_Path c) (WorldLevel_Start c)
      (WorldLevel_WarpX c) (WorldLevel_WarpY c) (lt_bigpathbg l)) ].

(** The statements of a loop body: one store to the same cell per field. *)
Fixpoint write_all {T} (hi : Z) (blank : T) (i : Z) (fs : list (T -> T)) (a : gmap Z T)
  : option (gmap Z T) :=
  match fs with
  | [] => Some a
  | f :: fs' => a' ← arr_write hi blank i f a; write_all hi blank i fs' a'
  end.

Definition level_body (l : WorldLevelTile) (numWorldLevels : Z) (WorldLevel : gmap Z WorldLevel_t)
  : option (gmap Z WorldLevel_t) :=
  write_all maxWorldLevels blankLevel numWorldLevels (level_fields l) WorldLevel.

(** The body of the music loop; the type is [int(m.id)]. *)
Definition music_body (m : WorldMusicBox) (numWorldMusic : Z) (WorldMusic : gmap Z WorldMusic_t)
  : option (gmap Z WorldMusic_t) :=
  let loc g := fun c => mkWorldMusic (g (WorldMusic_Location c)) (WorldMusic_Type c) in
  write_all maxWorldMusic blankMusic numWorldMusic
    [ loc (set_X (Float64.of_Z (mb_x m)));
      loc (set_Y (Float64.of_Z (mb_y m)));
      (fun c => mkWorldMusic (WorldMusic_Location c) (wrap32 (mb_id m)));
      loc (set_Width 30);
      loc (set_Height 30);
      loc (fun l => set_Y (Float64.of_Z (Y l + 1)) l);
      loc (fun l => set_X (Float64.of_Z (X l + 1)) l) ] WorldMusic.

(** The world arrays and their counters. *)
Record World := mkWorld {
  numTiles : Z; numScenes : Z; numWorldPaths : Z; numWorldLevels : Z; numWorldMusic : Z;
  Tile : gmap Z Tile_t;
  Scene : gmap Z Scene_t;
  WorldPath : gmap Z WorldPath_t;
  WorldLevel : gmap Z WorldLevel_t;
  WorldMusic : gmap Z WorldMusic_t
}.

(** [ClearWorld], as far as the arrays go: cells [1..num] are blanked and
    the counters are reset. *)
Fixpoint blank_cells {T} (hi : Z) (blank : T) (n : nat) (a : gmap Z T) : option (gmap Z T) :=
  match n with
  | O => Some a
  | S k => a' ← blank_cells hi blank k a; arr_write hi blank (Z.of_nat (S k)) (fun _ => blank) a'
  end.

Definition ClearWorld (w : World) : option World :=
  t ← blank_cells maxTiles blankTile (Z.to_nat (numTiles w)) (Tile w);
  p ← blank_cells maxWorldPaths blankPath (Z.to_nat (numWorldPaths w)) (WorldPath w);
  s ← blank_cells maxScenes blankScene (Z.to_nat (numScenes w)) (Scene w);
  l ← blank_cells maxWorldLevels blankLevel (Z.to_nat (numWorldLevels w)) (WorldLevel w);
  m ← blank_cells maxWorldMusic blankMusic (Z.to_nat (numWorldMusic w)) (WorldMusic w);
  Some (mkWorld 0 0 0 0 0 t s p l m).

(** [OpenWorld] from its call of [ClearWorld] to the end of the five
    loading loops: the arrays are cleared, the counters are zeroed and
    each loop fills its array from the world file.  The two closing loops
    of [OpenWorld] follow below ([place_player],
    [activate_start_levels]). *)
Definition OpenWorld_arrays (wld : WorldData) (w : World) : option World :=
  w ← ClearWorld w;
  '(nT, aT) ← load_loop maxTiles tile_body (tiles wld) 0 (Tile w);
  '(nS, aS) ← load_loop maxScenes scene_body (scenery wld) 0 (Scene w);
  '(nP, aP) ← load_loop maxWorldPaths path_body (paths wld) 0 (WorldPath w);
  '(nL, aL) ← load_loop maxWorldLevels level_body (levels wld) 0 (WorldLevel w);
  '(nM, aM) ← load_loop maxWorldMusic music_body (music wld) 0 (WorldMusic w);
  Some (mkWorld nT nS nP nL nM aT aS aP aL aM).

(** The invariant on the counters: each stays within its array. *)
Definition counters_ok (w : World) : Prop :=
  0 <= numTiles w <= maxTiles /\ 0 <= numScenes w <= maxScenes /\
  0 <= numWorldPaths w <= maxWorldPaths /\ 0 <= numWorldLevels w <= maxWorldLevels /\
  0 <= numWorldMusic w <= maxWorldMusic.

End OpenWorld.

(** A small instance: arrays of two cells and a world file with three
    tiles, one scenery item and three music boxes. *)
Definition small_world_file : WorldData :=
  {| tiles := [ {| tt_x := 0; tt_y := 0; tt_id := 1 |};
                {| tt_x := 32; tt_y := 0; tt_id := 2 |};
                {| tt_x := 64; tt_y := 0; tt_id := 1 |} ];
     scenery := [ {| sc_x := 8; sc_y := 8; sc_id := 3 |} ];
     paths := [];
     levels := [];
     music := [ {| mb_x := 0; mb_y := 0; mb_id := 1 |};
                {| mb_x := 32; mb_y := 0; mb_id := 2 |};
                {| mb_x := 64; mb_y := 0; mb_id := 3 |} ] |}.

Definition empty_world : World := mkWorld 0 0 0 0 0 ∅ ∅ ∅ ∅ ∅.

(** ** [OpenWorld]: the credits and the two closing loops *)

(** The player on the world map ([WorldPlayer[1]]). *)
Record WorldPlayer_t := mkWorldPlayer { WorldPlayer_Type : Z; WorldPlayer_Location : Location_t }.

(** [int FileRelease = 0;] is never assigned in [OpenWorld]. *)
Definition FileRelease : Z := 0.

Section OpenWorldRest.

Variables maxWorldCredits maxWorldLevels : Z.

(** [LevelPath] is defined outside the sources at hand and works on the
    global arrays: it is a parameter that transforms the world. *)
Variable LevelPath : Z -> Z -> bool -> World -> World.

(** The authors of the episode:
<<
    B = 0;
    for(auto &c : wld.authors)
    {
        B++;
        if(B > maxWorldCredits)
            break;
        WorldCredits[B] = c;
    }
>> *)
Fixpoint credits_loop (authors : list string) (B : Z) (WorldCredits : gmap Z string)
  : option (gmap Z string) :=
  match authors with
  | [] => Some WorldCredits
  | c :: rest =>
      let B := B + 1 in
      if bool_decide (B > maxWorldCredits) then Some WorldCredits
      else
        WorldCredits ← arr_write maxWorldCredits "" B (fun _ => c) WorldCredits;
        credits_loop rest B WorldCredits
  end.

(** The credits of [OpenWorld]: every line is cleared
    ([for(int i = 1; i <= maxWorldCredits; i++) WorldCredits[i].clear();]),
    then the authors are copied. *)
Definition load_credits (authors : list string) (WorldCredits : gmap Z string)
  : option (gmap Z string) :=
  WorldCredits ← blank_cells maxWorldCredits "" (Z.to_nat maxWorldCredits) WorldCredits;
  credits_loop authors 0 WorldCredits.

(** The test of both closing loops:
<<
    (FileRelease <= 20 && WorldLevel[A].Type == 1) || (FileRelease > 20 && WorldLevel[A].Start == true)
>> *)
Definition starts_here (c : WorldLevel_t) : bool :=
  (bool_decide (FileRelease <= 20) && bool_decide (WorldLevel_Type c = 1))
  || (bool_decide (FileRelease > 20) && WorldLevel_Start c).

(** The first closing loop, [n] iterations from index [A]:
<<
    for(A = 1; A <= numWorldLevels; A++)
    {
        if(...)
        {
            WorldPlayer[1].Type = 1;
            WorldPlayer[1].Location = WorldLevel[A].Location;
            break;
        }
    }
>> *)
Fixpoint start_loop (n : nat) (A : Z) (WorldLevel : gmap Z WorldLevel_t)
    (player : WorldPlayer_t) : option WorldPlayer_t :=
  match n with
  | O => Some player
  | S k =>
      c ← arr_read maxWorldLevels blankLevel A WorldLevel;
      if starts_here c then
        let player := mkWorldPlayer 1 (WorldPlayer_Location player) in
        c ← arr_read maxWorldLevels blankLevel A WorldLevel;
        Some (mkWorldPlayer (WorldPlayer_Type player) (WorldLevel_Location c))
      else start_loop k (A + 1) WorldLevel player
  end.

Definition place_player (w : World) (player : WorldPlayer_t) : option WorldPlayer_t :=
  start_loop (Z.to_nat (numWorldLevels w)) 1 (WorldLevel w) player.

Definition set_Active (v : bool) (c : WorldLevel_t) : WorldLevel_t :=
  mkWorldLevel (WorldLevel_Location c) (WorldLevel_Type c) (WorldLevel_FileName c)
    (WorldLevel_LevelName c) (WorldLevel_LevelExit c) (WorldLevel_StartWarp c)
    (WorldLevel_Visible c) v (WorldLevel_Path c) (WorldLevel_Start c)
    (WorldLevel_WarpX c) (WorldLevel_WarpY c) (WorldLevel_Path2 c).

Definition set_WorldLevel (a : gmap Z WorldLevel_t) (w : World) : World :=
  mkWorld (numTiles w) (numScenes w) (numWorldPaths w) (numWorldLevels w) (numWorldMusic w)
    (Tile w) (Scene w) (WorldPath w) a (WorldMusic w).

(** The second closing loop:
<<
    for(A = 1; A <= numWorldLevels; A++)
    {
        if(...)
        {
            WorldLevel[A].Active = true;
            LevelPath(A, 5, true);
        }
    }
>>
    [LevelPath] may change the globals the loop reads, so the counter and
    the cell are read anew in every round and the rounds are counted by
    [fuel] ([None] when it runs out).  A round ends the loop, fails on
    [WorldLevel[A]] or moves [A] up by one, so that
    [maxWorldLevels + 1] rounds are always enough
    ([activate_loop_fuel]). *)
Fixpoint activate_loop (fuel : nat) (A : Z) (w : World) : option World :=
  match fuel with
  | O => None
  | S k =>
      if bool_decide (A <= numWorldLevels w) then
        c ← arr_read maxWorldLevels blankLevel A (WorldLevel w);
        if starts_here c then
          levels ← arr_write maxWorldLevels blankLevel A (set_Active true) (WorldLevel w);
          activate_loop k (A + 1) (LevelPath A 5 true (set_WorldLevel levels w))
        else activate_loop k (A + 1) w
      else Some w
  end.

Definition activate_start_levels (w : World) : option World :=
  activate_loop (Z.to_nat maxWorldLevels + 1) 1 w.

End OpenWorldRest.

(** The level in cell [i] of the world. *)
Definition level_at (w : World) (i : Z) : WorldLevel_t :=
  default blankLevel (WorldLevel w !! i).

(** What the second closing loop needs of [LevelPath]: the number of
    levels and every level stay as they are, but for the [Active]
    flags, which may be set and are never cleared. *)
Definition levels_kept (w w' : World) : Prop :=
  numWorldLevels w' = numWorldLevels w
  /\ forall i, set_Active false (level_at w' i) = set_Active false (level_at w i)
               /\ (WorldLevel_Active (level_at w i) = true ->
                   WorldLevel_Active (level_at w' i) = true).

(** A stand-in for [LevelPath] that opens the level before the one it
    is called for. *)
Definition open_previous (A : Z) (direction : Z) (skip : bool) (w : World) : World :=
  set_WorldLevel (<[A - 1 := set_Active true (level_at w (A - 1))]> (WorldLevel w)) w.

(** The first level tile of a world file whose id is 1 as an [int]. *)
Definition first_of_type_1 (levels : list WorldLevelTile) : option WorldLevelTile :=
  List.find (fun l => bool_decide (wrap32 (lt_id l) = 1)) levels.

(** A world file with two level tiles; the id of the second tile is 1
    as an [int] (it wraps around), the first tile carries the game-start
    flag. *)
Definition two_level_file : WorldData :=
  {| tiles := []; scenery := []; paths := [];
     levels := [ {| lt_x := 64; lt_y := 32; lt_id := 3; lt_lvlfile := "a.lvl"; lt_title := "A";
                    lt_top_exit := 0; lt_left_exit := 0; lt_bottom_exit := 0; lt_right_exit := 0;
                    lt_entertowarp := 0; lt_alwaysVisible := true; lt_pathbg := false;
                    lt_gamestart := true; lt_gotox := 0; lt_gotoy := 0; lt_bigpathbg := false |};
                 {| lt_x := 96; lt_y := 32; lt_id := 4294967297; lt_lvlfile := "b.lvl";
                    lt_title := "B";
                    lt_top_exit := 0; lt_left_exit := 0; lt_bottom_exit := 0; lt_right_exit := 0;
                    lt_entertowarp := 0; lt_alwaysVisible := false; lt_pathbg := true;
                    lt_gamestart := false; lt_gotox := 0; lt_gotoy := 0; lt_bigpathbg := false |} ];
     music := [] |}.

(** A world in use: two scenery items and one active path tile. *)
Definition used_world : World :=
  mkWorld 0 2 1 0 0 ∅
    {[ 1 := mkScene (mkLocation 0 0 16 16) 5 true;
       2 := mkScene (mkLocation 16 0 16 16) 5 true ]}
    {[ 1 := mkWorldPath (mkLocation 0 0 32 32) 2 true ]} ∅ ∅.

(** A world file with one path tile and one music box, whose id does
    not fit an [int]. *)
Definition path_file : WorldData :=
  {| tiles := []; scenery := [];
     paths := [ {| pt_x := 32; pt_y := 64; pt_id := 4 |} ];
     levels := [];
     music := [ {| mb_x := 10; mb_y := 20; mb_id := 4294967295 |} ] |}.

(** ** Reading the arrays *)

(** Cells [1..n] of [a'] are blank and the others are those of [a]. *)
Definition blanked {T} (n : Z) (blank : T) (a a' : gmap Z T) : Prop :=
  (forall i, 1 <= i <= n -> a' !! i = Some blank)
  /\ (forall i, ~ (1 <= i <= n) -> a' !! i = a !! i).

(** The cells a loading loop has filled from [items], starting from the
    array [arr0] with its counter at 0: the counter is the number of
    items or the capacity, item [k] is in cell [k + 1], and no other cell
    is touched. *)
Definition loaded {A T} (maxN : Z) (blank : T) (conv : A -> T -> T) (items : list A)
    (arr0 : gmap Z T) (num : Z) (arr : gmap Z T) : Prop :=
  num = Z.min (Z.of_nat (length items)) maxN
  /\ (forall (k : nat) x, items !! k = Some x -> Z.of_nat k < maxN ->
        arr !! (Z.of_nat k + 1) = Some (conv x (default blank (arr0 !! (Z.of_nat k + 1)))))
  /\ (forall j, j <= 0 \/ num < j -> arr !! j = arr0 !! j).


End WorldLoader.

(** ** The 3DS renderer: data model ([render_3ds.cpp]) *)

Module XRender.
Import MachineInt.

(** *** Backend objects *)

Record Tex3DS_SubTexture := mkSubTexture { width : Z; height : Z }.

(** A drawable view: the backend texture it samples and its sub-region. *)
Record C2D_Image := mkImage { tex : Z; subtex : Tex3DS_SubTexture }.

(** A loaded sprite sheet (a non-null [C2D_SpriteSheet]); a null handle
    is [None]. *)
Record C2D_SpriteSheet := mkSheet { sheet_id : Z; sheet_image : C2D_Image }.

Definition C2D_SpriteSheetGetImage (sheet : C2D_SpriteSheet) (index : Z) : C2D_Image :=
  sheet_image sheet.

Definition blankImage : C2D_Image := mkImage 0 (mkSubTexture 0 0).

(** The physical screens and the four composition layers. *)
Inductive C3D_RenderTarget :=
| s_top_screen
| s_right_screen
| s_bottom_screen
| s_layer_targets (layer : Z).

#[global] Instance C3D_RenderTarget_eq_dec : EqDecision C3D_RenderTarget.
Proof. solve_decision. Defined.

(** Pictures drawn by [C2D_DrawImage_Custom]: a texture band or the
    image of a composition layer. *)
Inductive Drawable :=
| PictureImage (im : C2D_Image)
| s_layer_ims (layer : Z).

(** The four tint multipliers handed through to the backend. *)
Record Tint := mkTint { red : Q; green : Q; blue : Q; alpha : Q }.

Definition untinted : Tint := mkTint 1 1 1 1.

Definition X_FLIP_NONE : Z := 0.

(** [C2D_Color32(r, g, b, a)] and [C2D_Color32f] on the two colours the
    file uses. *)
Definition C2D_Color32 (r g b a : Z) : Z :=
  Z.lor r (Z.lor (Z.shiftl g 8) (Z.lor (Z.shiftl b 16) (Z.shiftl a 24))).

Definition transparent : Z := C2D_Color32 0 0 0 0.
Definition opaque_black : Z := C2D_Color32 0 0 0 255.

(** *** Texture resource ([StdPicture]) *)

Record StdPicture := mkStdPicture {
  inited : bool;
  w : Z;
  h : Z;
  frame_w : Z;
  frame_h : Z;
  l_path : string;
  l_lazyLoaded : bool;
  d_texture : option C2D_SpriteSheet;
  d_image : C2D_Image;
  d_texture2 : option C2D_SpriteSheet;
  d_image2 : C2D_Image;
  d_texture3 : option C2D_SpriteSheet;
  d_image3 : C2D_Image
}.

Definition set_inited (v : bool) (t : StdPicture) : StdPicture :=
  mkStdPicture v (w t) (h t) (frame_w t) (frame_h t) (l_path t) (l_lazyLoaded t)
    (d_texture t) (d_image t) (d_texture2 t) (d_image2 t) (d_texture3 t) (d_image3 t).

Definition set_size (vw vh : Z) (t : StdPicture) : StdPicture :=
  mkStdPicture (inited t) vw vh (frame_w t) (frame_h t) (l_path t) (l_lazyLoaded t)
    (d_texture t) (d_image t) (d_texture2 t) (d_image2 t) (d_texture3 t) (d_image3 t).

Definition set_frame_size (vw vh : Z) (t : StdPicture) : StdPicture :=
  mkStdPicture (inited t) (w t) (h t) vw vh (l_path t) (l_lazyLoaded t)
    (d_texture t) (d_image t) (d_texture2 t) (d_image2 t) (d_texture3 t) (d_image3 t).

Definition set_path (p : string) (t : StdPicture) : StdPicture :=
  mkStdPicture (inited t) (w t) (h t) (frame_w t) (frame_h t) p (l_lazyLoaded t)
    (d_texture t) (d_image t) (d_texture2 t) (d_image2 t) (d_texture3 t) (d_image3 t).

Definition set_lazyLoaded (v : bool) (t : StdPicture) : StdPicture :=
  mkStdPicture (inited t) (w t) (h t) (frame_w t) (frame_h t) (l_path t) v
    (d_texture t) (d_image t) (d_texture2 t) (d_image2 t) (d_texture3 t) (d_image3 t).

Definition set_texture (s : option C2D_SpriteSheet) (t : StdPicture) : StdPicture :=
  mkStdPicture (inited t) (w t) (h t) (frame_w t) (frame_h t) (l_path t) (l_lazyLoaded t)
    s (d_image t) (d_texture2 t) (d_image2 t) (d_texture3 t) (d_image3 t).

Definition set_image (im : C2D_Image) (t : StdPicture) : StdPicture :=
  mkStdPicture (inited t) (w t) (h t) (frame_w t) (frame_h t) (l_path t) (l_lazyLoaded t)
    (d_texture t) im (d_texture2 t) (d_image2 t) (d_texture3 t) (d_image3 t).

Definition set_texture2 (s : option C2D_SpriteSheet) (t : StdPicture) : StdPicture :=
  mkStdPicture (inited t) (w t) (h t) (frame_w t) (frame_h t) (l_path t) (l_lazyLoaded t)
    (d_texture t) (d_image t) s (d_image2 t) (d_texture3 t) (d_image3 t).

Definition set_image2 (im : C2D_Image) (t : StdPicture) : StdPicture :=
  mkStdPicture (inited t) (w t) (h t) (frame_w t) (frame_h t) (l_path t) (l_lazyLoaded t)
    (d_texture t) (d_image t) (d_texture2 t) im (d_texture3 t) (d_image3 t).

Definition set_texture3 (s : option C2D_SpriteSheet) (t : StdPicture) : StdPicture :=
  mkStdPicture (inited t) (w t) (h t) (frame_w t) (frame_h t) (l_path t) (l_lazyLoaded t)
    (d_texture t) (d_image t) (d_texture2 t) (d_image2 t) s (d_image3 t).

Definition set_image3 (im : C2D_Image) (t : StdPicture) : StdPicture :=
  mkStdPicture (inited t) (w t) (h t) (frame_w t) (frame_h t) (l_path t) (l_lazyLoaded t)
    (d_texture t) (d_image t) (d_texture2 t) (d_image2 t) (d_texture3 t) im.

(** Modelled from the spec: the default-constructed [StdPicture] (the
    struct is declared in a header outside the embedded sources).  A
    resource is "created empty": not inited, not lazy, no dimensions, no
    path and no backend handle. *)
Definition emptyPicture : StdPicture :=
  mkStdPicture false 0 0 0 0 "" false None blankImage None blankImage None blankImage.

(** *** Calls that leave the file *)

Inductive Event :=
| ev_C2D_SpriteSheetLoad (path : string) (result : option C2D_SpriteSheet)
| ev_C2D_SpriteSheetFree (sheet : C2D_SpriteSheet)
| ev_minport_freeTextureMemory
| ev_minport_unlinkTexture (path : string)
| ev_minport_initFrame
| ev_pLogWarning (message : string)
| ev_pLogDebug (message : string)
| ev_C3D_FrameBegin
| ev_C3D_FrameEnd
| ev_C2D_TargetClear (target : C3D_RenderTarget) (color : Z)
| ev_C2D_SceneBegin (target : C3D_RenderTarget)
| ev_C2D_ViewReset
| ev_C2D_ViewSave
| ev_C2D_ViewRestore
| ev_C2D_ViewTranslate (x y : Z)
| ev_C2D_ViewRotateDegrees (angle : Q)
| ev_C2D_Flush
| ev_C3D_SetViewport (x y vw vh : Z)
| ev_C2D_SceneSize (vw vh : Z) (tilt : bool)
| ev_C2D_DrawRectSolid (x y z rw rh : Z) (color : Z)
| ev_renderRect (x y rw rh : Z) (tint : Tint) (filled : bool)
| ev_C2D_DrawImage_Custom (img : Drawable) (xDst yDst wDst hDst : Z)
    (xSrc ySrc wSrc hSrc : Z) (flip : Z) (tint : Tint)
| ev_start_sleep
| ev_start_task_Graphics.

(** The world outside the renderer: texture memory, the file system, the
    depth slider.  Its operations are those of citro2d/citro3d, libc and
    the shared minport code; the renderer is verified for every
    implementation of them. *)
Class Backend (W : Type) := {
  C2D_SpriteSheetLoad : string -> W -> option C2D_SpriteSheet * W;
  C2D_SpriteSheetFree : C2D_SpriteSheet -> W -> W;
  linearSpaceFree : W -> Z;
  (** the eviction pass over the other pictures of the render chain *)
  minport_freeTextureMemory : W -> W;
  (** [fopen(path, "r")]: the bytes of the file, or [None] *)
  fopen : string -> W -> option (list byte);
  (** whether [fclose] reports an error *)
  fclose_fails : string -> W -> bool;
  (** the value found in an uninitialised byte of the stack buffer *)
  indeterminate : W -> nat -> byte;
  osGet3DSliderState : W -> Q;
  (** [target->linked] and the frame buffer size of a render target *)
  linked : C3D_RenderTarget -> bool;
  frameBuf_width : C3D_RenderTarget -> Z;
  frameBuf_height : C3D_RenderTarget -> Z
}.

(** Engine globals the file reads but does not own. *)
Record Engine := mkEngine {
  GameIsActive : bool;
  LevelEditor : bool;
  MagicHand : bool;
  editorScreen_active : bool;
  g_screen_phys_x : Z;
  g_screen_phys_y : Z;
  g_screen_phys_w : Z;
  g_screen_phys_h : Z;
  g_viewport_x : Z;
  g_viewport_y : Z;
  g_viewport_w : Z;
  g_viewport_h : Z;
  g_viewport_offset_x : Z;
  g_viewport_offset_y : Z;
  g_viewport_offset_ignore : bool
}.

(** The file's own globals, the world and the trace of calls so far. *)
Record State (W : Type) := mkState {
  engine : Engine;
  s_current_frame : Z;
  s_depth_slider : Q;
  g_in_frame : bool;
  g_screen_swapped : bool;
  s_single_layer_mode : bool;
  s_tex_show_w : Z;
  s_tex_h : Z;
  s_num_textures_loaded : Z;
  s_cur_target : option C3D_RenderTarget;
  world : W;
  trace : list Event
}.

Arguments mkState {W}.
Arguments engine {W}.
Arguments s_current_frame {W}.
Arguments s_depth_slider {W}.
Arguments g_in_frame {W}.
Arguments g_screen_swapped {W}.
Arguments s_single_layer_mode {W}.
Arguments s_tex_show_w {W}.
Arguments s_tex_h {W}.
Arguments s_num_textures_loaded {W}.
Arguments s_cur_target {W}.
Arguments world {W}.
Arguments trace {W}.

Section StateAccess.
Context {W : Type}.

Definition set_s_current_frame (v : Z) (s : State W) : State W :=
  mkState (engine s) v (s_depth_slider s) (g_in_frame s) (g_screen_swapped s)
    (s_single_layer_mode s) (s_tex_show_w s) (s_tex_h s) (s_num_textures_loaded s)
    (s_cur_target s) (world s) (trace s).

Definition set_s_depth_slider (v : Q) (s : State W) : State W :=
  mkState (engine s) (s_current_frame s) v (g_in_frame s) (g_screen_swapped s)
    (s_single_layer_mode s) (s_tex_show_w s) (s_tex_h s) (s_num_textures_loaded s)
    (s_cur_target s) (world s) (trace s).

Definition set_g_in_frame (v : bool) (s : State W) : State W :=
  mkState (engine s) (s_current_frame s) (s_depth_slider s) v (g_screen_swapped s)
    (s_single_layer_mode s) (s_tex_show_w s) (s_tex_h s) (s_num_textures_loaded s)
    (s_cur_target s) (world s) (trace s).

Definition set_s_num_textures_loaded (v : Z) (s : State W) : State W :=
  mkState (engine s) (s_current_frame s) (s_depth_slider s) (g_in_frame s) (g_screen_swapped s)
    (s_single_layer_mode s) (s_tex_show_w s) (s_tex_h s) v
    (s_cur_target s) (world s) (trace s).

Definition set_s_cur_target (v : option C3D_RenderTarget) (s : State W) : State W :=
  mkState (engine s) (s_current_frame s) (s_depth_slider s) (g_in_frame s) (g_screen_swapped s)
    (s_single_layer_mode s) (s_tex_show_w s) (s_tex_h s) (s_num_textures_loaded s)
    v (world s) (trace s).

Definition set_world (v : W) (s : State W) : State W :=
  mkState (engine s) (s_current_frame s) (s_depth_slider s) (g_in_frame s) (g_screen_swapped s)
    (s_single_layer_mode s) (s_tex_show_w s) (s_tex_h s) (s_num_textures_loaded s)
    (s_cur_target s) v (trace s).

(** Record one call at the end of the trace. *)
Definition emit (e : Event) (s : State W) : State W :=
  mkState (engine s) (s_current_frame s) (s_depth_slider s) (g_in_frame s) (g_screen_swapped s)
    (s_single_layer_mode s) (s_tex_show_w s) (s_tex_h s) (s_num_textures_loaded s)
    (s_cur_target s) (world s) (trace s ++ [e]).

End StateAccess.

(** *** State passing *)

(** A procedure of the file: it reads and updates the state and returns
    a value. *)
Definition Proc (W A : Type) : Type := State W -> A * State W.

#[global] Instance Proc_ret {W} : MRet (Proc W) := fun A a s => (a, s).

#[global] Instance Proc_bind {W} : MBind (Proc W) :=
  fun A B k c s => let '(a, s') := c s in k a s'.

Definition get {W A} (f : State W -> A) : Proc W A := fun s => (f s, s).

Definition modify {W} (f : State W -> State W) : Proc W unit := fun s => (tt, f s).

Definition call {W} (e : Event) : Proc W unit := modify (emit e).

(** Only the final state, for procedures returning [void]. *)
Definition exec {W A} (c : Proc W A) (s : State W) : State W := snd (c s).

(** The calls a procedure made, given the trace before and after. *)
Definition calls_since {W} (s s' : State W) : list Event :=
  drop (length (trace s)) (trace s').


(** ** The 3DS renderer: lazy texture loader *)

Section Loader.
Context {W : Type} `{Backend W}.

(** *** libc on the ten-byte size buffer *)

Definition byte_val (b : byte) : Z := Z.of_N (Byte.to_N b).

Definition isspace (b : byte) : bool :=
  let c := byte_val b in bool_decide (c = 32 \/ 9 <= c <= 13).

Definition isdigit (b : byte) : bool :=
  let c := byte_val b in bool_decide (48 <= c <= 57).

(** The digits of [atoi]; the scan stops at the first byte that is not
    a digit (the terminating NUL at the latest). *)
Fixpoint atoi_digits (acc : Z) (s : list byte) : Z :=
  match s with
  | [] => acc
  | b :: s' => if isdigit b then atoi_digits (acc * 10 + (byte_val b - 48)) s' else acc
  end.

Definition atoi_signed (s : list byte) : Z :=
  match s with
  | b :: s' =>
      if bool_decide (byte_val b = 45) then - atoi_digits 0 s'
      else if bool_decide (byte_val b = 43) then atoi_digits 0 s'
      else atoi_digits 0 s
  | [] => 0
  end.

(** [atoi]: leading white space, an optional sign, then decimal digits. *)
Fixpoint atoi (s : list byte) : Z :=
  match s with
  | b :: s' => if isspace b then atoi s' else atoi_signed s
  | [] => 0
  end.

(** [fread(buf, 1, n, fs)] on a freshly opened file: the first [n] bytes
    of the file land at the start of the buffer, the rest of the buffer
    keeps what it held. *)
Definition fread (n : nat) (file : list byte) (buf : list byte) : list byte :=
  let got := take n file in
  got ++ drop (length got) buf.

(** [char contents[10]], not initialised. *)
Definition fresh_buffer (wd : W) (n : nat) : list byte :=
  map (indeterminate wd) (seq 0 n).

Definition NUL : byte := x00.

(** *** Calls into the backend, recorded in the trace *)

Definition do_C2D_SpriteSheetLoad (path : string) : Proc W (option C2D_SpriteSheet) :=
  fun s =>
    let '(r, wd) := C2D_SpriteSheetLoad path (world s) in
    (r, emit (ev_C2D_SpriteSheetLoad path r) (set_world wd s)).

Definition do_C2D_SpriteSheetFree (sheet : C2D_SpriteSheet) : Proc W unit :=
  fun s =>
    (tt, emit (ev_C2D_SpriteSheetFree sheet)
           (set_world (C2D_SpriteSheetFree sheet (world s)) s)).

Definition do_minport_freeTextureMemory : Proc W unit :=
  fun s =>
    (tt, emit ev_minport_freeTextureMemory
           (set_world (minport_freeTextureMemory (world s)) s)).

Definition do_linearSpaceFree : Proc W Z := get (fun s => linearSpaceFree (world s)).

Definition pLogWarning (message : string) : Proc W unit := call (ev_pLogWarning message).
Definition pLogDebug (message : string) : Proc W unit := call (ev_pLogDebug message).

Definition when (b : bool) (c : Proc W unit) : Proc W unit :=
  if b then c else mret tt.

(** *** [s_loadTexture], [s_loadTexture2], [s_loadTexture3] *)

Definition s_loadTexture (target : StdPicture) (sheet : C2D_SpriteSheet) : StdPicture :=
  let im := C2D_SpriteSheetGetImage sheet 0 in
  let target := set_texture (Some sheet) target in
  let target := set_image im target in
  if bool_decide (w target = 0)
  then set_size (width (subtex im) * 2) (height (subtex im) * 2) target
  else target.

Definition s_loadTexture2 (target : StdPicture) (sheet : C2D_SpriteSheet) : StdPicture :=
  let im := C2D_SpriteSheetGetImage sheet 0 in
  set_image2 im (set_texture2 (Some sheet) target).

Definition s_loadTexture3 (target : StdPicture) (sheet : C2D_SpriteSheet) : StdPicture :=
  let im := C2D_SpriteSheetGetImage sheet 0 in
  set_image3 im (set_texture3 (Some sheet) target).

(** *** [s_tryHardToLoadC2D_SpriteSheet] *)

Definition s_tryHardToLoadC2D_SpriteSheet (path : string) : Proc W (option C2D_SpriteSheet) :=
  sourceImage ← do_C2D_SpriteSheetLoad path;
  match sourceImage with
  | Some _ => mret sourceImage
  | None =>
      free ← do_linearSpaceFree;
      when (bool_decide (free < 4000000)) do_minport_freeTextureMemory;;
      do_C2D_SpriteSheetLoad path
  end.

(** *** [lazyLoad] *)

Definition failed_to_load (path : string) : Proc W unit :=
  pLogWarning ("Permanently failed to load " +:+ path);;
  pLogWarning "Error: errno".

(** The second band: [if(target.h > 2048) { ... path + '1' ... }] *)
Definition load_band2 (target : StdPicture) : Proc W StdPicture :=
  if bool_decide (h target > 2048) then
    let suppPath := l_path target +:+ "1" in
    sourceImage ← s_tryHardToLoadC2D_SpriteSheet suppPath;
    match sourceImage with
    | None => failed_to_load suppPath;; mret target
    | Some sheet => mret (s_loadTexture2 target sheet)
    end
  else mret target.

(** The third band: [if(target.h > 4096) { ... path + '2' ... }] *)
Definition load_band3 (target : StdPicture) : Proc W StdPicture :=
  if bool_decide (h target > 4096) then
    let suppPath := l_path target +:+ "2" in
    sourceImage ← do_C2D_SpriteSheetLoad suppPath;
    match sourceImage with
    | None => failed_to_load suppPath;; mret target
    | Some sheet => mret (s_loadTexture3 target sheet)
    end
  else mret target.

(** The end of [lazyLoad]: the counter and the low-memory trigger. *)
Definition after_load : Proc W unit :=
  modify (fun s => set_s_num_textures_loaded (s_num_textures_loaded s + 1) s);;
  free ← do_linearSpaceFree;
  when (bool_decide (free < 4194304))
    (pLogDebug "Triggering free texture memory due to low memory";;
     do_minport_freeTextureMemory).

Definition lazyLoad (target : StdPicture) : Proc W StdPicture :=
  if negb (inited target) || negb (l_lazyLoaded target) || bool_decide (is_Some (d_texture target))
  then mret target
  else
    sourceImage ← s_tryHardToLoadC2D_SpriteSheet (l_path target);
    match sourceImage with
    | None =>
        failed_to_load (l_path target);;
        mret (set_inited false target)
    | Some sheet =>
        let target := s_loadTexture target sheet in
        target ← load_band2 target;
        target ← load_band3 target;
        after_load;;
        mret target
    end.

Definition lazyPreLoad (target : StdPicture) : Proc W StdPicture := lazyLoad target.

(** *** [deleteTexture] and [lazyUnLoad] *)

Definition free_band (sheet : option C2D_SpriteSheet) (counted : bool) : Proc W unit :=
  match sheet with
  | Some sh =>
      when counted (modify (fun s => set_s_num_textures_loaded (s_num_textures_loaded s - 1) s));;
      do_C2D_SpriteSheetFree sh
  | None => mret tt
  end.

Definition deleteTexture (tx : StdPicture) (lazyUnload : bool) : Proc W StdPicture :=
  if negb (inited tx) then mret tx
  else
    call (ev_minport_unlinkTexture (l_path tx));;
    free_band (d_texture tx) true;;
    let tx := set_texture None tx in
    free_band (d_texture2 tx) false;;
    let tx := set_texture2 None tx in
    free_band (d_texture3 tx) false;;
    let tx := set_texture3 None tx in
    if negb lazyUnload
    then mret (set_frame_size 0 0 (set_size 0 0 (set_lazyLoaded false (set_inited false tx))))
    else mret tx.

Definition lazyUnLoad (target : StdPicture) : Proc W StdPicture :=
  if negb (inited target) || negb (l_lazyLoaded target) || negb (bool_decide (is_Some (d_texture target)))
  then mret target
  else deleteTexture target true.

(** *** [LoadPicture] *)

Definition LoadPicture (path : string) : Proc W StdPicture :=
  let target := emptyPicture in
  active ← get (W:=W) (fun s => GameIsActive (engine s));
  if negb active then mret target
  else
    let target := set_path path (set_inited false target) in
    if bool_decide (l_path target = "") then mret target
    else
      let target := set_lazyLoaded false (set_inited true target) in
      sourceImage ← do_C2D_SpriteSheetLoad (l_path target);
      target ←
        match sourceImage with
        | Some sheet =>
            modify (fun s => set_s_num_textures_loaded (s_num_textures_loaded s + 1) s);;
            mret (s_loadTexture target sheet)
        | None => mret target
        end;
      if bool_decide (is_Some (d_texture target)) then mret target
      else
        pLogWarning ("FAILED TO LOAD!!! " +:+ path);;
        mret (set_inited false target).

(** *** [lazyLoadPicture] *)

Definition lazyLoadPicture (path : string) : Proc W StdPicture :=
  let target := emptyPicture in
  active ← get (W:=W) (fun s => GameIsActive (engine s));
  if negb active then mret target
  else
    let target := set_path path (set_inited false target) in
    if bool_decide (l_path target = "") then mret target
    else
      let target := set_lazyLoaded true (set_inited true target) in
      let sizePath := path +:+ ".size" in
      fs ← get (W:=W) (fun s => fopen sizePath (world s));
      match fs with
      | Some file =>
          contents ← get (W:=W) (fun s => fresh_buffer (world s) 10);
          let contents := fread 10 file contents in
          let contents := <[4%nat := NUL]> contents in
          let contents := <[9%nat := NUL]> contents in
          let target := set_size (atoi (drop 0 contents)) (h target) target in
          let target := set_size (w target) (atoi (drop 5 contents)) target in
          bad ← get (W:=W) (fun s => fclose_fails sizePath (world s));
          when bad (pLogWarning "lazyLoadPicture: Couldn't close file.");;
          mret target
      | None =>
          pLogWarning "lazyLoadPicture: Couldn't open size file.";;
          target ← lazyLoad target;
          lazyUnLoad target
      end.

End Loader.

(** ** The 3DS renderer: frame controller, composition and dispatcher *)

(** A point with [float] coordinates ([FPoint_t] is declared outside the
    sources at hand; the pivot computation below divides its fields by
    [2.0f]). *)
Record FPoint_t := mkFPoint { fp_x : Float32.float; fp_y : Float32.float }.

(** Conversion of a floating value to an integer type: the fraction is
    dropped. *)
Definition to_int (q : Q) : Z := Z.quot (Qnum q) (Z.pos (Qden q)).

(** The pivot of a rotation, as [int16_t]s:
<<
        if(center)
        {
            cx = center->x / 2.0f + 0.5f;
            cy = center->y / 2.0f + 0.5f;
        }
        else
        {
            cx = wDst / 2;
            cy = hDst / 2;
        }
>>
    The sums are [float] sums, rounded to single precision before the
    conversion drops the fraction. *)
Definition pivot (wDst hDst : Z) (center : option FPoint_t) : Z * Z :=
  match center with
  | Some c =>
      (Float32.to_int16 (Float32.fadd (Float32.fdiv (fp_x c) Float32.two) Float32.half),
       Float32.to_int16 (Float32.fadd (Float32.fdiv (fp_y c) Float32.two) Float32.half))
  | None => (wrap16 (Z.quot wDst 2), wrap16 (Z.quot hDst 2))
  end.

Section Frame.
Context {W : Type} `{Backend W}.

(** A loop over the four layers that stops after the first one in
    single-layer mode:
<<
    for(int layer = 0; layer < 4; layer++) { body; if(s_single_layer_mode) break; }
>> *)
Fixpoint for_each_layer (body : Z -> Proc W unit) (layers : list Z) : Proc W unit :=
  match layers with
  | [] => mret tt
  | layer :: rest =>
      body layer;;
      single ← get (W:=W) s_single_layer_mode;
      if (single : bool) then mret tt else for_each_layer body rest
  end.

(** The same loop without the [break]. *)
Fixpoint for_all_layers (body : Z -> Proc W unit) (layers : list Z) : Proc W unit :=
  match layers with
  | [] => mret tt
  | layer :: rest => body layer;; for_all_layers body rest
  end.

Definition four_layers : list Z := [0; 1; 2; 3].

(** *** [s_ensureInFrame] *)

Definition s_ensureInFrame : Proc W unit :=
  in_frame ← get (W:=W) g_in_frame;
  if negb in_frame then
    call ev_minport_initFrame;;
    call ev_C3D_FrameBegin;;
    for_each_layer (fun layer => call (ev_C2D_TargetClear (s_layer_targets layer) transparent))
      four_layers;;
    call (ev_C2D_TargetClear s_bottom_screen transparent);;
    modify (set_g_in_frame true)
  else mret tt.

(** *** Target selection *)

Definition select_target (t : C3D_RenderTarget) : Proc W unit :=
  call (ev_C2D_SceneBegin t);;
  modify (set_s_cur_target (Some t)).

Definition setTargetTexture : Proc W unit :=
  s_ensureInFrame;;
  single ← get (W:=W) s_single_layer_mode;
  (if negb single then select_target (s_layer_targets 2)
   else select_target (s_layer_targets 0));;
  call ev_C2D_ViewReset.

Definition setTargetScreen : Proc W unit := mret tt.

Definition setTargetMainScreen : Proc W unit :=
  s_ensureInFrame;;
  call (ev_C2D_TargetClear s_top_screen opaque_black);;
  select_target s_top_screen;;
  call ev_C2D_ViewReset.

Definition setTargetSubScreen : Proc W unit :=
  s_ensureInFrame;;
  call (ev_C2D_TargetClear s_bottom_screen opaque_black);;
  select_target s_bottom_screen;;
  call ev_C2D_ViewReset.

(** [minport_ApplyViewport] *)
Definition minport_ApplyViewport : Proc W unit :=
  in_frame ← get (W:=W) g_in_frame;
  if negb in_frame then mret tt
  else
    call ev_C2D_Flush;;
    call ev_C2D_ViewReset;;
    e ← get (W:=W) engine;
    when (negb (g_viewport_offset_ignore e))
      (call (ev_C2D_ViewTranslate (g_viewport_offset_x e) (g_viewport_offset_y e)));;
    cur ← get (W:=W) s_cur_target;
    match cur with
    | None => mret tt
    | Some t =>
        let fw := frameBuf_width t in
        let fh := frameBuf_height t in
        if linked t then
          (* rotated 90deg clockwise *)
          let hw_viewport_x := Z.min (Z.max (g_viewport_y e) 0) (fw - 1) in
          let hw_viewport_y := Z.min (Z.max (g_viewport_x e) 0) (fh - 1) in
          let hw_viewport_w := Z.min (fw - hw_viewport_x) (g_viewport_h e) in
          let hw_viewport_h := Z.min (fh - hw_viewport_y) (g_viewport_w e) in
          call (ev_C3D_SetViewport (fw - hw_viewport_x - hw_viewport_w) hw_viewport_y
                  hw_viewport_w hw_viewport_h);;
          call (ev_C2D_SceneSize (g_viewport_h e) (g_viewport_w e) true)
        else
          let hw_viewport_x := Z.min (Z.max (g_viewport_x e) 0) (fw - 1) in
          let hw_viewport_y := Z.min (Z.max (g_viewport_y e) 0) (fh - 1) in
          let hw_viewport_w := Z.min (fw - hw_viewport_x) (g_viewport_w e) in
          let hw_viewport_h := Z.min (fh - hw_viewport_y) (g_viewport_h e) in
          call (ev_C3D_SetViewport hw_viewport_x (fh - hw_viewport_y - hw_viewport_h)
                  hw_viewport_w hw_viewport_h);;
          call (ev_C2D_SceneSize (g_viewport_w e) (g_viewport_h e) false)
    end.

Definition setTargetLayer (layer : Z) : Proc W unit :=
  s_ensureInFrame;;
  single ← get (W:=W) s_single_layer_mode;
  (if negb single then select_target (s_layer_targets layer)
   else select_target (s_layer_targets 0));;
  minport_ApplyViewport.

(** *** [minport_RenderBoxFilled] *)

Definition minport_RenderBoxFilled (x1 y1 x2 y2 : Z) (r g b a : Z) : Proc W unit :=
  let clr := C2D_Color32 r g b a in
  call (ev_C2D_DrawRectSolid x1 y1 0 (x2 - x1) (y2 - y1) clr).

(** *** [clearBuffer]

    [renderRect] lives in the shared minport code and is recorded as a
    call. *)
Definition clearBuffer : Proc W unit :=
  in_frame ← get (W:=W) g_in_frame;
  if negb in_frame then
    let black := mkTint 0 0 0 1 in
    call ev_C3D_FrameBegin;;
    call ev_C2D_ViewReset;;
    call (ev_C2D_TargetClear s_top_screen opaque_black);;
    call (ev_C2D_SceneBegin s_top_screen);;
    call (ev_renderRect 0 0 400 240 black true);;
    call (ev_C2D_TargetClear s_right_screen opaque_black);;
    call (ev_C2D_SceneBegin s_right_screen);;
    call (ev_renderRect 0 0 400 240 black true);;
    call (ev_C2D_TargetClear s_bottom_screen opaque_black);;
    call (ev_C2D_SceneBegin s_bottom_screen);;
    call (ev_renderRect 0 0 320 240 black true);;
    call ev_C3D_FrameEnd
  else mret tt.

(** *** [repaint] *)

(** [constexpr int shift = 0;] *)
Definition shift : Z := 0.


(** [constexpr double shift_i[] = {shift, shift * 0.4, 0, shift * -0.4};]
    With [shift = 0] every entry and every product below is an exact
    zero, so rational arithmetic agrees with the [double] arithmetic. *)
Definition shift_i : list Q :=
  [inject_Z shift; inject_Z shift * (4 # 10); 0; inject_Z shift * - (4 # 10)]%Q.

Definition shift_of (layer : Z) : Q := nth (Z.to_nat layer) shift_i 0%Q.

(** One layer blended onto the current screen. *)
Definition draw_layer (xDst : Z) (xSrc : Z) (layer : Z) : Proc W unit :=
  e ← get (W:=W) engine;
  show_w ← get (W:=W) s_tex_show_w;
  tex_h ← get (W:=W) s_tex_h;
  call (ev_C2D_DrawImage_Custom (s_layer_ims layer)
          xDst (g_screen_phys_y e) (g_screen_phys_w e) (g_screen_phys_h e)
          xSrc 0 show_w tex_h X_FLIP_NONE untinted).

Definition begin_screen (t : C3D_RenderTarget) : Proc W unit :=
  call (ev_C2D_TargetClear t opaque_black);;
  call (ev_C2D_SceneBegin t).

(** [s_depth_slider <= 0.05]: no [float] lies strictly between 0.05 and
    the [double] nearest to it, so the comparison is the exact one. *)
Definition low_depth (depth : Q) : bool := Qle_bool depth (5 # 100).

Definition repaint : Proc W unit :=
  in_frame ← get (W:=W) g_in_frame;
  if negb in_frame then mret tt
  else
    modify (fun s => set_s_depth_slider (osGet3DSliderState (world s)) s);;
    modify (set_s_cur_target None);;
    call ev_C2D_ViewReset;;
    e ← get (W:=W) engine;
    swapped ← get (W:=W) g_screen_swapped;
    single ← get (W:=W) s_single_layer_mode;
    depth ← get (W:=W) s_depth_slider;
    (if swapped && (LevelEditor e || MagicHand e) && editorScreen_active e then
       begin_screen s_top_screen;;
       for_each_layer (draw_layer (g_screen_phys_x e + 40) shift) four_layers
     else if swapped then
       begin_screen s_bottom_screen;;
       for_each_layer (draw_layer (g_screen_phys_x e) shift) four_layers
     else if LevelEditor e && negb (editorScreen_active e) then
       begin_screen s_bottom_screen;;
       for_each_layer (draw_layer (g_screen_phys_x e - 40) shift) four_layers
     else if low_depth depth || single then
       begin_screen s_top_screen;;
       for_each_layer (draw_layer (g_screen_phys_x e) shift) four_layers
     else
       begin_screen s_top_screen;;
       for_all_layers
         (fun layer => draw_layer (g_screen_phys_x e) (shift + to_int (shift_of layer * depth)) layer)
         four_layers;;
       begin_screen s_right_screen;;
       for_all_layers
         (fun layer => draw_layer (g_screen_phys_x e) (shift - to_int (shift_of layer * depth)) layer)
         four_layers);;
    modify (fun s => set_s_current_frame (wrapu32 (s_current_frame s + 1)) s);;
    modify (set_g_in_frame false);;
    call ev_start_sleep;;
    call ev_start_task_Graphics;;
    call ev_C3D_FrameEnd.

(** *** [minport_RenderTexturePrivate] *)

(** The automatic flip:
<<
    while(ySrc >= tx.h / 2 && mode < 3) { ySrc -= tx.h / 2; mode += 1; }
>>
    [budget] bounds the number of iterations; three are always enough
    because [mode] starts at 0 and the loop stops at 3. *)
Fixpoint auto_flip (budget : nat) (half : Z) (ySrc mode : Z) : Z * Z :=
  match budget with
  | O => (ySrc, mode)
  | S k =>
      if bool_decide (ySrc >= half) && bool_decide (mode < 3)
      then auto_flip k half (wrap16 (ySrc - half)) (mode + 1)
      else (ySrc, mode)
  end.

Definition draw_band (im : C2D_Image) (xDst yDst wDst hDst xSrc ySrc wSrc hSrc flip : Z)
    (tint : Tint) : Proc W unit :=
  call (ev_C2D_DrawImage_Custom (PictureImage im) xDst yDst wDst hDst xSrc ySrc wSrc hSrc flip tint).

Definition band (texture : option C2D_SpriteSheet) (im : C2D_Image) : option C2D_Image :=
  match texture with Some _ => Some im | None => None end.

(** "handle rotation NOW": the view is moved to the pivot and turned,
    and the destination becomes relative to the pivot.  Returns the new
    [xDst] and [yDst]. *)
Definition begin_rotation (xDst yDst wDst hDst : Z) (rotateAngle : Q)
    (center : option FPoint_t) : Proc W (Z * Z) :=
  let '(cx, cy) := pivot wDst hDst center in
  call ev_C2D_ViewSave;;
  call (ev_C2D_ViewTranslate (xDst + cx) (yDst + cy));;
  call (ev_C2D_ViewRotateDegrees rotateAngle);;
  mret (wrap16 (- cx), wrap16 (- cy)).

(** The band selection and the one or two draw calls (from
    [C2D_Image* to_draw = nullptr;] to the last [C2D_DrawImage_Custom]).
    The result is [None] when the code traps on a division by zero. *)
Definition draw_bands (xDst yDst wDst hDst : Z) (tx : StdPicture)
    (xSrc ySrc wSrc hSrc : Z) (flip : Z) (tint : Tint) : Proc W (option unit) :=
  if bool_decide (ySrc + hSrc > 1024) then
    let '(to_draw, to_draw_2, ySrc) :=
      if bool_decide (ySrc + hSrc > 2048) then
        (band (d_texture3 tx) (d_image3 tx),
         (if bool_decide (ySrc < 2048) then band (d_texture2 tx) (d_image2 tx) else None),
         wrap16 (ySrc - 1024))
      else
        (band (d_texture2 tx) (d_image2 tx),
         (if bool_decide (ySrc < 1024) then Some (d_image tx) else None),
         ySrc) in
    match to_draw_2 with
    | Some top =>
        (* draw the top pic *)
        match cdiv ((1024 - ySrc) * hDst) hSrc with
        | None => mret None
        | Some part =>
            draw_band top xDst yDst wDst part xSrc ySrc wSrc (1024 - ySrc) flip tint;;
            let yDst := wrap16 (yDst + part) in
            let hDst := wrap16 (hDst - part) in
            let hSrc := wrap16 (hSrc - (1024 - ySrc)) in
            let ySrc := 0 in
            match to_draw with
            | Some im => draw_band im xDst yDst wDst hDst xSrc ySrc wSrc hSrc flip tint
            | None => mret tt
            end;;
            mret (Some tt)
        end
    | None =>
        let ySrc := wrap16 (ySrc - 1024) in
        match to_draw with
        | Some im => draw_band im xDst yDst wDst hDst xSrc ySrc wSrc hSrc flip tint
        | None => mret tt
        end;;
        mret (Some tt)
    end
  else
    draw_band (d_image tx) xDst yDst wDst hDst xSrc ySrc wSrc hSrc flip tint;;
    mret (Some tt).

(** The result is [None] when the call traps. *)
Definition minport_RenderTexturePrivate (xDst yDst wDst hDst : Z) (tx : StdPicture)
    (xSrc ySrc wSrc hSrc : Z) (rotateAngle : Q) (center : option FPoint_t) (flip : Z)
    (tint : Tint) : Proc W (option StdPicture) :=
  if negb (inited tx) then mret (Some tx)
  else
    tx ← (if negb (bool_decide (is_Some (d_texture tx))) && l_lazyLoaded tx
          then lazyLoad tx else mret tx);
    if negb (bool_decide (is_Some (d_texture tx))) then mret (Some tx)
    else
      (* automatic flipping based on SMBX style! *)
      let '(ySrc, mode) := auto_flip 3 (Z.quot (h tx) 2) ySrc 0 in
      let flip := Z.lxor flip mode in
      let rotated := negb (Qeq_bool rotateAngle 0) in
      '(xDst, yDst) ←
        (if rotated then begin_rotation xDst yDst wDst hDst rotateAngle center
         else mret (xDst, yDst));
      drawn ← draw_bands xDst yDst wDst hDst tx xSrc ySrc wSrc hSrc flip tint;
      match drawn with
      | None => mret None
      | Some _ =>
          (* Finalize rotation HERE *)
          when rotated (call ev_C2D_ViewRestore);;
          mret (Some tx)
      end.

End Frame.

(** ** A scripted backend

    Used to run the procedures on concrete inputs: sprite sheets and
    size files are looked up by path, and the next [sim_refusals]
    uploads fail whatever the path. *)

Record SimWorld := mkSim {
  sim_sheets : gmap string C2D_SpriteSheet;
  sim_files : gmap string (list byte);
  sim_refusals : nat;
  sim_free : Z;
  sim_slider : Q
}.

#[global] Instance SimBackend : Backend SimWorld := {|
  C2D_SpriteSheetLoad path wd :=
    match sim_refusals wd with
    | S k => (None, mkSim (sim_sheets wd) (sim_files wd) k (sim_free wd) (sim_slider wd))
    | O => (sim_sheets wd !! path, wd)
    end;
  C2D_SpriteSheetFree _ wd := wd;
  linearSpaceFree := sim_free;
  minport_freeTextureMemory wd := wd;
  fopen path wd := sim_files wd !! path;
  fclose_fails _ _ := false;
  indeterminate _ _ := xff;
  osGet3DSliderState := sim_slider;
  linked t := match t with s_layer_targets _ => false | _ => true end;
  frameBuf_width t := match t with s_layer_targets _ => 512 | _ => 240 end;
  frameBuf_height t := match t with s_layer_targets _ => 256 | s_bottom_screen => 320 | _ => 400 end
|}.

Definition sim_engine : Engine :=
  mkEngine true false false false 0 0 400 240 0 0 800 480 0 0 false.

Definition sim_state (wd : SimWorld) : State SimWorld :=
  mkState sim_engine 0 0 false false false 400 240 0 None wd [].

(** A sprite sheet of 32 by 32 backend pixels. *)
Definition sim_sheet (id : Z) : C2D_SpriteSheet :=
  mkSheet id (mkImage id (mkSubTexture 32 32)).

(** A lazy picture with declared dimensions and nothing uploaded. *)
Definition lazy_picture (path : string) (vw vh : Z) : StdPicture :=
  set_size vw vh (set_lazyLoaded true (set_inited true (set_path path emptyPicture))).

(** A resident picture: declared 64 by 64, first band uploaded. *)
Definition resident_picture : StdPicture :=
  s_loadTexture (lazy_picture "a.t3x" 64 64) (sim_sheet 1).

(** A picture declared 64 by 3000 with its first two bands uploaded. *)
Definition two_band_picture : StdPicture :=
  s_loadTexture2 (s_loadTexture (lazy_picture "a.t3x" 64 3000) (sim_sheet 1)) (sim_sheet 2).



(** A rotation centre at (0.99999994f, 7.0f): the first coordinate is
    the largest [float] below 1, so that its half plus one half is
    rounded up to 1. *)
Definition near_corner : FPoint_t :=
  mkFPoint (SpecFloat.S754_finite false 16777215 (-24)) (Float32.of_Z 7).

(** The scripted state inside a frame. *)
Definition sim_frame (wd : SimWorld) : State SimWorld := set_g_in_frame true (sim_state wd).

(** ** The size file *)

(** The ASCII digit of a value in 0..9. *)
Definition digit (d : Z) : byte :=
  nth (Z.to_nat d) [x30; x31; x32; x33; x34; x35; x36; x37; x38; x39] x30.

(** A number in 0..9999 as four zero-padded digits. *)
Definition four_digits (n : Z) : list byte :=
  [digit (n / 1000 mod 10); digit (n / 100 mod 10); digit (n / 10 mod 10); digit (n mod 10)].

Definition newline : byte := x0a.

(** Modelled from the spec: the size file is written by the asset
    converter, which is not part of the embedded sources.  It holds
    exactly 10 bytes: the width as 4 zero-padded ASCII digits, a
    newline, the height as 4 zero-padded ASCII digits, a newline. *)
Definition size_file (vw vh : Z) : list byte :=
  four_digits vw ++ [newline] ++ four_digits vh ++ [newline].

(** Whether some bytes have the shape of a size file. *)
Definition size_file_ok (file : list byte) : bool :=
  match file with
  | [a; b; c; d; n1; e; f; g; i; n2] =>
      forallb isdigit [a; b; c; d; e; f; g; i]
      && Byte.eqb n1 newline && Byte.eqb n2 newline
  | _ => false
  end.

(** The content of the ten-byte buffer after [lazyLoadPicture] has read
    a size file into it and placed the two terminators. *)
Definition size_buffer {W} `{Backend W} (wd : W) (file : list byte) : list byte :=
  <[9%nat := NUL]> (<[4%nat := NUL]> (fread 10 file (fresh_buffer wd 10))).

(** Ten bytes that are not a size file: two words instead of two
    numbers. *)
Definition malformed_size_file : list byte :=
  list_byte_of_string "wide" ++ [newline] ++ list_byte_of_string "tall" ++ [newline].

(** ** Reading a trace *)

Definition is_upload (e : Event) : bool :=
  match e with ev_C2D_SpriteSheetLoad _ _ => true | _ => false end.

Definition is_eviction (e : Event) : bool :=
  match e with ev_minport_freeTextureMemory => true | _ => false end.

(** Number of upload attempts and of eviction passes among some calls. *)
Definition uploads (calls : list Event) : nat := length (List.filter is_upload calls).
Definition evictions (calls : list Event) : nat := length (List.filter is_eviction calls).


(** ** The entry points as one interface *)

Inductive Call :=
| call_setTargetTexture
| call_setTargetScreen
| call_setTargetMainScreen
| call_setTargetSubScreen
| call_setTargetLayer (layer : Z)
| call_clearBuffer
| call_repaint
| call_minport_ApplyViewport
| call_minport_RenderBoxFilled (x1 y1 x2 y2 : Z) (r g b a : Z)
| call_minport_RenderTexturePrivate (xDst yDst wDst hDst : Z) (tx : StdPicture)
    (xSrc ySrc wSrc hSrc : Z) (rotateAngle : Q) (center : option FPoint_t) (flip : Z)
    (tint : Tint)
| call_lazyLoad (target : StdPicture)
| call_lazyUnLoad (target : StdPicture)
| call_deleteTexture (tx : StdPicture) (lazyUnload : bool)
| call_LoadPicture (path : string)
| call_lazyLoadPicture (path : string).

(** The state after a call. *)
Definition run {W} `{Backend W} (c : Call) : State W -> State W :=
  match c with
  | call_setTargetTexture => exec setTargetTexture
  | call_setTargetScreen => exec setTargetScreen
  | call_setTargetMainScreen => exec setTargetMainScreen
  | call_setTargetSubScreen => exec setTargetSubScreen
  | call_setTargetLayer layer => exec (setTargetLayer layer)
  | call_clearBuffer => exec clearBuffer
  | call_repaint => exec repaint
  | call_minport_ApplyViewport => exec minport_ApplyViewport
  | call_minport_RenderBoxFilled x1 y1 x2 y2 r g b a =>
      exec (minport_RenderBoxFilled x1 y1 x2 y2 r g b a)
  | call_minport_RenderTexturePrivate xDst yDst wDst hDst tx xSrc ySrc wSrc hSrc
      rotateAngle center flip tint =>
      exec (minport_RenderTexturePrivate xDst yDst wDst hDst tx xSrc ySrc wSrc hSrc
              rotateAngle center flip tint)
  | call_lazyLoad target => exec (lazyLoad target)
  | call_lazyUnLoad target => exec (lazyUnLoad target)
  | call_deleteTexture tx lazyUnload => exec (deleteTexture tx lazyUnload)
  | call_LoadPicture path => exec (LoadPicture path)
  | call_lazyLoadPicture path => exec (lazyLoadPicture path)
  end.

(** The calls that select a draw target: texture target, main screen,
    sub screen, numbered layer. *)
Definition selects_target (c : Call) : bool :=
  match c with
  | call_setTargetTexture | call_setTargetMainScreen | call_setTargetSubScreen
  | call_setTargetLayer _ => true
  | _ => false
  end.

(** The draw primitives of the file. *)
Definition draws (c : Call) : bool :=
  match c with
  | call_minport_RenderBoxFilled _ _ _ _ _ _ _ _
  | call_minport_RenderTexturePrivate _ _ _ _ _ _ _ _ _ _ _ _ _ => true
  | _ => false
  end.

(** The calls of an implicit frame begin: the layers in use and the
    bottom screen are cleared to transparent black. *)
Definition frame_begin_calls (single : bool) : list Event :=
  [ev_minport_initFrame; ev_C3D_FrameBegin]
  ++ map (fun layer => ev_C2D_TargetClear (s_layer_targets layer) transparent)
       (if single then [0] else four_layers)
  ++ [ev_C2D_TargetClear s_bottom_screen transparent].

(** ** Reading the composition off a trace *)

(** The screens and layers that were made current, in order. *)
Definition scenes (calls : list Event) : list C3D_RenderTarget :=
  omap (fun e => match e with ev_C2D_SceneBegin t => Some t | _ => None end) calls.




Definition frame_end_calls : list Event :=
  [ev_start_sleep; ev_start_task_Graphics; ev_C3D_FrameEnd].

(** ** Reading the blits off a trace *)

Record Blit := mkBlit {
  b_img : Drawable;
  b_xDst : Z; b_yDst : Z; b_wDst : Z; b_hDst : Z;
  b_xSrc : Z; b_ySrc : Z; b_wSrc : Z; b_hSrc : Z;
  b_flip : Z
}.

(** The [C2D_DrawImage_Custom] calls among some calls, in order. *)
Definition blits (calls : list Event) : list Blit :=
  omap (fun e =>
          match e with
          | ev_C2D_DrawImage_Custom img xDst yDst wDst hDst xSrc ySrc wSrc hSrc flip _ =>
              Some (mkBlit img xDst yDst wDst hDst xSrc ySrc wSrc hSrc flip)
          | _ => None
          end) calls.














(** ** The 3DS renderer: coordinate mapping and the layer targets *)

(** Conversion to [uint16_t] ([int] arithmetic wraps with [wrap32]). *)
Definition wrapu16 (z : Z) : Z := z mod 65536.

Section Mapping.
Context {W : Type}.

(** [ScreenW] and [ScreenH] are engine globals declared outside the
    embedded sources; they are parameters here. *)
Variables ScreenW ScreenH : Z.

(** [mapToScreen]: window coordinates to game screen coordinates.  The
    result is [None] when a division traps. *)
Definition mapToScreen (x y : Z) (s : State W) : option (Z * Z) :=
  let e := engine s in
  if (LevelEditor e || MagicHand e) && editorScreen_active e then
    Some (wrap32 (x * 2), wrap32 (y * 2))
  else
    let x := if negb (g_screen_swapped s) then wrap32 (x + 40) else x in
    dx ← cdiv (wrap32 (wrap32 (x - g_screen_phys_x e) * ScreenW)) (g_screen_phys_w e);
    dy ← cdiv (wrap32 (wrap32 (y - g_screen_phys_y e) * ScreenH)) (g_screen_phys_h e);
    Some (wrap32 dx, wrap32 dy).

(** [mapFromScreen]: game screen coordinates to window coordinates. *)
Definition mapFromScreen (scr_x scr_y : Z) (s : State W) : option (Z * Z) :=
  let e := engine s in
  if (LevelEditor e || MagicHand e) && editorScreen_active e then
    Some (Z.quot scr_x 2, Z.quot scr_y 2)
  else
    qx ← cdiv (wrap32 (scr_x * g_screen_phys_w e)) ScreenW;
    let window_x := wrap32 (wrap32 qx + g_screen_phys_x e) in
    qy ← cdiv (wrap32 (scr_y * g_screen_phys_h e)) ScreenH;
    let window_y := wrap32 (wrap32 qy + g_screen_phys_y e) in
    let window_x := if negb (g_screen_swapped s) then wrap32 (window_x - 40) else window_x in
    Some (window_x, window_y).

(** *** Setters of the remaining globals *)

Definition set_g_screen_swapped (v : bool) (s : State W) : State W :=
  mkState (engine s) (s_current_frame s) (s_depth_slider s) (g_in_frame s) v
    (s_single_layer_mode s) (s_tex_show_w s) (s_tex_h s) (s_num_textures_loaded s)
    (s_cur_target s) (world s) (trace s).

Definition set_s_single_layer_mode (v : bool) (s : State W) : State W :=
  mkState (engine s) (s_current_frame s) (s_depth_slider s) (g_in_frame s) (g_screen_swapped s)
    v (s_tex_show_w s) (s_tex_h s) (s_num_textures_loaded s)
    (s_cur_target s) (world s) (trace s).

Definition set_s_tex_show_w (v : Z) (s : State W) : State W :=
  mkState (engine s) (s_current_frame s) (s_depth_slider s) (g_in_frame s) (g_screen_swapped s)
    (s_single_layer_mode s) v (s_tex_h s) (s_num_textures_loaded s)
    (s_cur_target s) (world s) (trace s).

Definition set_s_tex_h (v : Z) (s : State W) : State W :=
  mkState (engine s) (s_current_frame s) (s_depth_slider s) (g_in_frame s) (g_screen_swapped s)
    (s_single_layer_mode s) (s_tex_show_w s) v (s_num_textures_loaded s)
    (s_cur_target s) (world s) (trace s).

End Mapping.

(** *** The layer targets

    The GPU objects behind the four composition layers, the global
    [s_tex_w], and the citro3d calls that create and delete them. *)

Inductive GpuCall :=
| gpu_C3D_RenderTargetDelete (layer : Z)
| gpu_C3D_TexDelete (layer : Z)
| gpu_C3D_TexInitVRAM (layer : Z) (mem_w mem_h : Z)
| gpu_C3D_RenderTargetCreateFromTex (layer : Z)
| gpu_C3D_TexSetFilter (layer : Z).

(** [s_layer_subtexs[i]]: width, height, left, top, right, bottom.  The
    two quotients are exact in [float] as long as the numerators stay
    below 2^24 in magnitude: the divisors are powers of two. *)
Record LayerSubTexture := mkLayerSubTexture {
  lst_width : Z; lst_height : Z;
  lst_left : Q; lst_top : Q; lst_right : Q; lst_bottom : Q
}.

(** One layer: whether [s_layer_targets[i]] is non-null, whether
    [s_layer_ims[i]] points at its texture and sub-texture, and
    [s_layer_subtexs[i]]. *)
Record LayerSlot := mkLayerSlot {
  target_set : bool;
  im_set : bool;
  layer_subtex : LayerSubTexture
}.

Record Layers := mkLayers {
  s_tex_w : Z;
  slots : gmap Z LayerSlot;
  gpu_calls : list GpuCall
}.

Definition blank_slot : LayerSlot := mkLayerSlot false false (mkLayerSubTexture 0 0 0 0 0 0).

Definition slot (i : Z) (ly : Layers) : LayerSlot := default blank_slot (slots ly !! i).

Definition gpu (c : GpuCall) (ly : Layers) : Layers :=
  mkLayers (s_tex_w ly) (slots ly) (gpu_calls ly ++ [c]).

Definition set_slot (i : Z) (v : LayerSlot) (ly : Layers) : Layers :=
  mkLayers (s_tex_w ly) (<[i := v]> (slots ly)) (gpu_calls ly).

Definition set_s_tex_w (v : Z) (ly : Layers) : Layers :=
  mkLayers v (slots ly) (gpu_calls ly).

(** The globals at program start. *)
Definition no_layers : Layers := mkLayers 0 ∅ [].

(** The GPU calls made between two states of the layers. *)
Definition gpu_since (ly ly' : Layers) : list GpuCall :=
  drop (length (gpu_calls ly)) (gpu_calls ly').

(** The textures allocated among some calls: layer and size. *)
Definition allocations (calls : list GpuCall) : list (Z * Z * Z) :=
  omap (fun c => match c with
                 | gpu_C3D_TexInitVRAM layer mem_w mem_h => Some (layer, mem_w, mem_h)
                 | _ => None
                 end) calls.

Section LayerTargets.
Context {W : Type} `{Backend W}.

(** Whether [C3D_RenderTargetCreateFromTex] returns a target for a
    layer; the file never looks at the result. *)
Variable C3D_RenderTargetCreateFromTex : Z -> bool.

(** [s_destroySceneTargets] *)
Fixpoint destroy_layers (layers : list Z) (ly : Layers) : Layers :=
  match layers with
  | [] => ly
  | i :: rest =>
      let ly :=
        if target_set (slot i ly) then
          let ly := gpu (gpu_C3D_RenderTargetDelete i) ly in
          let ly := gpu (gpu_C3D_TexDelete i) ly in
          set_slot i (mkLayerSlot false false (layer_subtex (slot i ly))) ly
        else ly in
      destroy_layers rest ly
  end.

Definition s_destroySceneTargets (ly : Layers) : Layers := destroy_layers four_layers ly.

(** The creation loop of [s_createSceneTargets]; it stops after the
    first layer in single-layer mode. *)
Fixpoint create_layers (mem_w mem_h : Z) (layers : list Z) (ly : Layers) : Proc W Layers :=
  match layers with
  | [] => mret ly
  | i :: rest =>
      tex_h ← get (W:=W) s_tex_h;
      let ly := gpu (gpu_C3D_TexInitVRAM i mem_w mem_h) ly in
      let ly := gpu (gpu_C3D_RenderTargetCreateFromTex i) ly in
      let st := mkLayerSubTexture (wrapu16 (s_tex_w ly)) (wrapu16 tex_h) 0 1
                  (inject_Z (s_tex_w ly) / inject_Z mem_w)%Q
                  (1 - inject_Z tex_h / inject_Z mem_h)%Q in
      let ly := set_slot i (mkLayerSlot (C3D_RenderTargetCreateFromTex i) true st) ly in
      single ← get (W:=W) s_single_layer_mode;
      if (single : bool) then mret ly else create_layers mem_w mem_h rest ly
  end.

(** [s_createSceneTargets]; [swap] is what [should_swap_screen()]
    returns. *)
Definition s_createSceneTargets (ScreenW ScreenH : Z) (swap : bool) (ly : Layers)
  : Proc W Layers :=
  let ly := s_destroySceneTargets ly in
  let tex_w := Z.quot ScreenW 2 in
  let tex_h := Z.quot ScreenH 2 in
  let mem_w := if bool_decide (tex_w <= 256) then 256 else 512 in
  let mem_h := if bool_decide (tex_h <= 256) then 256 else 512 in
  let mem_w := if bool_decide (tex_w > 512) then 1024 else mem_w in
  let tex_w := if bool_decide (tex_w > mem_w) then mem_w else tex_w in
  let tex_h := if bool_decide (tex_h > mem_h) then mem_h else tex_h in
  let ly := set_s_tex_w tex_w ly in
  modify (set_s_tex_h tex_h);;
  modify (set_s_single_layer_mode
            (if bool_decide (mem_w >= 512) && bool_decide (mem_h = 512) then true
             else if swap then true else false));;
  ly ← create_layers mem_w mem_h four_layers ly;
  modify (set_s_tex_show_w (s_tex_w ly));;
  mret ly.

(** The filter loop of [minport_ApplyPhysCoords]. *)
Fixpoint set_filters (layers : list Z) (ly : Layers) : Proc W Layers :=
  match layers with
  | [] => mret ly
  | i :: rest =>
      let ly := gpu (gpu_C3D_TexSetFilter i) ly in
      single ← get (W:=W) s_single_layer_mode;
      if (single : bool) then mret ly else set_filters rest ly
  end.

(** [minport_ApplyPhysCoords]; the engine state does not change during
    the call, so every [should_swap_screen()] in it returns [swap]. *)
Definition minport_ApplyPhysCoords (ScreenW ScreenH : Z) (swap : bool) (ly : Layers)
  : Proc W Layers :=
  let tex_w := Z.quot ScreenW 2 in
  let tex_h := Z.quot ScreenH 2 in
  cur_h ← get (W:=W) s_tex_h;
  swapped ← get (W:=W) g_screen_swapped;
  ly ← (if negb (bool_decide (tex_w = s_tex_w ly)) || negb (bool_decide (tex_h = cur_h))
           || negb (eqb swapped swap)
        then s_createSceneTargets ScreenW ScreenH swap ly
        else mret ly);
  modify (set_g_screen_swapped swap);;
  set_filters four_layers ly.

End LayerTargets.

(** ** Reading a trace, continued *)

(** Frames opened and not yet closed among some calls. *)
Definition frame_delta (e : Event) : Z :=
  match e with
  | ev_C3D_FrameBegin => 1
  | ev_C3D_FrameEnd => -1
  | _ => 0
  end.

Definition open_frames (calls : list Event) : Z :=
  foldr (fun e n => frame_delta e + n) 0 calls.

(** The hardware viewports set among some calls. *)
Definition viewports (calls : list Event) : list (Z * Z * Z * Z) :=
  omap (fun e => match e with
                 | ev_C3D_SetViewport x y vw vh => Some (x, y, vw, vh)
                 | _ => None
                 end) calls.

(** The sprite sheets released among some calls, in order. *)
Definition frees (calls : list Event) : list C2D_SpriteSheet :=
  omap (fun e => match e with ev_C2D_SpriteSheetFree sheet => Some sheet | _ => None end) calls.

(** The layers in use: the first one in single-layer mode, all four
    otherwise. *)
Definition layers_in_use (single : bool) : list Z := if single then [0] else four_layers.

(** A screen cleared to black, made current, and the given layers
    blended onto it at [xDst] with no source offset. *)
Definition composite_at {W} (s : State W) (t : C3D_RenderTarget) (xDst : Z)
    (layers : list Z) : list Event :=
  ev_C2D_TargetClear t opaque_black :: ev_C2D_SceneBegin t
  :: map (fun layer =>
            ev_C2D_DrawImage_Custom (s_layer_ims layer)
              xDst (g_screen_phys_y (engine s))
              (g_screen_phys_w (engine s)) (g_screen_phys_h (engine s))
              shift 0 (s_tex_show_w s) (s_tex_h s) X_FLIP_NONE untinted) layers.

(** The sprite sheets a picture holds, first band first. *)
Definition bound_bands (tx : StdPicture) : list C2D_SpriteSheet :=
  omap id [d_texture tx; d_texture2 tx; d_texture3 tx].

(** The data-model invariant of a picture: an uninited picture holds no
    sheet, and a picture without its first band holds no other band. *)
Definition picture_ok (tx : StdPicture) : Prop :=
  (inited tx = false -> d_texture tx = None)
  /\ (d_texture tx = None -> d_texture2 tx = None /\ d_texture3 tx = None).

(** ** Reading a trace and a picture, further *)

(** The texture size tiers of [s_createSceneTargets] for half the game
    screen size. *)
Definition tier_w (tex_w : Z) : Z :=
  if bool_decide (tex_w > 512) then 1024 else if bool_decide (tex_w <= 256) then 256 else 512.

Definition tier_h (tex_h : Z) : Z := if bool_decide (tex_h <= 256) then 256 else 512.

Definition creation_calls (mem_w mem_h : Z) (layers : list Z) : list GpuCall :=
  concat (map (fun i => [gpu_C3D_TexInitVRAM i mem_w mem_h; gpu_C3D_RenderTargetCreateFromTex i])
            layers).

(** The screen [repaint] composes onto, and where, when the screens are
    swapped or the level editor runs without its own screen. *)
Definition flat_target {W} (s : State W) : C3D_RenderTarget * Z :=
  let e := engine s in
  if g_screen_swapped s then
    if (LevelEditor e || MagicHand e) && editorScreen_active e
    then (s_top_screen, g_screen_phys_x e + 40)
    else (s_bottom_screen, g_screen_phys_x e)
  else (s_bottom_screen, g_screen_phys_x e - 40).

(** The calls of the loader, and the calls of a blit. *)
Definition loader_event (e : Event) : bool :=
  match e with
  | ev_C2D_SpriteSheetLoad _ _ | ev_C2D_SpriteSheetFree _ | ev_minport_freeTextureMemory
  | ev_minport_unlinkTexture _ | ev_pLogWarning _ | ev_pLogDebug _ => true
  | _ => false
  end.

Definition draw_event (e : Event) : bool :=
  match e with
  | ev_C2D_DrawImage_Custom _ _ _ _ _ _ _ _ _ _ _ | ev_C2D_ViewSave | ev_C2D_ViewRestore
  | ev_C2D_ViewTranslate _ _ | ev_C2D_ViewRotateDegrees _ => true
  | _ => false
  end.

Definition is_blit (e : Event) : bool :=
  match e with ev_C2D_DrawImage_Custom _ _ _ _ _ _ _ _ _ _ _ => true | _ => false end.

(** The sprite sheets that uploads among some calls returned. *)
Definition loaded_sheets (calls : list Event) : list C2D_SpriteSheet :=
  omap (fun e => match e with ev_C2D_SpriteSheetLoad _ (Some sheet) => Some sheet | _ => None end)
    calls.

(** The fields of a picture that loading a further band leaves alone. *)
Definition same_picture (t t' : StdPicture) : Prop :=
  inited t' = inited t /\ l_lazyLoaded t' = l_lazyLoaded t /\ l_path t' = l_path t
  /\ w t' = w t /\ h t' = h t.

Section Resident.
Context {W : Type} `{Backend W}.

(** The part of the dispatcher that follows the lazy load. *)
Definition draw_resident (xDst yDst wDst hDst : Z) (tx : StdPicture)
    (xSrc ySrc wSrc hSrc : Z) (rotateAngle : Q) (center : option FPoint_t) (flip : Z)
    (tint : Tint) : Proc W (option StdPicture) :=
  let '(ySrc, mode) := auto_flip 3 (Z.quot (h tx) 2) ySrc 0 in
  let flip := Z.lxor flip mode in
  let rotated := negb (Qeq_bool rotateAngle 0) in
  '(xDst, yDst) ←
    (if rotated then begin_rotation xDst yDst wDst hDst rotateAngle center
     else mret (xDst, yDst));
  drawn ← draw_bands xDst yDst wDst hDst tx xSrc ySrc wSrc hSrc flip tint;
  match drawn with
  | None => mret None
  | Some _ => when rotated (call ev_C2D_ViewRestore);; mret (Some tx)
  end.

End Resident.

End XRender.

(** * Properties *)

(** ** Machine integers *)

Module MachineIntProps.
Import MachineInt.

Lemma wrap16_id z : in_int16 z -> wrap16 z = z.
Proof.
  unfold in_int16, wrap16. intros Hz.
  rewrite Z.mod_small by lia. lia.
Qed.

Lemma wrap16_range z : in_int16 (wrap16 z).
Proof.
  unfold in_int16, wrap16.
  pose proof (Z.mod_pos_bound (z + 32768) 65536 ltac:(lia)). lia.
Qed.

Lemma wrap32_id z : in_int32 z -> wrap32 z = z.
Proof.
  unfold in_int32, wrap32. intros Hz.
  rewrite Z.mod_small by lia. lia.
Qed.

(** An integer of up to 53 bits is converted to [double] as it is. *)
Lemma of_Z_exact z : Float64.exact z -> Float64.of_Z z = z.
Proof.
  unfold Float64.exact, Float64.of_Z. intros Hz. cbv zeta.
  destruct (Z.abs z <? 9007199254740992) eqn:Hlt; [reflexivity |].
  apply Z.ltb_ge in Hlt.
  assert (Ha : Z.abs z = 9007199254740992) by lia.
  rewrite Ha.
  destruct (Z.abs_eq_or_opp z) as [Hz' | Hz']; rewrite Hz' in Ha.
  - subst z. reflexivity.
  - assert (z = -9007199254740992) by lia. subst z. reflexivity.
Qed.

(** Beyond 53 bits the conversion rounds to the nearest representable
    number, a tie to the even mantissa; around [2^53], [2^54] and the
    bounds of the 64-bit integers it agrees with the conversion of the
    IEEE 754 specification. *)
Lemma of_Z_rounds :
  Float64.of_Z 9007199254740993 = 9007199254740992
  /\ Float64.of_Z 9007199254740995 = 9007199254740996
  /\ Float64.of_Z (-9007199254740993) = -9007199254740992
  /\ forallb (fun z => bool_decide (Float64.of_Z_ieee z = Some (Float64.of_Z z)))
       (concat (map (fun start => map (fun k => start + Z.of_nat k) (seq 0 1024))
                  [-512; 9007199254740992 - 512; 18014398509481984 - 512;
                   9223372036854775807 - 1023; -9223372036854775808;
                   18446744073709551615 - 1023]))
     = true.
Proof.
  split; [vm_compute; reflexivity |]. split; [vm_compute; reflexivity |].
  split; vm_compute; reflexivity.
Qed.

End MachineIntProps.

(** * Properties of the world loader *)

Module WorldLoaderProps.
Import MachineInt MachineIntProps WorldLoader.

(** *** Bounds of the loading loops *)

Lemma arr_write_in_range {T} hi (blank : T) i f a :
  0 <= i <= hi -> is_Some (arr_write hi blank i f a).
Proof. intros Hi. unfold arr_write. rewrite bool_decide_eq_true_2 by done. eauto. Qed.

Lemma arr_read_in_range {T} hi (blank : T) i a :
  0 <= i <= hi -> is_Some (arr_read hi blank i a).
Proof. intros Hi. unfold arr_read. rewrite bool_decide_eq_true_2 by done. eauto. Qed.

Lemma arr_write_Some_range {T} hi (blank : T) i f a a' :
  arr_write hi blank i f a = Some a' -> 0 <= i <= hi.
Proof. unfold arr_write. case_bool_decide; [done | discriminate]. Qed.

Lemma write_all_in_range {T} hi (blank : T) i fs a :
  0 <= i <= hi -> is_Some (write_all hi blank i fs a).
Proof.
  intros Hi. revert a. induction fs as [|f fs IH]; intros a; simpl; [eauto |].
  destruct (arr_write_in_range hi blank i f a Hi) as [a' ->]. simpl. apply IH.
Qed.

Lemma blank_cells_in_range {T} hi (blank : T) n a :
  Z.of_nat n <= hi -> is_Some (blank_cells hi blank n a).
Proof.
  induction n as [|n IH]; intros Hn; simpl; [eauto |].
  destruct IH as [a' Ha']; [lia |]. rewrite Ha'. simpl.
  apply arr_write_in_range. lia.
Qed.

(** A loop whose body succeeds on every cell of the array never leaves
    the array, and its counter ends inside [num..maxN]. *)
Lemma load_loop_bounded {A T} maxN (body : A -> Z -> gmap Z T -> option (gmap Z T)) items :
  (forall x i a, 0 <= i <= maxN -> is_Some (body x i a)) ->
  forall num arr, 0 <= num <= maxN ->
  exists num' arr', load_loop maxN body items num arr = Some (num', arr')
                    /\ num <= num' <= maxN.
Proof.
  intros Hbody. induction items as [|x rest IH]; intros num arr Hnum; simpl.
  - exists num, arr. split; [done | lia].
  - case_bool_decide as Hgt.
    + exists maxN, arr. split; [done | lia].
    + destruct (Hbody x (num + 1) arr) as [arr' Harr']; [lia |].
      rewrite Harr'. simpl.
      destruct (IH (num + 1) arr') as (n' & a' & Hrun & Hn'); [lia |].
      exists n', a'. split; [done | lia].
Qed.

Ltac step_write :=
  match goal with
  | |- is_Some (mbind _ (arr_write ?hi ?b ?i ?f ?a)) =>
      let a' := fresh "a" in let E := fresh "E" in
      destruct (arr_write_in_range hi b i f a ltac:(assumption)) as [a' E];
      rewrite E; clear E; simpl
  | |- is_Some (mbind _ (arr_read ?hi ?b ?i ?a)) =>
      let c := fresh "c" in let E := fresh "E" in
      destruct (arr_read_in_range hi b i a ltac:(assumption)) as [c E];
      rewrite E; clear E; simpl
  end.

Lemma tile_body_ok maxTiles TW TH t i a :
  0 <= i <= maxTiles -> is_Some (tile_body maxTiles TW TH t i a).
Proof. intros Hi. unfold tile_body. repeat step_write. by apply arr_write_in_range. Qed.

Lemma scene_body_ok maxScenes SW SH s i a :
  0 <= i <= maxScenes -> is_Some (scene_body maxScenes SW SH s i a).
Proof. intros Hi. unfold scene_body. repeat step_write. by apply arr_write_in_range. Qed.

Lemma path_body_ok maxWorldPaths p i a :
  0 <= i <= maxWorldPaths -> is_Some (path_body maxWorldPaths p i a).
Proof. intros Hi. unfold path_body. repeat step_write. by apply arr_write_in_range. Qed.

Lemma level_body_ok maxWorldLevels l i a :
  0 <= i <= maxWorldLevels -> is_Some (level_body maxWorldLevels l i a).
Proof. intros Hi. by apply write_all_in_range. Qed.

Lemma music_body_ok maxWorldMusic m i a :
  0 <= i <= maxWorldMusic -> is_Some (music_body maxWorldMusic m i a).
Proof. intros Hi. by apply write_all_in_range. Qed.

(** C10. Whatever the world file supplies, [OpenWorld] runs through
    [ClearWorld] and its five loading loops to their end
    without a single access outside [Tile], [Scene], [WorldPath],
    [WorldLevel] or [WorldMusic] (an access above the capacity would make
    the run fail), and on return every counter is at most its capacity. *)
Theorem OpenWorld_stays_in_bounds
    (maxTiles maxScenes maxWorldPaths maxWorldLevels maxWorldMusic : Z)
    (TileWidth TileHeight SceneWidth SceneHeight : Z -> Z)
    (wld : WorldData) (w : World) :
  counters_ok maxTiles maxScenes maxWorldPaths maxWorldLevels maxWorldMusic w ->
  exists w',
    OpenWorld_arrays maxTiles maxScenes maxWorldPaths maxWorldLevels maxWorldMusic
              TileWidth TileHeight SceneWidth SceneHeight wld w = Some w'
    /\ numTiles w' <= maxTiles /\ numScenes w' <= maxScenes
    /\ numWorldPaths w' <= maxWorldPaths /\ numWorldLevels w' <= maxWorldLevels
    /\ numWorldMusic w' <= maxWorldMusic
    /\ counters_ok maxTiles maxScenes maxWorldPaths maxWorldLevels maxWorldMusic w'.
Proof.
  intros (HT & HS & HP & HL & HM).
  unfold OpenWorld_arrays, ClearWorld.
  destruct (blank_cells_in_range maxTiles blankTile (Z.to_nat (numTiles w)) (Tile w))
    as [t0 ->]; [lia |].
  destruct (blank_cells_in_range maxWorldPaths blankPath (Z.to_nat (numWorldPaths w)) (WorldPath w))
    as [p0 ->]; [lia |].
  destruct (blank_cells_in_range maxScenes blankScene (Z.to_nat (numScenes w)) (Scene w))
    as [s0 ->]; [lia |].
  destruct (blank_cells_in_range maxWorldLevels blankLevel (Z.to_nat (numWorldLevels w)) (WorldLevel w))
    as [l0 ->]; [lia |].
  destruct (blank_cells_in_range maxWorldMusic blankMusic (Z.to_nat (numWorldMusic w)) (WorldMusic w))
    as [m0 ->]; [lia |].
  simpl.
  destruct (load_loop_bounded maxTiles (tile_body maxTiles TileWidth TileHeight) (tiles wld)
              (tile_body_ok _ _ _) 0 t0) as (nT & aT & -> & HnT); [lia |].
  destruct (load_loop_bounded maxScenes (scene_body maxScenes SceneWidth SceneHeight) (scenery wld)
              (scene_body_ok _ _ _) 0 s0) as (nS & aS & -> & HnS); [lia |].
  destruct (load_loop_bounded maxWorldPaths (path_body maxWorldPaths) (paths wld)
              (path_body_ok _) 0 p0) as (nP & aP & -> & HnP); [lia |].
  destruct (load_loop_bounded maxWorldLevels (level_body maxWorldLevels) (levels wld)
              (level_body_ok _) 0 l0) as (nL & aL & -> & HnL); [lia |].
  destruct (load_loop_bounded maxWorldMusic (music_body maxWorldMusic) (music wld)
              (music_body_ok _) 0 m0) as (nM & aM & -> & HnM); [lia |].
  simpl. eexists. split; [reflexivity |]. unfold counters_ok. simpl. lia.
Qed.

Lemma OpenWorld_stays_in_bounds_witness :
  counters_ok 2 2 2 2 2 empty_world
  /\ exists w',
       OpenWorld_arrays 2 2 2 2 2 (fun _ => 32) (fun _ => 32) (fun _ => 16) (fun _ => 16)
         small_world_file empty_world = Some w'
       /\ numTiles w' <= 2 /\ numWorldMusic w' <= 2.
Proof.
  assert (Hok : counters_ok 2 2 2 2 2 empty_world) by (unfold counters_ok; simpl; lia).
  split; [exact Hok |].
  destruct (OpenWorld_stays_in_bounds 2 2 2 2 2 (fun _ => 32) (fun _ => 32)
              (fun _ => 16) (fun _ => 16) small_world_file empty_world Hok)
    as (w' & Hrun & HT & _ & _ & _ & HM & _).
  exists w'. exact (conj Hrun (conj HT HM)).
Defined.

(** *** What the loading loops store *)

Lemma blank_cells_spec {T} hi (blank : T) n a :
  Z.of_nat n <= hi ->
  exists a', blank_cells hi blank n a = Some a'
    /\ (forall i, 1 <= i <= Z.of_nat n -> a' !! i = Some blank)
    /\ (forall i, ~ (1 <= i <= Z.of_nat n) -> a' !! i = a !! i).
Proof.
  induction n as [|n IH]; intros Hn.
  - exists a. split; [done |]. split; [intros i Hi; lia | done].
  - destruct IH as (a1 & Hrun & Hin & Hout); [lia |].
    cbn [blank_cells]. rewrite Hrun. cbn [mbind option_bind].
    unfold arr_write. rewrite bool_decide_eq_true_2 by lia.
    eexists. split; [reflexivity |]. split.
    + intros i Hi. destruct (decide (i = Z.of_nat (S n))) as [-> | Hne].
      * apply lookup_insert_eq.
      * rewrite lookup_insert_ne by done. apply Hin. lia.
    + intros i Hi. rewrite lookup_insert_ne by lia. apply Hout. lia.
Qed.

Lemma load_loop_content {A T} maxN (blank : T)
    (body : A -> Z -> gmap Z T -> option (gmap Z T)) (conv : A -> T -> T) items :
  (forall x i a, 0 <= i <= maxN ->
     body x i a = Some (<[i := conv x (default blank (a !! i))]> a)) ->
  forall num arr, 0 <= num <= maxN ->
  exists arr',
    load_loop maxN body items num arr
      = Some (Z.min (num + Z.of_nat (length items)) maxN, arr')
    /\ (forall (k : nat) x, items !! k = Some x -> num + Z.of_nat k < maxN ->
          arr' !! (num + Z.of_nat k + 1)
            = Some (conv x (default blank (arr !! (num + Z.of_nat k + 1)))))
    /\ (forall j, j <= num \/ Z.min (num + Z.of_nat (length items)) maxN < j ->
          arr' !! j = arr !! j).
Proof.
  intros Hbody. induction items as [|x rest IH]; intros num arr Hnum.
  - exists arr. cbn [load_loop length]. split; [f_equal; f_equal; lia |].
    split; [intros k y Hk; discriminate | done].
  - cbn [load_loop]. case_bool_decide as Hgt.
    + exists arr. split; [f_equal; f_equal; cbn [length]; lia |].
      split; [intros k y _ Hk; lia | done].
    + rewrite (Hbody x (num + 1) arr) by lia. cbn [mbind option_bind].
      destruct (IH (num + 1) (<[num + 1 := conv x (default blank (arr !! (num + 1)))]> arr))
        as (arr' & Hrun & Hin & Hout); [lia |].
      exists arr'. split; [rewrite Hrun; f_equal; f_equal; cbn [length]; lia |]. split.
      * intros [|k] y Hk Hlt.
        -- injection Hk as ->. replace (num + Z.of_nat 0 + 1) with (num + 1) by lia.
           rewrite Hout by lia. apply lookup_insert_eq.
        -- replace (num + Z.of_nat (S k) + 1) with (num + 1 + Z.of_nat k + 1) by lia.
           rewrite (Hin k y Hk) by lia. by rewrite lookup_insert_ne by lia.
      * intros j Hj. cbn [length] in Hj.
        rewrite Hout by lia. by rewrite lookup_insert_ne by lia.
Qed.

Lemma load_loop_loaded {A T} maxN (blank : T)
    (body : A -> Z -> gmap Z T -> option (gmap Z T)) (conv : A -> T -> T) items arr0 :
  (forall x i a, 0 <= i <= maxN ->
     body x i a = Some (<[i := conv x (default blank (a !! i))]> a)) ->
  0 <= maxN ->
  exists num arr, load_loop maxN body items 0 arr0 = Some (num, arr)
                  /\ loaded maxN blank conv items arr0 num arr.
Proof.
  intros Hbody Hmax.
  destruct (load_loop_content maxN blank body conv items Hbody 0 arr0)
    as (arr & Hrun & Hin & Hout); [lia |].
  eexists _, arr. split; [exact Hrun |]. split; [lia |]. split.
  - intros k x Hk Hlt. specialize (Hin k x Hk). rewrite !Z.add_0_l in Hin. by apply Hin.
  - intros j Hj. apply Hout. lia.
Qed.

Lemma write_all_spec {T} hi (blank : T) i f fs a :
  0 <= i <= hi ->
  write_all hi blank i (f :: fs) a
    = Some (<[i := foldl (fun c g => g c) (default blank (a !! i)) (f :: fs)]> a).
Proof.
  intros Hi. revert f a. induction fs as [|g fs IH]; intros f a.
  - cbn [write_all foldl]. unfold arr_write. by rewrite bool_decide_eq_true_2 by done.
  - change (write_all hi blank i (f :: g :: fs) a)
      with (arr_write hi blank i f a ≫= write_all hi blank i (g :: fs)).
    unfold arr_write at 1. rewrite bool_decide_eq_true_2 by done. cbn [mbind option_bind].
    rewrite IH. rewrite lookup_insert_eq. cbn [default foldl].
    by rewrite insert_insert_eq.
Qed.

(** *** The cell each loop body leaves behind *)

Ltac run_body Hi :=
  let Hd := fresh "Hd" in
  pose proof (bool_decide_eq_true_2 _ Hi) as Hd;
  unfold arr_write, arr_read;
  repeat (rewrite Hd; cbn [mbind option_bind default]; rewrite ?lookup_insert_eq);
  cbn [default]; rewrite ?insert_insert_eq.

Lemma tile_body_spec maxTiles TW TH t i a :
  0 <= i <= maxTiles ->
  tile_body maxTiles TW TH t i a
    = Some (<[i := mkTile (mkLocation (Float64.of_Z (tt_x t)) (Float64.of_Z (tt_y t))
                             (Float64.of_Z (TW (wrap32 (tt_id t))))
                             (Float64.of_Z (TH (wrap32 (tt_id t)))))
                     (wrap32 (tt_id t))]> a).
Proof. intros Hi. unfold tile_body. run_body Hi. reflexivity. Qed.

Lemma scene_body_spec maxScenes SW SH s i a :
  0 <= i <= maxScenes ->
  scene_body maxScenes SW SH s i a
    = Some (<[i := mkScene (mkLocation (Float64.of_Z (sc_x s)) (Float64.of_Z (sc_y s))
                              (Float64.of_Z (SW (wrap32 (sc_id s))))
                              (Float64.of_Z (SH (wrap32 (sc_id s)))))
                     (wrap32 (sc_id s)) true]> a).
Proof. intros Hi. unfold scene_body. run_body Hi. reflexivity. Qed.

Lemma path_body_spec maxWorldPaths p i a :
  0 <= i <= maxWorldPaths ->
  path_body maxWorldPaths p i a
    = Some (<[i := mkWorldPath (mkLocation (Float64.of_Z (pt_x p)) (Float64.of_Z (pt_y p)) 32 32)
                     (wrap32 (pt_id p))
                     (WorldPath_Active (default blankPath (a !! i)))]> a).
Proof. intros Hi. unfold path_body. run_body Hi. reflexivity. Qed.

Lemma music_body_spec maxWorldMusic m i a :
  0 <= i <= maxWorldMusic ->
  music_body maxWorldMusic m i a
    = Some (<[i := mkWorldMusic (mkLocation (Float64.of_Z (Float64.of_Z (mb_x m) + 1))
                                   (Float64.of_Z (Float64.of_Z (mb_y m) + 1)) 30 30)
                     (wrap32 (mb_id m))]> a).
Proof. intros Hi. unfold music_body. by rewrite write_all_spec. Qed.

(** The level cell: every field of the record is assigned, and the four
    exits are stored under the keys 1 to 4 of [LevelExit]. *)
Lemma level_body_spec maxWorldLevels l i a :
  0 <= i <= maxWorldLevels ->
  level_body maxWorldLevels l i a
    = Some (<[i := mkWorldLevel (mkLocation (Float64.of_Z (lt_x l)) (Float64.of_Z (lt_y l)) 32 32)
                     (wrap32 (lt_id l)) (lt_lvlfile l) (lt_title l)
                     (<[4 := wrap32 (lt_right_exit l)]> (<[3 := wrap32 (lt_bottom_exit l)]>
                        (<[2 := wrap32 (lt_left_exit l)]> (<[1 := wrap32 (lt_top_exit l)]>
                           (WorldLevel_LevelExit (default blankLevel (a !! i)))))))
                     (wrap32 (lt_entertowarp l)) (lt_alwaysVisible l) (lt_alwaysVisible l)
                     (lt_pathbg l) (lt_gamestart l)
                     (Float64.of_Z (lt_gotox l)) (Float64.of_Z (lt_gotoy l))
                     (lt_bigpathbg l)]> a).
Proof. intros Hi. unfold level_body, level_fields. by rewrite write_all_spec. Qed.

(** *** [ClearWorld] and the loading loops as a whole *)

Lemma blank_cells_blanked {T} hi (blank : T) n a :
  0 <= n <= hi ->
  exists a', blank_cells hi blank (Z.to_nat n) a = Some a' /\ blanked n blank a a'.
Proof.
  intros Hn.
  destruct (blank_cells_spec hi blank (Z.to_nat n) a) as (a' & Hrun & Hin & Hout); [lia |].
  exists a'. split; [done |]. split.
  - intros i Hi. apply Hin. lia.
  - intros i Hi. apply Hout. lia.
Qed.

Section Content.

Variables maxTiles maxScenes maxWorldPaths maxWorldLevels maxWorldMusic : Z.
Variables TileWidth TileHeight SceneWidth SceneHeight : Z -> Z.

Local Abbreviation ok := (counters_ok maxTiles maxScenes maxWorldPaths maxWorldLevels maxWorldMusic).
Local Abbreviation clear := (ClearWorld maxTiles maxScenes maxWorldPaths maxWorldLevels maxWorldMusic).
Local Abbreviation open :=
  (OpenWorld_arrays maxTiles maxScenes maxWorldPaths maxWorldLevels maxWorldMusic
     TileWidth TileHeight SceneWidth SceneHeight).

Local Abbreviation tile_cell :=
  (fun (t : WorldTerrainTile) (_ : Tile_t) =>
     mkTile (mkLocation (Float64.of_Z (tt_x t)) (Float64.of_Z (tt_y t))
               (Float64.of_Z (TileWidth (wrap32 (tt_id t))))
               (Float64.of_Z (TileHeight (wrap32 (tt_id t)))))
       (wrap32 (tt_id t))).
Local Abbreviation scene_cell :=
  (fun (s : WorldScenery) (_ : Scene_t) =>
     mkScene (mkLocation (Float64.of_Z (sc_x s)) (Float64.of_Z (sc_y s))
                (Float64.of_Z (SceneWidth (wrap32 (sc_id s))))
                (Float64.of_Z (SceneHeight (wrap32 (sc_id s)))))
       (wrap32 (sc_id s)) true).
Local Abbreviation path_cell :=
  (fun (p : WorldPathTile) (old : WorldPath_t) =>
     mkWorldPath (mkLocation (Float64.of_Z (pt_x p)) (Float64.of_Z (pt_y p)) 32 32)
       (wrap32 (pt_id p)) (WorldPath_Active old)).
Local Abbreviation level_cell :=
  (fun (l : WorldLevelTile) (old : WorldLevel_t) =>
     mkWorldLevel (mkLocation (Float64.of_Z (lt_x l)) (Float64.of_Z (lt_y l)) 32 32)
       (wrap32 (lt_id l)) (lt_lvlfile l) (lt_title l)
       (<[4 := wrap32 (lt_right_exit l)]> (<[3 := wrap32 (lt_bottom_exit l)]>
          (<[2 := wrap32 (lt_left_exit l)]> (<[1 := wrap32 (lt_top_exit l)]>
             (WorldLevel_LevelExit old)))))
       (wrap32 (lt_entertowarp l)) (lt_alwaysVisible l) (lt_alwaysVisible l)
       (lt_pathbg l) (lt_gamestart l) (Float64.of_Z (lt_gotox l)) (Float64.of_Z (lt_gotoy l))
       (lt_bigpathbg l)).
Local Abbreviation music_cell :=
  (fun (m : WorldMusicBox) (_ : WorldMusic_t) =>
     mkWorldMusic (mkLocation (Float64.of_Z (Float64.of_Z (mb_x m) + 1))
                     (Float64.of_Z (Float64.of_Z (mb_y m) + 1)) 30 30)
       (wrap32 (mb_id m))).

(** The state between [ClearWorld] and the loops, and the state at the
    end, in terms of [blanked] and [loaded]. *)
Lemma OpenWorld_loaded (wld : WorldData) (w : World) :
  ok w ->
  exists w0 w',
    clear w = Some w0 /\ open wld w = Some w'
    /\ blanked (numTiles w) blankTile (Tile w) (Tile w0)
    /\ blanked (numScenes w) blankScene (Scene w) (Scene w0)
    /\ blanked (numWorldPaths w) blankPath (WorldPath w) (WorldPath w0)
    /\ blanked (numWorldLevels w) blankLevel (WorldLevel w) (WorldLevel w0)
    /\ blanked (numWorldMusic w) blankMusic (WorldMusic w) (WorldMusic w0)
    /\ loaded maxTiles blankTile tile_cell (tiles wld) (Tile w0) (numTiles w') (Tile w')
    /\ loaded maxScenes blankScene scene_cell (scenery wld) (Scene w0) (numScenes w') (Scene w')
    /\ loaded maxWorldPaths blankPath path_cell (paths wld) (WorldPath w0)
         (numWorldPaths w') (WorldPath w')
    /\ loaded maxWorldLevels blankLevel level_cell (levels wld) (WorldLevel w0)
         (numWorldLevels w') (WorldLevel w')
    /\ loaded maxWorldMusic blankMusic music_cell (music wld) (WorldMusic w0)
         (numWorldMusic w') (WorldMusic w').
Proof.
  intros (HT & HS & HP & HL & HM).
  unfold OpenWorld_arrays, ClearWorld.
  destruct (blank_cells_blanked maxTiles blankTile (numTiles w) (Tile w) HT)
    as (t0 & -> & Ht0).
  destruct (blank_cells_blanked maxWorldPaths blankPath (numWorldPaths w) (WorldPath w) HP)
    as (p0 & -> & Hp0).
  destruct (blank_cells_blanked maxScenes blankScene (numScenes w) (Scene w) HS)
    as (s0 & -> & Hs0).
  destruct (blank_cells_blanked maxWorldLevels blankLevel (numWorldLevels w) (WorldLevel w) HL)
    as (l0 & -> & Hl0).
  destruct (blank_cells_blanked maxWorldMusic blankMusic (numWorldMusic w) (WorldMusic w) HM)
    as (m0 & -> & Hm0).
  cbn [mbind option_bind Tile Scene WorldPath WorldLevel WorldMusic].
  destruct (load_loop_loaded maxTiles blankTile (tile_body maxTiles TileWidth TileHeight) tile_cell
              (tiles wld) t0 (fun t i a => tile_body_spec maxTiles _ _ t i a))
    as (nT & aT & -> & HaT); [lia |].
  destruct (load_loop_loaded maxScenes blankScene (scene_body maxScenes SceneWidth SceneHeight) scene_cell
              (scenery wld) s0 (fun x i a => scene_body_spec maxScenes _ _ x i a))
    as (nS & aS & -> & HaS); [lia |].
  destruct (load_loop_loaded maxWorldPaths blankPath (path_body maxWorldPaths) path_cell
              (paths wld) p0 (fun x i a => path_body_spec maxWorldPaths x i a))
    as (nP & aP & -> & HaP); [lia |].
  destruct (load_loop_loaded maxWorldLevels blankLevel (level_body maxWorldLevels) level_cell
              (levels wld) l0 (fun x i a => level_body_spec maxWorldLevels x i a))
    as (nL & aL & -> & HaL); [lia |].
  destruct (load_loop_loaded maxWorldMusic blankMusic (music_body maxWorldMusic) music_cell
              (music wld) m0 (fun x i a => music_body_spec maxWorldMusic x i a))
    as (nM & aM & -> & HaM); [lia |].
  cbn [mbind option_bind].
  eexists _, _. split; [reflexivity |]. split; [reflexivity |].
  cbn [Tile Scene WorldPath WorldLevel WorldMusic
       numTiles numScenes numWorldPaths numWorldLevels numWorldMusic].
  repeat split; try apply Ht0; try apply Hs0; try apply Hp0; try apply Hl0; try apply Hm0;
    try apply HaT; try apply HaS; try apply HaP; try apply HaL; try apply HaM.
Qed.

(** After [OpenWorld] every counter is the number of entries the world
    file holds for its array, or the capacity of the array when the file
    holds more: surplus entries are dropped, nothing else is. *)
Theorem OpenWorld_counts (wld : WorldData) (w : World) :
  ok w ->
  exists w',
    open wld w = Some w'
    /\ numTiles w' = Z.min (Z.of_nat (length (tiles wld))) maxTiles
    /\ numScenes w' = Z.min (Z.of_nat (length (scenery wld))) maxScenes
    /\ numWorldPaths w' = Z.min (Z.of_nat (length (paths wld))) maxWorldPaths
    /\ numWorldLevels w' = Z.min (Z.of_nat (length (levels wld))) maxWorldLevels
    /\ numWorldMusic w' = Z.min (Z.of_nat (length (music wld))) maxWorldMusic.
Proof.
  intros Hok.
  destruct (OpenWorld_loaded wld w Hok)
    as (w0 & w' & _ & Hrun & _ & _ & _ & _ & _ & HT & HS & HP & HL & HM).
  exists w'. split; [exact Hrun |].
  repeat split; [apply HT | apply HS | apply HP | apply HL | apply HM].
Qed.


(** The loading loops store path tile [k] of the file in
    [WorldPath[k + 1]], 32 by 32 at its coordinates, with its id
    converted to [int] as the type; music box [k] is stored in
    [WorldMusic[k + 1]], 30 by 30, one pixel right of and below its
    coordinates, with its id converted to [int] as the type.  The
    conversions keep an id within the range of [int] and coordinates
    of up to 53 bits as they are; a wider id wraps around (4294967295 is
    stored as -1) and wider coordinates are rounded. *)
Theorem OpenWorld_stores_paths_and_music (wld : WorldData) (w : World) :
  ok w ->
  exists w',
    open wld w = Some w'
    /\ (forall (k : nat) p, paths wld !! k = Some p -> Z.of_nat k < maxWorldPaths ->
          exists c, WorldPath w' !! (Z.of_nat k + 1) = Some c
                    /\ WorldPath_Location c
                       = mkLocation (Float64.of_Z (pt_x p)) (Float64.of_Z (pt_y p)) 32 32
                    /\ (Float64.exact (pt_x p) -> Float64.exact (pt_y p) ->
                        WorldPath_Location c = mkLocation (pt_x p) (pt_y p) 32 32)
                    /\ WorldPath_Type c = wrap32 (pt_id p)
                    /\ (in_int32 (pt_id p) -> WorldPath_Type c = pt_id p))
    /\ (forall (k : nat) m, music wld !! k = Some m -> Z.of_nat k < maxWorldMusic ->
          exists c, WorldMusic w' !! (Z.of_nat k + 1) = Some c
                    /\ WorldMusic_Location c
                       = mkLocation (Float64.of_Z (Float64.of_Z (mb_x m) + 1))
                           (Float64.of_Z (Float64.of_Z (mb_y m) + 1)) 30 30
                    /\ (Float64.exact (mb_x m) -> Float64.exact (mb_x m + 1) ->
                        Float64.exact (mb_y m) -> Float64.exact (mb_y m + 1) ->
                        WorldMusic_Location c = mkLocation (mb_x m + 1) (mb_y m + 1) 30 30)
                    /\ WorldMusic_Type c = wrap32 (mb_id m)
                    /\ (in_int32 (mb_id m) -> WorldMusic_Type c = mb_id m)
                    /\ (mb_id m = 4294967295 -> WorldMusic_Type c = -1)).
Proof.
  intros Hok.
  destruct (OpenWorld_loaded wld w Hok)
    as (w0 & w' & _ & Hrun & _ & _ & _ & _ & _ & _ & _ & HP & _ & HM).
  exists w'. split; [exact Hrun |]. split.
  - intros k p Hk Hlt. destruct HP as (_ & Hcell & _).
    eexists. split; [by apply Hcell |]. cbn [WorldPath_Type WorldPath_Location].
    split; [done |]. split; [intros Hx Hy; by rewrite !of_Z_exact |].
    split; [done | apply wrap32_id].
  - intros k m Hk Hlt. destruct HM as (_ & Hcell & _).
    eexists. split; [by apply Hcell |]. cbn [WorldMusic_Type WorldMusic_Location].
    split; [done |].
    split; [intros Hx Hx1 Hy Hy1;
            by rewrite (of_Z_exact (mb_x m)), (of_Z_exact (mb_y m)), !of_Z_exact |].
    split; [done |]. split; [apply wrap32_id |].
    by intros ->.
Qed.

(** The loading loops store level tile [k] of the file in
    [WorldLevel[k + 1]], 32 by 32 at its coordinates, with its id, its
    entrance warp and its four exits (top, left, bottom, right under the
    keys 1 to 4) converted to [int], its coordinates and warp target
    converted to [double], and its file, title and visible, path, start
    and big-path flags.  A tile whose integers are within the range of
    [int] and whose coordinates have up to 53 bits is stored exactly as
    the file gives it. *)
Theorem OpenWorld_stores_levels (wld : WorldData) (w : World) (k : nat) (l : WorldLevelTile) :
  ok w -> levels wld !! k = Some l -> Z.of_nat k < maxWorldLevels ->
  exists w' c,
    open wld w = Some w'
    /\ WorldLevel w' !! (Z.of_nat k + 1) = Some c
    /\ WorldLevel_Location c
       = mkLocation (Float64.of_Z (lt_x l)) (Float64.of_Z (lt_y l)) 32 32
    /\ WorldLevel_Type c = wrap32 (lt_id l)
    /\ WorldLevel_FileName c = lt_lvlfile l /\ WorldLevel_LevelName c = lt_title l
    /\ WorldLevel_LevelExit c !! 1 = Some (wrap32 (lt_top_exit l))
    /\ WorldLevel_LevelExit c !! 2 = Some (wrap32 (lt_left_exit l))
    /\ WorldLevel_LevelExit c !! 3 = Some (wrap32 (lt_bottom_exit l))
    /\ WorldLevel_LevelExit c !! 4 = Some (wrap32 (lt_right_exit l))
    /\ WorldLevel_StartWarp c = wrap32 (lt_entertowarp l)
    /\ WorldLevel_Visible c = lt_alwaysVisible l
    /\ WorldLevel_Path c = lt_pathbg l /\ WorldLevel_Start c = lt_gamestart l
    /\ WorldLevel_WarpX c = Float64.of_Z (lt_gotox l)
    /\ WorldLevel_WarpY c = Float64.of_Z (lt_gotoy l)
    /\ WorldLevel_Path2 c = lt_bigpathbg l
    /\ (Forall in_int32 [lt_id l; lt_entertowarp l; lt_top_exit l; lt_left_exit l;
                         lt_bottom_exit l; lt_right_exit l] ->
        Forall Float64.exact [lt_x l; lt_y l; lt_gotox l; lt_gotoy l] ->
        WorldLevel_Location c = mkLocation (lt_x l) (lt_y l) 32 32
        /\ WorldLevel_Type c = lt_id l /\ WorldLevel_StartWarp c = lt_entertowarp l
        /\ WorldLevel_LevelExit c !! 1 = Some (lt_top_exit l)
        /\ WorldLevel_LevelExit c !! 2 = Some (lt_left_exit l)
        /\ WorldLevel_LevelExit c !! 3 = Some (lt_bottom_exit l)
        /\ WorldLevel_LevelExit c !! 4 = Some (lt_right_exit l)
        /\ WorldLevel_WarpX c = lt_gotox l /\ WorldLevel_WarpY c = lt_gotoy l).
Proof.
  intros Hok Hk Hlt.
  destruct (OpenWorld_loaded wld w Hok)
    as (w0 & w' & _ & Hrun & _ & _ & _ & _ & _ & _ & _ & _ & HL & _).
  destruct HL as (_ & Hcell & _).
  eexists w', _. split; [exact Hrun |]. split; [by apply Hcell |].
  cbn [WorldLevel_Location WorldLevel_Type WorldLevel_FileName WorldLevel_LevelName
       WorldLevel_LevelExit WorldLevel_StartWarp WorldLevel_Visible WorldLevel_Path
       WorldLevel_Start WorldLevel_WarpX WorldLevel_WarpY WorldLevel_Path2].
  do 15 (split; [by simplify_map_eq |]).
  intros Hint Hdbl.
  apply Forall_cons in Hint as [Hid Hint]. apply Forall_cons in Hint as [Hwarp Hint].
  apply Forall_cons in Hint as [H1 Hint]. apply Forall_cons in Hint as [H2 Hint].
  apply Forall_cons in Hint as [H3 Hint]. apply Forall_cons in Hint as [H4 _].
  apply Forall_cons in Hdbl as [Hx Hdbl]. apply Forall_cons in Hdbl as [Hy Hdbl].
  apply Forall_cons in Hdbl as [Hgx Hdbl]. apply Forall_cons in Hdbl as [Hgy _].
  rewrite !wrap32_id, !of_Z_exact by done.
  repeat split; by simplify_map_eq.
Qed.

(** Nothing of the previous world stays behind: a cell that the previous
    world used and the new one does not is blank after [OpenWorld]. *)
Theorem OpenWorld_forgets_previous_world (wld : WorldData) (w : World) :
  ok w ->
  exists w',
    open wld w = Some w'
    /\ (forall i, numTiles w' < i <= numTiles w -> Tile w' !! i = Some blankTile)
    /\ (forall i, numScenes w' < i <= numScenes w -> Scene w' !! i = Some blankScene)
    /\ (forall i, numWorldPaths w' < i <= numWorldPaths w ->
          WorldPath w' !! i = Some blankPath)
    /\ (forall i, numWorldLevels w' < i <= numWorldLevels w ->
          WorldLevel w' !! i = Some blankLevel)
    /\ (forall i, numWorldMusic w' < i <= numWorldMusic w ->
          WorldMusic w' !! i = Some blankMusic).
Proof.
  intros Hok.
  destruct (OpenWorld_loaded wld w Hok)
    as (w0 & w' & _ & Hrun & Ht0 & Hs0 & Hp0 & Hl0 & Hm0 & HT & HS & HP & HL & HM).
  destruct Hok as (? & ? & ? & ? & ?).
  exists w'. split; [exact Hrun |].
  repeat split; intros i Hi.
  - destruct HT as (Hn & _ & Hout). rewrite Hout by lia. apply Ht0. lia.
  - destruct HS as (Hn & _ & Hout). rewrite Hout by lia. apply Hs0. lia.
  - destruct HP as (Hn & _ & Hout). rewrite Hout by lia. apply Hp0. lia.
  - destruct HL as (Hn & _ & Hout). rewrite Hout by lia. apply Hl0. lia.
  - destruct HM as (Hn & _ & Hout). rewrite Hout by lia. apply Hm0. lia.
Qed.

(** *** The start position *)

Lemma starts_here_type c : starts_here c = bool_decide (WorldLevel_Type c = 1).
Proof.
  unfold starts_here, FileRelease.
  rewrite (bool_decide_eq_true_2 (0 <= 20)) by lia.
  rewrite (bool_decide_eq_false_2 (0 > 20)) by lia.
  cbn. by rewrite orb_false_r.
Qed.

Lemma start_loop_spec (ls : list WorldLevelTile) (A : Z) (WL : gmap Z WorldLevel_t)
    (player : WorldPlayer_t) :
  0 <= A -> A + Z.of_nat (length ls) - 1 <= maxWorldLevels ->
  (forall (k : nat) l, ls !! k = Some l ->
     exists c, WL !! (A + Z.of_nat k) = Some c
               /\ WorldLevel_Type c = wrap32 (lt_id l)
               /\ WorldLevel_Location c
                  = mkLocation (Float64.of_Z (lt_x l)) (Float64.of_Z (lt_y l)) 32 32) ->
  start_loop maxWorldLevels (length ls) A WL player
    = Some match first_of_type_1 ls with
           | Some l => mkWorldPlayer 1 (mkLocation (Float64.of_Z (lt_x l))
                                          (Float64.of_Z (lt_y l)) 32 32)
           | None => player
           end.
Proof.
  revert A. induction ls as [|l ls IH]; intros A HA Hfit Hcells; [done |].
  cbn [length start_loop]. cbn [length] in Hfit.
  destruct (Hcells 0%nat l eq_refl) as (c & Hc & Hty & Hloc).
  rewrite Z.add_0_r in Hc.
  unfold arr_read. rewrite bool_decide_eq_true_2 by lia.
  cbn [mbind option_bind]. rewrite Hc. cbn [from_option id].
  rewrite starts_here_type, Hty.
  unfold first_of_type_1. cbn [find]. case_bool_decide as Hone.
  - cbn [mbind option_bind]. rewrite ?Hc. cbn. by rewrite Hloc.
  - rewrite IH; [done | lia | lia |].
    intros k l' Hk. destruct (Hcells (S k) l' Hk) as (c' & Hc' & Hrest).
    exists c'. split; [| exact Hrest].
    rewrite <- Hc'. f_equal. lia.
Qed.

(** The loading loops of [OpenWorld] followed by its first closing loop
    put the player on the first loaded level tile whose id is 1 as an
    [int] (1 itself, or an id of more than 32 bits that wraps to 1),
    at the location stored for that tile, whatever the game-start flags
    of the file say; without such a tile the player is left alone. *)
Theorem OpenWorld_start_position (wld : WorldData) (w : World) (player : WorldPlayer_t) :
  ok w ->
  exists w',
    open wld w = Some w'
    /\ place_player maxWorldLevels w' player
       = Some match first_of_type_1 (take (Z.to_nat maxWorldLevels) (levels wld)) with
              | Some l => mkWorldPlayer 1 (mkLocation (Float64.of_Z (lt_x l))
                                             (Float64.of_Z (lt_y l)) 32 32)
              | None => player
              end.
Proof.
  intros Hok.
  destruct (OpenWorld_loaded wld w Hok)
    as (w0 & w' & _ & Hrun & _ & _ & _ & _ & _ & _ & _ & _ & HL & _).
  destruct Hok as (_ & _ & _ & Hmax & _).
  destruct HL as (Hn & Hcell & _).
  exists w'. split; [exact Hrun |].
  unfold place_player.
  set (ls := take (Z.to_nat maxWorldLevels) (levels wld)).
  assert (Hlen : Z.to_nat (numWorldLevels w') = length ls).
  { unfold ls. rewrite length_take, Hn. lia. }
  rewrite Hlen. apply start_loop_spec; [lia | |].
  - unfold ls. rewrite length_take. lia.
  - intros k l Hk. unfold ls in Hk. apply lookup_take_Some in Hk as [Hk Hlt].
    eexists. split.
    + replace (1 + Z.of_nat k) with (Z.of_nat k + 1) by lia.
      rewrite (Hcell k l Hk) by lia. reflexivity.
    + split; reflexivity.
Qed.

End Content.

(** *** The second closing loop *)

(** The rounds the model grants the second closing loop are enough:
    more fuel never changes its result. *)
Lemma activate_loop_fuel maxWorldLevels LevelPath (fuel extra : nat) A w :
  1 <= A -> maxWorldLevels + 2 - A <= Z.of_nat fuel -> (1 <= fuel)%nat ->
  activate_loop maxWorldLevels LevelPath (fuel + extra) A w
    = activate_loop maxWorldLevels LevelPath fuel A w.
Proof.
  revert A w. induction fuel as [|k IH]; intros A w HA Hfuel Hone; [lia |].
  cbn [Nat.add activate_loop].
  case_bool_decide as Hnum; [| done].
  unfold arr_read, arr_write. case_bool_decide as Hin; [| done].
  cbn [mbind option_bind].
  destruct (starts_here _); cbn [mbind option_bind]; apply IH; lia.
Qed.

Lemma activate_start_levels_fuel maxWorldLevels LevelPath (extra : nat) w :
  activate_loop maxWorldLevels LevelPath (Z.to_nat maxWorldLevels + 1 + extra) 1 w
    = activate_start_levels maxWorldLevels LevelPath w.
Proof. unfold activate_start_levels. apply activate_loop_fuel; lia. Qed.

(** [levels_kept] is a preorder, and the store of the loop keeps the
    levels in its sense. *)
Lemma levels_kept_refl w : levels_kept w w.
Proof. by split. Qed.

Lemma levels_kept_trans w1 w2 w3 :
  levels_kept w1 w2 -> levels_kept w2 w3 -> levels_kept w1 w3.
Proof.
  intros [Hn12 H12] [Hn23 H23]. split; [congruence |].
  intros i. destruct (H12 i) as [Hf12 Ha12]. destruct (H23 i) as [Hf23 Ha23].
  split; [congruence | auto].
Qed.

Lemma levels_kept_activate w A :
  levels_kept w (set_WorldLevel (<[A := set_Active true (level_at w A)]> (WorldLevel w)) w).
Proof.
  split; [reflexivity |]. intros i. unfold level_at. cbn [set_WorldLevel WorldLevel].
  destruct (decide (i = A)) as [-> | Hne].
  - rewrite lookup_insert_eq. by cbn.
  - by rewrite lookup_insert_ne by done.
Qed.

Lemma open_previous_keeps A direction skip w :
  levels_kept w (open_previous A direction skip w).
Proof. apply levels_kept_activate. Qed.

Lemma levels_kept_type w w' i :
  levels_kept w w' -> WorldLevel_Type (level_at w' i) = WorldLevel_Type (level_at w i).
Proof.
  intros [_ Hkept]. destruct (Hkept i) as [Hfields _].
  by apply (f_equal WorldLevel_Type) in Hfields.
Qed.

Section Activation.

Variables maxTiles maxScenes maxWorldPaths maxWorldLevels maxWorldMusic : Z.
Variables TileWidth TileHeight SceneWidth SceneHeight : Z -> Z.
Variable LevelPath : Z -> Z -> bool -> World -> World.
Hypothesis LevelPath_keeps : forall A direction skip w,
  levels_kept w (LevelPath A direction skip w).

(** The second closing loop from [A] on: it ends, keeps the levels but
    for their [Active] flags, and leaves every level of type 1 from [A]
    on active. *)
Lemma activate_loop_spec (fuel : nat) A w :
  1 <= A -> numWorldLevels w <= maxWorldLevels ->
  maxWorldLevels + 2 - A <= Z.of_nat fuel -> (1 <= fuel)%nat ->
  exists w',
    activate_loop maxWorldLevels LevelPath fuel A w = Some w'
    /\ levels_kept w w'
    /\ forall i, A <= i <= numWorldLevels w -> WorldLevel_Type (level_at w i) = 1 ->
         WorldLevel_Active (level_at w' i) = true.
Proof.
  revert A w. induction fuel as [|k IH]; intros A w HA Hnum Hfuel Hone; [lia |].
  cbn [activate_loop]. case_bool_decide as Hin.
  2: { exists w. split; [done |]. split; [apply levels_kept_refl |]. intros i Hi. lia. }
  unfold arr_read, arr_write. rewrite !bool_decide_eq_true_2 by lia.
  cbn [mbind option_bind]. fold (level_at w A).
  rewrite starts_here_type. case_bool_decide as Hty.
  - cbn [mbind option_bind].
    set (w1 := set_WorldLevel (<[A := set_Active true (level_at w A)]> (WorldLevel w)) w).
    set (w2 := LevelPath A 5 true w1).
    assert (H1 : levels_kept w w1) by apply levels_kept_activate.
    assert (H2 : levels_kept w1 w2) by apply LevelPath_keeps.
    assert (H12 : levels_kept w w2) by (by eapply levels_kept_trans).
    destruct (IH (A + 1) w2) as (w' & Hrun & Hkept & Hact).
    { lia. } { destruct H12 as [-> _]. lia. } { lia. } { lia. }
    exists w'. split; [exact Hrun |]. split; [by eapply levels_kept_trans |].
    intros i Hi Hone_i. destruct (decide (i = A)) as [-> | Hne].
    + apply Hkept, H2. unfold w1, level_at. cbn [set_WorldLevel WorldLevel].
      by rewrite lookup_insert_eq.
    + apply Hact; [destruct H12 as [-> _]; lia |].
      by rewrite (levels_kept_type w w2).
  - destruct (IH (A + 1) w) as (w' & Hrun & Hkept & Hact); [lia.. |].
    exists w'. split; [exact Hrun |]. split; [exact Hkept |].
    intros i Hi Hone_i. destruct (decide (i = A)) as [-> | Hne]; [done |].
    apply Hact; [lia | done].
Qed.

(** After the loading loops and the second closing loop, whatever
    [LevelPath] does to the [Active] flags without clearing one: level
    tile [k] of the file is in [WorldLevel[k + 1]] with the fields the
    loading loops stored, and it is active if it is always visible or
    its id is 1 as an [int]. *)
Theorem OpenWorld_activates_start_levels (wld : WorldData) (w : World) :
  counters_ok maxTiles maxScenes maxWorldPaths maxWorldLevels maxWorldMusic w ->
  exists w1 w2,
    OpenWorld_arrays maxTiles maxScenes maxWorldPaths maxWorldLevels maxWorldMusic
      TileWidth TileHeight SceneWidth SceneHeight wld w = Some w1
    /\ activate_start_levels maxWorldLevels LevelPath w1 = Some w2
    /\ numWorldLevels w2 = numWorldLevels w1
    /\ forall (k : nat) l, levels wld !! k = Some l -> Z.of_nat k < maxWorldLevels ->
         let c := level_at w2 (Z.of_nat k + 1) in
         set_Active false c = set_Active false (level_at w1 (Z.of_nat k + 1))
         /\ WorldLevel_Type c = wrap32 (lt_id l)
         /\ WorldLevel_FileName c = lt_lvlfile l
         /\ WorldLevel_Location c
            = mkLocation (Float64.of_Z (lt_x l)) (Float64.of_Z (lt_y l)) 32 32
         /\ (wrap32 (lt_id l) = 1 \/ lt_alwaysVisible l = true ->
             WorldLevel_Active c = true).
Proof.
  intros Hok.
  destruct (OpenWorld_loaded maxTiles maxScenes maxWorldPaths maxWorldLevels maxWorldMusic
              TileWidth TileHeight SceneWidth SceneHeight wld w Hok)
    as (w0 & w1 & _ & Hrun & _ & _ & _ & _ & _ & _ & _ & _ & HL & _).
  destruct Hok as (_ & _ & _ & Hmax & _).
  destruct HL as (Hn & Hcell & _).
  destruct (activate_loop_spec (Z.to_nat maxWorldLevels + 1) 1 w1)
    as (w2 & Hact & Hkept & Hones); [lia.. |].
  exists w1, w2. split; [exact Hrun |]. split; [exact Hact |].
  split; [apply Hkept |].
  intros k l Hk Hlt. cbv zeta.
  destruct Hkept as [_ Hkept]. destruct (Hkept (Z.of_nat k + 1)) as [Hfields Hstays].
  assert (Hc1 : level_at w1 (Z.of_nat k + 1)
                = mkWorldLevel (mkLocation (Float64.of_Z (lt_x l)) (Float64.of_Z (lt_y l)) 32 32)
                    (wrap32 (lt_id l)) (lt_lvlfile l) (lt_title l)
                    (WorldLevel_LevelExit (level_at w1 (Z.of_nat k + 1)))
                    (wrap32 (lt_entertowarp l)) (lt_alwaysVisible l) (lt_alwaysVisible l)
                    (lt_pathbg l) (lt_gamestart l)
                    (Float64.of_Z (lt_gotox l)) (Float64.of_Z (lt_gotoy l)) (lt_bigpathbg l)).
  { unfold level_at. by rewrite (Hcell k l Hk Hlt). }
  split; [exact Hfields |].
  pose proof (f_equal WorldLevel_Type Hfields) as Hty.
  pose proof (f_equal WorldLevel_FileName Hfields) as Hfile.
  pose proof (f_equal WorldLevel_Location Hfields) as Hloc.
  rewrite Hc1 in Hty, Hfile, Hloc. cbn in Hty, Hfile, Hloc.
  split; [exact Hty |]. split; [exact Hfile |]. split; [exact Hloc |].
  intros [Hone | Hvis].
  - apply Hones.
    + rewrite Hn. split; [lia |]. apply Z.min_glb; [| lia].
      apply lookup_lt_Some in Hk. lia.
    + rewrite Hc1. exact Hone.
  - apply Hstays. rewrite Hc1. exact Hvis.
Qed.

End Activation.

(** *** The credits *)

Lemma credits_loop_load_loop maxWorldCredits authors B wc :
  credits_loop maxWorldCredits authors B wc
    = snd <$> load_loop maxWorldCredits
                (fun c i a => arr_write maxWorldCredits "" i (fun _ => c) a) authors B wc.
Proof.
  revert B wc. induction authors as [|c rest IH]; intros B wc; [done |].
  cbn [credits_loop load_loop]. case_bool_decide; [done |].
  destruct (arr_write maxWorldCredits "" (B + 1) (fun _ => c) wc) as [a|]; [| done].
  cbn [mbind option_bind]. apply IH.
Qed.

(** The credits after [OpenWorld]: line [i] holds author [i] of the file
    (counted from 1), the lines past the last author are empty, authors
    past the capacity are dropped, and nothing outside
    [1..maxWorldCredits] is written. *)
Theorem load_credits_in_order (maxWorldCredits : Z) (authors : list string)
    (WorldCredits : gmap Z string) :
  exists a,
    load_credits maxWorldCredits authors WorldCredits = Some a
    /\ (forall i, 1 <= i <= maxWorldCredits ->
          a !! i = Some (default "" (authors !! Z.to_nat (i - 1))))
    /\ (forall i, ~ (1 <= i <= maxWorldCredits) -> a !! i = WorldCredits !! i).
Proof.
  unfold load_credits.
  destruct (decide (0 <= maxWorldCredits)) as [Hmax | Hneg].
  - destruct (blank_cells_blanked maxWorldCredits "" maxWorldCredits WorldCredits)
      as (a0 & -> & Hin0 & Hout0); [lia |].
    cbn [mbind option_bind]. rewrite credits_loop_load_loop.
    destruct (load_loop_content maxWorldCredits ""
                (fun c i a => arr_write maxWorldCredits "" i (fun _ => c) a)
                (fun c _ => c) authors) with (num := 0) (arr := a0)
      as (a & -> & Hin & Hout).
    { intros c i a Hi. unfold arr_write. by rewrite bool_decide_eq_true_2 by done. }
    { lia. }
    exists a. split; [done |]. split.
    + intros i Hi.
      destruct (authors !! Z.to_nat (i - 1)) as [c|] eqn:Hc; cbn [default].
      * pose proof (Hin (Z.to_nat (i - 1)) c Hc) as Hcell.
        replace (0 + Z.of_nat (Z.to_nat (i - 1)) + 1) with i in Hcell by lia.
        apply Hcell. lia.
      * apply lookup_ge_None in Hc.
        rewrite Hout by lia. apply Hin0. lia.
    + intros i Hi. rewrite Hout by lia. by apply Hout0.
  - replace (Z.to_nat maxWorldCredits) with 0%nat by lia.
    cbn [blank_cells mbind option_bind].
    exists WorldCredits. split; [| split; [intros i Hi; lia | done]].
    destruct authors as [|c rest]; [done |].
    cbn [credits_loop]. by rewrite bool_decide_eq_true_2 by lia.
Qed.

(** *** Runs on small worlds *)

Lemma OpenWorld_counts_witness :
  counters_ok 2 2 2 2 2 empty_world
  /\ exists w',
       OpenWorld_arrays 2 2 2 2 2 (fun _ => 32) (fun _ => 32) (fun _ => 16) (fun _ => 16)
         small_world_file empty_world = Some w'
       /\ numTiles w' = 2 /\ numScenes w' = 1 /\ numWorldPaths w' = 0 /\ numWorldMusic w' = 2.
Proof.
  assert (Hok : counters_ok 2 2 2 2 2 empty_world) by (unfold counters_ok; simpl; lia).
  split; [exact Hok |].
  destruct (OpenWorld_counts 2 2 2 2 2 (fun _ => 32) (fun _ => 32) (fun _ => 16) (fun _ => 16)
              small_world_file empty_world Hok)
    as (w' & Hrun & HT & HS & HP & _ & HM).
  exists w'. exact (conj Hrun (conj HT (conj HS (conj HP HM)))).
Defined.


Lemma OpenWorld_stores_paths_and_music_witness :
  counters_ok 2 2 2 2 2 used_world
  /\ exists w',
       OpenWorld_arrays 2 2 2 2 2 (fun _ => 32) (fun _ => 32) (fun _ => 16) (fun _ => 16)
         path_file used_world = Some w'
       /\ (exists c, WorldPath w' !! 1 = Some c
                     /\ WorldPath_Location c = mkLocation 32 64 32 32
                     /\ WorldPath_Type c = 4)
       /\ (exists c, WorldMusic w' !! 1 = Some c
                     /\ WorldMusic_Location c = mkLocation 11 21 30 30
                     /\ WorldMusic_Type c = -1).
Proof.
  assert (Hok : counters_ok 2 2 2 2 2 used_world) by (unfold counters_ok; simpl; lia).
  split; [exact Hok |].
  destruct (OpenWorld_stores_paths_and_music 2 2 2 2 2 (fun _ => 32) (fun _ => 32)
              (fun _ => 16) (fun _ => 16) path_file used_world Hok)
    as (w' & Hrun & HP & HM).
  exists w'. split; [exact Hrun |]. split.
  - destruct (HP 0%nat _ eq_refl ltac:(lia)) as (c & Hc & _ & Hloc & Hty & _).
    exists c. split; [exact Hc |]. split; [| exact Hty].
    apply Hloc; unfold Float64.exact; vm_compute; congruence.
  - destruct (HM 0%nat _ eq_refl ltac:(lia)) as (c & Hc & _ & Hloc & _ & _ & Hwrap).
    exists c. split; [exact Hc |]. split; [| exact (Hwrap eq_refl)].
    apply Hloc; unfold Float64.exact; vm_compute; congruence.
Defined.

Lemma OpenWorld_stores_levels_witness :
  counters_ok 2 2 2 2 2 empty_world
  /\ exists w' c,
       OpenWorld_arrays 2 2 2 2 2 (fun _ => 32) (fun _ => 32) (fun _ => 16) (fun _ => 16)
         two_level_file empty_world = Some w'
       /\ WorldLevel w' !! 2 = Some c
       /\ WorldLevel_Location c = mkLocation 96 32 32 32
       /\ WorldLevel_Type c = 1
       /\ WorldLevel_FileName c = "b.lvl".
Proof.
  assert (Hok : counters_ok 2 2 2 2 2 empty_world) by (unfold counters_ok; simpl; lia).
  split; [exact Hok |].
  destruct (OpenWorld_stores_levels 2 2 2 2 2 (fun _ => 32) (fun _ => 32)
              (fun _ => 16) (fun _ => 16) two_level_file empty_world 1%nat _
              Hok eq_refl ltac:(lia))
    as (w' & c & Hrun & Hc & Hloc & Hty & Hfile & _).
  exists w', c. exact (conj Hrun (conj Hc (conj Hloc (conj Hty Hfile)))).
Defined.

Lemma OpenWorld_forgets_previous_world_witness :
  counters_ok 2 2 2 2 2 used_world
  /\ exists w',
       OpenWorld_arrays 2 2 2 2 2 (fun _ => 32) (fun _ => 32) (fun _ => 16) (fun _ => 16)
         path_file used_world = Some w'
       /\ (forall i, numScenes w' < i <= 2 -> Scene w' !! i = Some blankScene).
Proof.
  assert (Hok : counters_ok 2 2 2 2 2 used_world) by (unfold counters_ok; simpl; lia).
  split; [exact Hok |].
  destruct (OpenWorld_forgets_previous_world 2 2 2 2 2 (fun _ => 32) (fun _ => 32)
              (fun _ => 16) (fun _ => 16) path_file used_world Hok)
    as (w' & Hrun & _ & HS & _).
  exists w'. exact (conj Hrun HS).
Defined.

(** The first tile of the file carries the game-start flag, the second
    one the id 1: the player starts on the second. *)
Lemma OpenWorld_start_position_witness :
  counters_ok 2 2 2 2 2 empty_world
  /\ exists w',
       OpenWorld_arrays 2 2 2 2 2 (fun _ => 32) (fun _ => 32) (fun _ => 16) (fun _ => 16)
         two_level_file empty_world = Some w'
       /\ place_player 2 w' (mkWorldPlayer 0 blankLocation)
          = Some (mkWorldPlayer 1 (mkLocation 96 32 32 32)).
Proof.
  assert (Hok : counters_ok 2 2 2 2 2 empty_world) by (unfold counters_ok; simpl; lia).
  split; [exact Hok |].
  destruct (OpenWorld_start_position 2 2 2 2 2 (fun _ => 32) (fun _ => 32)
              (fun _ => 16) (fun _ => 16) two_level_file empty_world
              (mkWorldPlayer 0 blankLocation) Hok)
    as (w' & Hrun & Hplace).
  exists w'. exact (conj Hrun Hplace).
Defined.

(** The second tile of the file has the id 1 as an [int] and is not
    always visible: inactive after the loading loops, active after the
    second closing loop, with [open_previous] standing in for
    [LevelPath]. *)
Lemma OpenWorld_activates_start_levels_witness :
  (forall A direction skip w, levels_kept w (open_previous A direction skip w))
  /\ counters_ok 2 2 2 2 2 empty_world
  /\ exists w1 w2,
       OpenWorld_arrays 2 2 2 2 2 (fun _ => 32) (fun _ => 32) (fun _ => 16) (fun _ => 16)
         two_level_file empty_world = Some w1
       /\ activate_start_levels 2 open_previous w1 = Some w2
       /\ WorldLevel_Active (level_at w1 2) = false
       /\ WorldLevel_Type (level_at w2 2) = 1
       /\ WorldLevel_Active (level_at w2 2) = true.
Proof.
  assert (Hok : counters_ok 2 2 2 2 2 empty_world) by (unfold counters_ok; simpl; lia).
  split; [exact open_previous_keeps |]. split; [exact Hok |].
  destruct (OpenWorld_activates_start_levels 2 2 2 2 2 (fun _ => 32) (fun _ => 32)
              (fun _ => 16) (fun _ => 16) open_previous open_previous_keeps
              two_level_file empty_world Hok)
    as (w1 & w2 & Hrun & Hact & _ & Hlevels).
  destruct (Hlevels 1%nat _ eq_refl ltac:(lia)) as (_ & Hty & _ & _ & Hactive).
  exists w1, w2. split; [exact Hrun |]. split; [exact Hact |].
  split; [| split; [exact Hty | exact (Hactive (or_introl eq_refl))]].
  vm_compute in Hrun. injection Hrun as <-. reflexivity.
Defined.


End WorldLoaderProps.

(** * Properties of the 3DS renderer *)

Module RenderProps.
Import MachineInt MachineIntProps XRender.

Section Generic.
Context {W : Type} `{Backend W}.

(** ** The lazy texture loader *)

(** Unfolding of the state-passing combinators. *)
Ltac run :=
  unfold mbind, Proc_bind, mret, Proc_ret, get, modify, call, when,
    pLogWarning, pLogDebug, do_linearSpaceFree, do_minport_freeTextureMemory,
    do_C2D_SpriteSheetLoad, do_C2D_SpriteSheetFree, failed_to_load in *;
  simpl in *.

(** *** Procedures that only append to the trace

    [keeps s s']: the trace of [s'] extends that of [s], and the frame
    flag, the frame counter and the engine globals are those of [s]. *)
Definition keeps (s s' : State W) : Prop :=
  (exists calls, trace s' = trace s ++ calls)
  /\ g_in_frame s' = g_in_frame s
  /\ s_current_frame s' = s_current_frame s
  /\ s_single_layer_mode s' = s_single_layer_mode s
  /\ engine s' = engine s.

Definition quiet {A} (c : Proc W A) : Prop := forall s, keeps s (c s).2.

Lemma keeps_refl s : keeps s s.
Proof. repeat split; try done. exists []. by rewrite app_nil_r. Qed.

Lemma keeps_trans s1 s2 s3 : keeps s1 s2 -> keeps s2 s3 -> keeps s1 s3.
Proof.
  intros ([c1 Hc1] & ? & ? & ? & ?) ([c2 Hc2] & ? & ? & ? & ?).
  repeat split; try congruence.
  exists (c1 ++ c2). rewrite Hc2, Hc1. by rewrite app_assoc.
Qed.

Lemma bind_run {A B} (c : Proc W A) (k : A -> Proc W B) s :
  (c ≫= k) s = k (c s).1 (c s).2.
Proof. unfold mbind, Proc_bind. by destruct (c s). Qed.

Lemma quiet_ret {A} (a : A) : quiet (mret a : Proc W A).
Proof. intros s. apply keeps_refl. Qed.

Lemma quiet_bind {A B} (c : Proc W A) (k : A -> Proc W B) :
  quiet c -> (forall a, quiet (k a)) -> quiet (c ≫= k).
Proof.
  intros Hc Hk s. rewrite bind_run.
  eapply keeps_trans; [apply Hc | apply Hk].
Qed.

Lemma quiet_get {A} (f : State W -> A) : quiet (get f).
Proof. intros s. apply keeps_refl. Qed.

Lemma quiet_call e : quiet (call (W:=W) e).
Proof. intros s. repeat split; try done. by exists [e]. Qed.

Lemma quiet_count (f : Z -> Z) :
  quiet (modify (fun s : State W => set_s_num_textures_loaded (f (s_num_textures_loaded s)) s)).
Proof. intros s. repeat split; try done. exists []. simpl. by rewrite app_nil_r. Qed.

Lemma quiet_load path : quiet (do_C2D_SpriteSheetLoad path).
Proof.
  intros s. unfold do_C2D_SpriteSheetLoad.
  destruct (C2D_SpriteSheetLoad path (world s)) as [r wd]. simpl.
  repeat split; try done. by eexists [_].
Qed.

Lemma quiet_free sheet : quiet (do_C2D_SpriteSheetFree sheet).
Proof. intros s. repeat split; try done. by eexists [_]. Qed.

Lemma quiet_evict : quiet do_minport_freeTextureMemory.
Proof. intros s. repeat split; try done. by eexists [_]. Qed.

Lemma quiet_when b (c : Proc W unit) : quiet c -> quiet (when b c).
Proof. intros Hc. destruct b; [done | apply quiet_ret]. Qed.

Lemma quiet_if {A} (b : bool) (c1 c2 : Proc W A) :
  quiet c1 -> quiet c2 -> quiet (if b then c1 else c2).
Proof. by destruct b. Qed.

Ltac quiet_step :=
  first
    [ apply quiet_ret | apply quiet_get | apply quiet_call
    | apply (quiet_count (fun n => n + 1)) | apply (quiet_count (fun n => n - 1))
    | apply quiet_load | apply quiet_free | apply quiet_evict
    | apply quiet_bind; [| intros ?] | apply quiet_when | apply quiet_if
    | match goal with |- quiet (match ?x with _ => _ end) => destruct x end ].

Ltac quiet_auto := repeat quiet_step.

Lemma quiet_failed_to_load path : quiet (failed_to_load path).
Proof. unfold failed_to_load, pLogWarning. quiet_auto. Qed.

Lemma quiet_tryHard path : quiet (s_tryHardToLoadC2D_SpriteSheet path).
Proof. unfold s_tryHardToLoadC2D_SpriteSheet, do_linearSpaceFree. quiet_auto. Qed.

Lemma quiet_load_band2 target : quiet (load_band2 target).
Proof.
  unfold load_band2. apply quiet_if; [| apply quiet_ret].
  apply quiet_bind; [apply quiet_tryHard | intros [?|]]; [apply quiet_ret |].
  apply quiet_bind; [apply quiet_failed_to_load | intros; apply quiet_ret].
Qed.

Lemma quiet_load_band3 target : quiet (load_band3 target).
Proof.
  unfold load_band3. apply quiet_if; [| apply quiet_ret].
  apply quiet_bind; [apply quiet_load | intros [?|]]; [apply quiet_ret |].
  apply quiet_bind; [apply quiet_failed_to_load | intros; apply quiet_ret].
Qed.

Lemma quiet_after_load : quiet after_load.
Proof. unfold after_load, do_linearSpaceFree, pLogDebug. quiet_auto. Qed.

Lemma quiet_lazyLoad target : quiet (lazyLoad target).
Proof.
  unfold lazyLoad.
  apply quiet_if; [apply quiet_ret |].
  apply quiet_bind; [apply quiet_tryHard | intros [sheet|]].
  - apply quiet_bind; [apply quiet_load_band2 | intros t1].
    apply quiet_bind; [apply quiet_load_band3 | intros t2].
    apply quiet_bind; [apply quiet_after_load | intros; apply quiet_ret].
  - apply quiet_bind; [apply quiet_failed_to_load | intros; apply quiet_ret].
Qed.

Lemma quiet_deleteTexture tx lazyUnload : quiet (deleteTexture tx lazyUnload).
Proof. unfold deleteTexture, free_band. quiet_auto. Qed.

Lemma quiet_lazyUnLoad target : quiet (lazyUnLoad target).
Proof. unfold lazyUnLoad. apply quiet_if; [apply quiet_ret | apply quiet_deleteTexture]. Qed.

(** C9. On a resource whose backend texture is bound, [lazyLoad] returns
    at once: the resource and the whole state (world and trace included)
    are unchanged, so no upload and no eviction pass takes place, and
    calling it again changes nothing either. *)
Theorem lazyLoad_resident_is_noop (target : StdPicture) (s : State W) :
  is_Some (d_texture target) ->
  lazyLoad target s = (target, s)
  /\ calls_since s (snd (lazyLoad target s)) = []
  /\ lazyLoad (fst (lazyLoad target s)) (snd (lazyLoad target s)) = lazyLoad target s.
Proof.
  intros Hres.
  assert (Hnoop : lazyLoad target s = (target, s)).
  { unfold lazyLoad. rewrite (bool_decide_eq_true_2 _ Hres).
    rewrite !orb_true_r. reflexivity. }
  rewrite Hnoop. simpl. split; [done |]. split; [| done].
  unfold calls_since. apply drop_all.
Qed.

Lemma calls_since_app (s s' : State W) (calls : list Event) :
  trace s' = trace s ++ calls -> calls_since s s' = calls.
Proof. intros Ht. unfold calls_since. rewrite Ht. apply drop_app_length. Qed.

(** What [s_tryHardToLoadC2D_SpriteSheet] does when the first upload
    fails: an eviction pass if memory is low, then the one retry. *)
Lemma tryHard_after_failure path (s : State W) :
  (C2D_SpriteSheetLoad path (world s)).1 = None ->
  let w1 := (C2D_SpriteSheetLoad path (world s)).2 in
  let low := bool_decide (linearSpaceFree w1 < 4000000) in
  let w2 := if low then minport_freeTextureMemory w1 else w1 in
  let retry := (C2D_SpriteSheetLoad path w2).1 in
  (s_tryHardToLoadC2D_SpriteSheet path s).1 = retry
  /\ trace (s_tryHardToLoadC2D_SpriteSheet path s).2 =
       trace s ++ ev_C2D_SpriteSheetLoad path None
                 :: (if low then [ev_minport_freeTextureMemory] else [])
                 ++ [ev_C2D_SpriteSheetLoad path retry].
Proof.
  intros Hfail. cbv zeta.
  unfold s_tryHardToLoadC2D_SpriteSheet. run.
  destruct (C2D_SpriteSheetLoad path (world s)) as [r1 w1] eqn:E1.
  simpl in *. subst r1. simpl.
  case_bool_decide; simpl.
  - destruct (C2D_SpriteSheetLoad path (minport_freeTextureMemory w1)) as [r2 w3].
    simpl. split; [done |]. by rewrite <- !app_assoc.
  - destruct (C2D_SpriteSheetLoad path w1) as [r2 w3].
    simpl. split; [done |]. by rewrite <- !app_assoc.
Qed.

(** The part of [lazyLoad] that follows the upload of the first band. *)
Lemma lazyLoad_unfold target (s : State W) :
  inited target = true -> l_lazyLoaded target = true -> d_texture target = None ->
  exists bands : C2D_SpriteSheet -> Proc W StdPicture,
    (forall sheet, quiet (bands sheet))
    /\ lazyLoad target s =
         match (s_tryHardToLoadC2D_SpriteSheet (l_path target) s).1 with
         | Some sheet => bands sheet (s_tryHardToLoadC2D_SpriteSheet (l_path target) s).2
         | None =>
             (set_inited false target,
              emit (ev_pLogWarning "Error: errno")
                (emit (ev_pLogWarning ("Permanently failed to load " +:+ l_path target))
                   (s_tryHardToLoadC2D_SpriteSheet (l_path target) s).2))
         end.
Proof.
  intros Hin Hlazy Htex.
  pose proof (quiet_lazyLoad (set_texture None target)) as Hq. revert Hq.
  unfold lazyLoad. rewrite Hin, Hlazy, Htex. simpl.
  intros Hq. eexists (fun sheet => _). split; last first.
  - rewrite bind_run.
    destruct (s_tryHardToLoadC2D_SpriteSheet (l_path target) s) as [[sheet|] s1]; simpl.
    + reflexivity.
    + reflexivity.
  - intros sheet.
    apply quiet_bind; [apply quiet_load_band2 | intros t1].
    apply quiet_bind; [apply quiet_load_band3 | intros t2].
    apply quiet_bind; [apply quiet_after_load | intros; apply quiet_ret].
Qed.

(** C5 (amended). When the first upload of a lazy resource fails,
    [lazyLoad] retries it exactly once, after an eviction pass that runs
    only if less than 4000000 bytes of linear memory are free.  If the
    retry fails too, the resource is marked [inited = false] with no
    texture bound, the call has made two upload attempts and at most one
    eviction pass, and a later [lazyLoad] of the resource does nothing. *)
Theorem lazyLoad_retries_once (target : StdPicture) (s : State W) :
  inited target = true -> l_lazyLoaded target = true -> d_texture target = None ->
  fst (C2D_SpriteSheetLoad (l_path target) (world s)) = None ->
  let w1 := snd (C2D_SpriteSheetLoad (l_path target) (world s)) in
  let low := bool_decide (linearSpaceFree w1 < 4000000) in
  let w2 := if low then minport_freeTextureMemory w1 else w1 in
  let retry := fst (C2D_SpriteSheetLoad (l_path target) w2) in
  let target' := fst (lazyLoad target s) in
  let s' := snd (lazyLoad target s) in
  (exists rest,
      calls_since s s' =
        ev_C2D_SpriteSheetLoad (l_path target) None
          :: (if low then [ev_minport_freeTextureMemory] else [])
          ++ ev_C2D_SpriteSheetLoad (l_path target) retry :: rest)
  /\ (retry = None ->
        inited target' = false /\ d_texture target' = None
        /\ uploads (calls_since s s') = 2%nat
        /\ evictions (calls_since s s') = (if low then 1 else 0)%nat
        /\ lazyLoad target' s' = (target', s')).
Proof.
  intros Hin Hlazy Htex Hfail. cbv zeta.
  destruct (lazyLoad_unfold target s Hin Hlazy Htex) as (bands & Hquiet & Hrun).
  destruct (tryHard_after_failure (l_path target) s Hfail) as [Hres Htrace].
  cbv zeta in Hres, Htrace.
  set (w1 := (C2D_SpriteSheetLoad (l_path target) (world s)).2) in *.
  set (low := bool_decide (linearSpaceFree w1 < 4000000)) in *.
  set (w2 := if low then minport_freeTextureMemory w1 else w1) in *.
  set (retry := (C2D_SpriteSheetLoad (l_path target) w2).1) in *.
  rewrite Hrun, Hres. clear Hrun.
  destruct retry as [sheet|] eqn:Hretry; cbv iota.
  - split; [| discriminate].
    destruct (Hquiet sheet (s_tryHardToLoadC2D_SpriteSheet (l_path target) s).2)
      as ([rest Hrest] & _).
    exists rest. apply calls_since_app.
    rewrite Hrest, Htrace, <- !app_assoc. simpl. by rewrite <- app_assoc.
  - simpl.
    assert (Hcalls : calls_since s
              (emit (ev_pLogWarning "Error: errno")
                 (emit (ev_pLogWarning ("Permanently failed to load " +:+ l_path target))
                    (s_tryHardToLoadC2D_SpriteSheet (l_path target) s).2)) =
            ev_C2D_SpriteSheetLoad (l_path target) None
              :: (if low then [ev_minport_freeTextureMemory] else [])
              ++ [ev_C2D_SpriteSheetLoad (l_path target) None;
                  ev_pLogWarning ("Permanently failed to load " +:+ l_path target);
                  ev_pLogWarning "Error: errno"]).
    { apply calls_since_app. simpl. rewrite Htrace, <- !app_assoc. simpl.
      by rewrite <- !app_assoc. }
    rewrite Hcalls. split; [by eexists |].
    intros _. repeat split.
    + by rewrite Htex.
    + by destruct low.
    + by destruct low.
Qed.


(** *** Calls made between two states *)

Definition made (e : Event) (s s' : State W) : Prop :=
  exists before after, trace s' = trace s ++ before ++ e :: after.

Lemma made_In e s s' : made e s s' -> In e (calls_since s s').
Proof.
  intros (before & after & Ht). rewrite (calls_since_app _ _ _ Ht).
  apply in_or_app. right. by left.
Qed.

Lemma made_earlier e s0 s s' : keeps s0 s -> made e s s' -> made e s0 s'.
Proof.
  intros ([c Hc] & _) (before & after & Ht).
  exists (c ++ before), after. rewrite Ht, Hc. by rewrite <- !app_assoc.
Qed.

Lemma made_later e s s' s'' : made e s s' -> keeps s' s'' -> made e s s''.
Proof.
  intros (before & after & Ht) ([c Hc] & _).
  exists before, (after ++ c). rewrite Hc, Ht. by rewrite <- !app_assoc.
Qed.

Lemma load_made path (s : State W) :
  made (ev_C2D_SpriteSheetLoad path (do_C2D_SpriteSheetLoad path s).1) s
       (do_C2D_SpriteSheetLoad path s).2.
Proof.
  unfold do_C2D_SpriteSheetLoad.
  destruct (C2D_SpriteSheetLoad path (world s)) as [r wd]. simpl.
  exists [], []. reflexivity.
Qed.

(** An attempt through [s_tryHardToLoadC2D_SpriteSheet] ends with an
    upload call carrying its result. *)
Lemma tryHard_made path (s : State W) :
  made (ev_C2D_SpriteSheetLoad path (s_tryHardToLoadC2D_SpriteSheet path s).1) s
       (s_tryHardToLoadC2D_SpriteSheet path s).2.
Proof.
  unfold s_tryHardToLoadC2D_SpriteSheet. rewrite bind_run.
  pose proof (load_made path s) as Hfirst.
  pose proof (quiet_load path s) as Hk1.
  destruct (do_C2D_SpriteSheetLoad path s) as [[sheet|] s1]; simpl in *; [done |].
  rewrite !bind_run. simpl.
  set (s2 := (when _ _ _).2).
  assert (Hk2 : keeps s1 s2).
  { subst s2. apply (quiet_when _ _ quiet_evict). }
  eapply made_earlier; [eapply keeps_trans; [apply Hk1 | apply Hk2] |].
  apply load_made.
Qed.

Lemma failed_to_load_made path (s : State W) :
  made (ev_pLogWarning ("Permanently failed to load " +:+ path)) s (failed_to_load path s).2.
Proof.
  exists [], [ev_pLogWarning "Error: errno"].
  unfold failed_to_load. run. by rewrite <- app_assoc.
Qed.

Lemma load_band2_spec t (s1 : State W) :
  let path1 := l_path t +:+ "1" in
  let r := if bool_decide (h t > 2048) then s_tryHardToLoadC2D_SpriteSheet path1 s1
           else (None, s1) in
  (load_band2 t s1).1 = match r.1 with Some sh => s_loadTexture2 t sh | None => t end
  /\ world (load_band2 t s1).2 = world r.2
  /\ (h t > 2048 ->
        made (ev_C2D_SpriteSheetLoad path1 r.1) s1 (load_band2 t s1).2
        /\ (r.1 = None ->
              made (ev_pLogWarning ("Permanently failed to load " +:+ path1)) s1
                   (load_band2 t s1).2)).
Proof.
  cbv zeta. unfold load_band2.
  case_bool_decide as Hh; simpl; [| by repeat split; try lia].
  rewrite bind_run.
  pose proof (tryHard_made (l_path t +:+ "1") s1) as Hmade.
  pose proof (quiet_tryHard (l_path t +:+ "1") s1) as Hk.
  destruct (s_tryHardToLoadC2D_SpriteSheet (l_path t +:+ "1") s1) as [[sh|] s2];
    simpl in *.
  - repeat split; try done.
  - repeat split; try done.
    + eapply made_later; [apply Hmade |]. apply (quiet_failed_to_load _ s2).
    + intros _. eapply made_earlier; [apply Hk |]. apply failed_to_load_made.
Qed.

Lemma load_band3_spec t (s2 : State W) :
  let path2 := l_path t +:+ "2" in
  let r := (C2D_SpriteSheetLoad path2 (world s2)).1 in
  (load_band3 t s2).1 =
    (if bool_decide (h t > 4096)
     then match r with Some sh => s_loadTexture3 t sh | None => t end else t)
  /\ (h t > 4096 ->
        made (ev_C2D_SpriteSheetLoad path2 r) s2 (load_band3 t s2).2
        /\ (r = None ->
              made (ev_pLogWarning ("Permanently failed to load " +:+ path2)) s2
                   (load_band3 t s2).2)).
Proof.
  cbv zeta. unfold load_band3.
  case_bool_decide as Hh; simpl; [| by repeat split; try lia].
  rewrite bind_run.
  pose proof (load_made (l_path t +:+ "2") s2) as Hmade.
  pose proof (quiet_load (l_path t +:+ "2") s2) as Hk.
  unfold do_C2D_SpriteSheetLoad in *.
  destruct (C2D_SpriteSheetLoad (l_path t +:+ "2") (world s2)) as [[sh|] wd];
    simpl in *.
  - repeat split; try done.
  - repeat split; try done.
    + eapply made_later; [apply Hmade |]. apply (quiet_failed_to_load _ _).
    + intros _. eapply made_earlier; [apply Hk |]. apply failed_to_load_made.
Qed.


(** *** The size file *)

Lemma digit_facts d :
  0 <= d <= 9 ->
  isspace (digit d) = false /\ isdigit (digit d) = true /\ byte_val (digit d) = 48 + d.
Proof.
  intros Hd.
  assert (Hcases : d = 0 \/ d = 1 \/ d = 2 \/ d = 3 \/ d = 4 \/ d = 5 \/ d = 6
                   \/ d = 7 \/ d = 8 \/ d = 9) by lia.
  repeat (destruct Hcases as [-> | Hcases]; [by vm_compute |]).
  subst d. by vm_compute.
Qed.

Lemma atoi_digits_step acc d rest :
  0 <= d <= 9 -> atoi_digits acc (digit d :: rest) = atoi_digits (acc * 10 + d) rest.
Proof.
  intros Hd. destruct (digit_facts d Hd) as (_ & Hdig & Hval).
  simpl. rewrite Hdig, Hval. f_equal. lia.
Qed.

(** [atoi] reads a zero-padded four-digit field back, whatever follows
    the terminator. *)
Lemma atoi_four_digits n rest :
  0 <= n <= 9999 -> atoi (four_digits n ++ NUL :: rest) = n.
Proof.
  intros Hn. unfold four_digits.
  assert (H3 : 0 <= n / 1000 mod 10 <= 9) by (pose proof (Z.mod_pos_bound (n / 1000) 10); lia).
  assert (H2 : 0 <= n / 100 mod 10 <= 9) by (pose proof (Z.mod_pos_bound (n / 100) 10); lia).
  assert (H1 : 0 <= n / 10 mod 10 <= 9) by (pose proof (Z.mod_pos_bound (n / 10) 10); lia).
  assert (H0 : 0 <= n mod 10 <= 9) by (pose proof (Z.mod_pos_bound n 10); lia).
  destruct (digit_facts _ H3) as (Hsp & _ & Hval).
  cbn [app atoi]. rewrite Hsp. unfold atoi_signed.
  rewrite !bool_decide_eq_false_2 by (rewrite Hval; lia).
  rewrite !atoi_digits_step by assumption.
  cbn [atoi_digits]. replace (isdigit NUL) with false by reflexivity.
  Z.to_euclidean_division_equations. lia.
Qed.

Lemma size_buffer_of_size_file (wd : W) vw vh :
  size_buffer wd (size_file vw vh) = four_digits vw ++ NUL :: four_digits vh ++ [NUL].
Proof. reflexivity. Qed.

(** [lazyLoadPicture] when the size file opens: the dimensions are what
    [atoi] finds in the buffer, and nothing is uploaded. *)
Lemma lazyLoadPicture_with_size_file path (s : State W) file :
  GameIsActive (engine s) = true -> path <> "" ->
  fopen (path +:+ ".size") (world s) = Some file ->
  let target := (lazyLoadPicture path s).1 in
  let s' := (lazyLoadPicture path s).2 in
  w target = atoi (size_buffer (world s) file)
  /\ h target = atoi (drop 5 (size_buffer (world s) file))
  /\ inited target = true /\ l_lazyLoaded target = true /\ l_path target = path
  /\ d_texture target = None /\ d_texture2 target = None /\ d_texture3 target = None
  /\ uploads (calls_since s s') = 0%nat
  /\ world s' = world s.
Proof.
  intros Hactive Hpath Hopen. cbv zeta.
  unfold lazyLoadPicture. run. rewrite Hactive. simpl.
  rewrite bool_decide_eq_false_2 by done.
  rewrite Hopen.
  destruct (fclose_fails (path +:+ ".size") (world s)); simpl;
    repeat split; try reflexivity.
  - unfold calls_since. simpl. by rewrite drop_app_length.
  - unfold calls_since. by rewrite drop_all.
Qed.

(** C4. A size file holding [vw] and [vh] as two zero-padded four-digit
    lines makes [lazyLoadPicture] return a lazy resource of exactly these
    dimensions, with no upload attempted and no backend texture bound. *)
Theorem lazyLoadPicture_reads_size_file path (vw vh : Z) (s : State W) :
  GameIsActive (engine s) = true -> path <> "" ->
  0 <= vw <= 9999 -> 0 <= vh <= 9999 ->
  fopen (path +:+ ".size") (world s) = Some (size_file vw vh) ->
  let target := (lazyLoadPicture path s).1 in
  let s' := (lazyLoadPicture path s).2 in
  w target = vw /\ h target = vh
  /\ inited target = true /\ l_lazyLoaded target = true /\ l_path target = path
  /\ d_texture target = None /\ d_texture2 target = None /\ d_texture3 target = None
  /\ uploads (calls_since s s') = 0%nat
  /\ world s' = world s.
Proof.
  intros Hactive Hpath Hvw Hvh Hopen.
  destruct (lazyLoadPicture_with_size_file path s _ Hactive Hpath Hopen)
    as (Hw & Hh & Hrest).
  cbv zeta. split; [| split; [| exact Hrest]].
  - rewrite Hw, size_buffer_of_size_file. by apply atoi_four_digits.
  - rewrite Hh, size_buffer_of_size_file.
    change (drop 5 (four_digits vw ++ NUL :: four_digits vh ++ [NUL]))
      with (four_digits vh ++ NUL :: []).
    by apply atoi_four_digits.
Qed.

(** *** The load-and-unload probe *)

Lemma lazyLoad_made target (s : State W) :
  inited target = true -> l_lazyLoaded target = true -> d_texture target = None ->
  made (ev_C2D_SpriteSheetLoad (l_path target)
          (s_tryHardToLoadC2D_SpriteSheet (l_path target) s).1) s (lazyLoad target s).2.
Proof.
  intros Hin Hlazy Htex.
  destruct (lazyLoad_unfold target s Hin Hlazy Htex) as (bands & Hquiet & ->).
  pose proof (tryHard_made (l_path target) s) as Hmade.
  destruct (s_tryHardToLoadC2D_SpriteSheet (l_path target) s) as [[sheet|] s1]; simpl in *.
  - eapply made_later; [apply Hmade | apply Hquiet].
  - eapply made_later; [apply Hmade |].
    apply (quiet_failed_to_load (l_path target) s1).
Qed.

Lemma lazyLoad_first_band target (s : State W) sheet :
  inited target = true -> l_lazyLoaded target = true -> d_texture target = None ->
  (s_tryHardToLoadC2D_SpriteSheet (l_path target) s).1 = Some sheet ->
  let target' := (lazyLoad target s).1 in
  inited target' = true /\ l_lazyLoaded target' = true /\ d_texture target' = Some sheet
  /\ w target' = w (s_loadTexture target sheet) /\ h target' = h (s_loadTexture target sheet).
Proof.
  intros Hin Hlazy Htex Hfirst. cbv zeta.
  unfold lazyLoad. rewrite Hin, Hlazy, Htex. simpl.
  rewrite bind_run, Hfirst. rewrite !bind_run. simpl.
  set (t1 := s_loadTexture target sheet).
  assert (Hbase1 : inited t1 = true /\ l_lazyLoaded t1 = true /\ d_texture t1 = Some sheet).
  { subst t1. unfold s_loadTexture. simpl. by case_bool_decide. }
  destruct Hbase1 as (Hin1 & Hlazy1 & Htx1).
  set (s1 := (s_tryHardToLoadC2D_SpriteSheet (l_path target) s).2).
  destruct (load_band2_spec t1 s1) as (Hb2 & _). cbv zeta in Hb2.
  destruct (load_band2 t1 s1) as [t2 s2]. simpl in *.
  destruct (load_band3_spec t2 s2) as (Hb3 & _). cbv zeta in Hb3.
  destruct (load_band3 t2 s2) as [t3 s3]. simpl in *.
  rewrite Hb3, Hb2.
  case_bool_decide;
    repeat match goal with |- context [match ?x with _ => _ end] => destruct x end;
    simpl; by rewrite ?Hin1, ?Hlazy1, ?Htx1.
Qed.

Lemma lazyUnLoad_resident target (s : State W) :
  inited target = true -> l_lazyLoaded target = true -> is_Some (d_texture target) ->
  let target' := (lazyUnLoad target s).1 in
  inited target' = true /\ l_lazyLoaded target' = true
  /\ d_texture target' = None /\ d_texture2 target' = None /\ d_texture3 target' = None
  /\ w target' = w target /\ h target' = h target.
Proof.
  intros Hin Hlazy Hres. cbv zeta.
  unfold lazyUnLoad, deleteTexture.
  rewrite Hin, Hlazy, (bool_decide_eq_true_2 _ Hres). simpl.
  rewrite !bind_run. simpl. by rewrite Hin, Hlazy.
Qed.

(** C8 (amended). [lazyLoadPicture] probes the picture (one load, then an
    immediate unload) only when the size file cannot be opened.  When the
    file opens, its bytes are never checked: the dimensions are what
    [atoi] reads at offsets 0 and 5 of the buffer, and no upload is
    attempted, well-formed or not. *)
Theorem lazyLoadPicture_size_file_cases path (s : State W) :
  GameIsActive (engine s) = true -> path <> "" ->
  let target := (lazyLoadPicture path s).1 in
  let calls := calls_since s (lazyLoadPicture path s).2 in
  match fopen (path +:+ ".size") (world s) with
  | Some file =>
      w target = atoi (size_buffer (world s) file)
      /\ h target = atoi (drop 5 (size_buffer (world s) file))
      /\ inited target = true /\ d_texture target = None
      /\ uploads calls = 0%nat
  | None =>
      let probe :=
        (s_tryHardToLoadC2D_SpriteSheet path
           (emit (ev_pLogWarning "lazyLoadPicture: Couldn't open size file.") s)).1 in
      In (ev_C2D_SpriteSheetLoad path probe) calls
      /\ d_texture target = None
      /\ match probe with
         | Some sheet =>
             inited target = true
             /\ w target = width (subtex (sheet_image sheet)) * 2
             /\ h target = height (subtex (sheet_image sheet)) * 2
         | None => inited target = false
         end
  end.
Proof.
  intros Hactive Hpath. cbv zeta.
  destruct (fopen (path +:+ ".size") (world s)) as [file|] eqn:Hopen.
  { destruct (lazyLoadPicture_with_size_file path s file Hactive Hpath Hopen)
      as (Hw & Hh & Hin & _ & _ & Htx & _ & _ & Hup & _).
    by repeat split. }
  unfold lazyLoadPicture. run. rewrite Hactive. simpl.
  rewrite bool_decide_eq_false_2 by done. rewrite Hopen.
  set (blank := set_lazyLoaded true (set_inited true (set_path path (set_inited false emptyPicture)))).
  set (s0 := emit _ s).
  assert (Hk0 : keeps s s0) by apply (quiet_call _ s).
  pose proof (lazyLoad_made blank s0 eq_refl eq_refl eq_refl) as Hmade.
  pose proof (quiet_lazyLoad blank s0) as Hk1.
  change (l_path blank) with path in *.
  destruct (s_tryHardToLoadC2D_SpriteSheet path s0).1 as [sheet|] eqn:Hprobe.
  - destruct (lazyLoad_first_band blank s0 sheet eq_refl eq_refl eq_refl Hprobe)
      as (Hin & Hlazy & Htx & Hw & Hh).
    cbv zeta in *.
    destruct (lazyLoad blank s0) as [t1 s1]. simpl in *.
    pose proof (quiet_lazyUnLoad t1 s1) as Hk2.
    destruct (lazyUnLoad_resident t1 s1 Hin Hlazy) as (Hin' & _ & Htx' & _ & _ & Hw' & Hh');
      [by rewrite Htx |].
    cbv zeta in *.
    destruct (lazyUnLoad t1 s1) as [t2 s2]. simpl in *.
    split; [| split; [done |]].
    + apply made_In. eapply made_earlier; [apply Hk0 |]. eapply made_later; eauto.
    + by rewrite Hw', Hh', Hw, Hh.
  - destruct (lazyLoad_unfold blank s0 eq_refl eq_refl eq_refl) as (bands & _ & Hrun).
    change (l_path blank) with path in Hrun. rewrite Hprobe in Hrun.
    rewrite Hrun in *. simpl in *.
    split; [| by split].
    apply made_In. eapply made_earlier; [apply Hk0 |]. exact Hmade.
Qed.


(** ** Frame controller and composition *)

Ltac run_frame :=
  unfold exec, repaint, setTargetTexture, setTargetScreen, setTargetMainScreen,
    setTargetSubScreen, setTargetLayer, minport_ApplyViewport, clearBuffer,
    minport_RenderBoxFilled, s_ensureInFrame, select_target, begin_screen, draw_layer,
    four_layers in *;
  repeat progress run.




(** *** The frame flag and the frame counter *)

Ltac split_ifs :=
  repeat match goal with
         | |- context [if ?b then _ else _] => destruct b eqn:?; simpl
         | |- context [match ?x with Some _ => _ | None => _ end] => destruct x eqn:?; simpl
         end.

Lemma quiet_RenderBoxFilled x1 y1 x2 y2 r g b a :
  quiet (minport_RenderBoxFilled x1 y1 x2 y2 r g b a).
Proof. unfold minport_RenderBoxFilled. quiet_auto. Qed.

Lemma quiet_begin_rotation xDst yDst wDst hDst rotateAngle center :
  quiet (begin_rotation xDst yDst wDst hDst rotateAngle center).
Proof. unfold begin_rotation. destruct (pivot _ _ center); quiet_auto. Qed.

Lemma quiet_draw_bands xDst yDst wDst hDst tx xSrc ySrc wSrc hSrc flip tint :
  quiet (draw_bands xDst yDst wDst hDst tx xSrc ySrc wSrc hSrc flip tint).
Proof.
  unfold draw_bands, draw_band.
  apply quiet_if; [| quiet_auto].
  repeat match goal with
         | |- quiet (let '(_, _) := ?x in _) => destruct x
         | |- quiet (match ?x with _ => _ end) => destruct x
         end; quiet_auto.
Qed.

Lemma quiet_RenderTexturePrivate xDst yDst wDst hDst tx xSrc ySrc wSrc hSrc
    rotateAngle center flip tint :
  quiet (minport_RenderTexturePrivate xDst yDst wDst hDst tx xSrc ySrc wSrc hSrc
           rotateAngle center flip tint).
Proof.
  unfold minport_RenderTexturePrivate.
  apply quiet_if; [apply quiet_ret |].
  apply quiet_bind; [apply quiet_if; [apply quiet_lazyLoad | apply quiet_ret] | intros tx'].
  apply quiet_if; [apply quiet_ret |].
  destruct (auto_flip _ _ _ _) as [ySrc' mode].
  apply quiet_bind; [| intros [xDst' yDst']].
  { apply quiet_if; [apply quiet_begin_rotation | apply quiet_ret]. }
  apply quiet_bind; [apply quiet_draw_bands | intros [[]|]]; quiet_auto.
Qed.

Lemma quiet_LoadPicture path : quiet (LoadPicture path).
Proof. unfold LoadPicture, pLogWarning. quiet_auto. Qed.

Lemma quiet_lazyLoadPicture path : quiet (lazyLoadPicture path).
Proof.
  unfold lazyLoadPicture, pLogWarning.
  apply quiet_bind; [apply quiet_get | intros active].
  apply quiet_if; [apply quiet_ret |].
  apply quiet_if; [apply quiet_ret |].
  apply quiet_bind; [apply quiet_get | intros [file|]].
  - quiet_auto.
  - apply quiet_bind; [apply quiet_call | intros _].
    apply quiet_bind; [apply quiet_lazyLoad | intros t; apply quiet_lazyUnLoad].
Qed.

Lemma quiet_flag_counter {A} (c : Proc W A) (s : State W) :
  quiet c ->
  g_in_frame (c s).2 = g_in_frame s /\ s_current_frame (c s).2 = s_current_frame s.
Proof. intros Hq. destruct (Hq s) as (_ & Hflag & Hcount & _). by split. Qed.

(** Procedures that leave the frame counter alone. *)
Definition counts {A} (c : Proc W A) : Prop :=
  forall s, s_current_frame (c s).2 = s_current_frame s.

Lemma counts_quiet {A} (c : Proc W A) : quiet c -> counts c.
Proof. intros Hq s. by apply quiet_flag_counter. Qed.

Lemma counts_ret {A} (a : A) : counts (mret a : Proc W A).
Proof. by intros s. Qed.

Lemma counts_bind {A B} (c : Proc W A) (k : A -> Proc W B) :
  counts c -> (forall a, counts (k a)) -> counts (c ≫= k).
Proof. intros Hc Hk s. rewrite bind_run. by rewrite Hk, Hc. Qed.

Lemma counts_get {A} (f : State W -> A) : counts (get f).
Proof. by intros s. Qed.

Lemma counts_call e : counts (call (W:=W) e).
Proof. by intros s. Qed.

Lemma counts_flag b : counts (modify (W:=W) (set_g_in_frame b)).
Proof. by intros s. Qed.

Lemma counts_target t : counts (modify (W:=W) (set_s_cur_target t)).
Proof. by intros s. Qed.

Lemma counts_if {A} (b : bool) (c1 c2 : Proc W A) :
  counts c1 -> counts c2 -> counts (if b then c1 else c2).
Proof. by destruct b. Qed.

Lemma counts_when b (c : Proc W unit) : counts c -> counts (when b c).
Proof. intros Hc. destruct b; [done | apply counts_ret]. Qed.

Lemma counts_for_each_layer body layers :
  (forall layer, counts (body layer)) -> counts (for_each_layer body layers).
Proof.
  intros Hbody. induction layers as [|layer rest IH]; [apply counts_ret |].
  cbn [for_each_layer].
  apply counts_bind; [apply Hbody | intros _].
  apply counts_bind; [apply counts_get | intros single].
  apply counts_if; [apply counts_ret | apply IH].
Qed.

Ltac counts_step :=
  first
    [ apply counts_ret | apply counts_get | apply counts_call | apply counts_flag
    | apply counts_target | apply counts_for_each_layer; intros ?
    | apply counts_bind; [| intros ?] | apply counts_when | apply counts_if
    | match goal with |- counts (match ?x with _ => _ end) => destruct x end ].

Ltac counts_auto := repeat counts_step.

Lemma counts_ensureInFrame : counts s_ensureInFrame.
Proof. unfold s_ensureInFrame. counts_auto. Qed.

Lemma counts_select_target t : counts (select_target t).
Proof. unfold select_target. counts_auto. Qed.

Lemma counts_ApplyViewport : counts minport_ApplyViewport.
Proof. unfold minport_ApplyViewport. counts_auto. Qed.

(** Every entry point but [repaint] leaves the frame counter alone. *)
Lemma frame_counter_kept (c : Call) (s : State W) :
  c <> call_repaint -> s_current_frame (run c s) = s_current_frame s.
Proof.
  intros Hc.
  destruct c; unfold run, exec.
  - unfold setTargetTexture.
    apply counts_bind; [apply counts_ensureInFrame | intros _].
    apply counts_bind; [apply counts_get | intros single].
    apply counts_bind; [| intros _; apply counts_call].
    apply counts_if; apply counts_select_target.
  - apply counts_ret.
  - unfold setTargetMainScreen.
    apply counts_bind; [apply counts_ensureInFrame | intros _].
    apply counts_bind; [apply counts_call | intros _].
    apply counts_bind; [apply counts_select_target | intros _; apply counts_call].
  - unfold setTargetSubScreen.
    apply counts_bind; [apply counts_ensureInFrame | intros _].
    apply counts_bind; [apply counts_call | intros _].
    apply counts_bind; [apply counts_select_target | intros _; apply counts_call].
  - unfold setTargetLayer.
    apply counts_bind; [apply counts_ensureInFrame | intros _].
    apply counts_bind; [apply counts_get | intros single].
    apply counts_bind; [| intros _; apply counts_ApplyViewport].
    apply counts_if; apply counts_select_target.
  - unfold clearBuffer, minport_RenderBoxFilled. counts_auto.
  - done.
  - apply counts_ApplyViewport.
  - apply counts_quiet, quiet_RenderBoxFilled.
  - apply counts_quiet, quiet_RenderTexturePrivate.
  - apply counts_quiet, quiet_lazyLoad.
  - apply counts_quiet, quiet_lazyUnLoad.
  - apply counts_quiet, quiet_deleteTexture.
  - apply counts_quiet, quiet_LoadPicture.
  - apply counts_quiet, quiet_lazyLoadPicture.
Qed.

(** [repaint] outside a frame does nothing at all. *)
Lemma repaint_idle (s : State W) : g_in_frame s = false -> repaint s = (tt, s).
Proof. intros Hidle. unfold repaint. run. by rewrite Hidle. Qed.

(** [repaint] inside a frame ends it and advances the counter. *)
Lemma repaint_in_frame (s : State W) :
  g_in_frame s = true ->
  g_in_frame (exec repaint s) = false
  /\ s_current_frame (exec repaint s) = wrapu32 (s_current_frame s + 1).
Proof.
  intros Hframe.
  destruct s as [e cf ds inf sw single show_w tex_h n cur wd tr].
  simpl in Hframe. subst inf.
  run_frame. split_ifs; by split.
Qed.

Lemma quiet_target t : quiet (modify (W:=W) (set_s_cur_target t)).
Proof. intros s. repeat split; try done. exists []. simpl. by rewrite app_nil_r. Qed.

Lemma quiet_select_target t : quiet (select_target t).
Proof.
  unfold select_target.
  apply quiet_bind; [apply quiet_call | intros _; apply quiet_target].
Qed.

Lemma quiet_ApplyViewport : quiet minport_ApplyViewport.
Proof. unfold minport_ApplyViewport. quiet_auto. Qed.

(** [s_ensureInFrame] outside a frame: the calls of a frame begin, and
    the flag is set. *)
Lemma ensureInFrame_idle (s : State W) :
  g_in_frame s = false ->
  g_in_frame (s_ensureInFrame s).2 = true
  /\ s_single_layer_mode (s_ensureInFrame s).2 = s_single_layer_mode s
  /\ trace (s_ensureInFrame s).2 = trace s ++ frame_begin_calls (s_single_layer_mode s).
Proof.
  intros Hidle.
  destruct s as [e cf ds inf sw single show_w tex_h n cur wd tr].
  simpl in Hidle. subst inf.
  unfold s_ensureInFrame, frame_begin_calls, four_layers.
  destruct single;
    repeat progress (unfold mbind, Proc_bind, mret, Proc_ret, get, modify, call; simpl);
    rewrite <- ?app_assoc; by repeat split.
Qed.

(** A target selection is [s_ensureInFrame] followed by calls that keep
    the frame flag. *)
Lemma select_after_ensure (c : Call) :
  selects_target c = true ->
  exists rest : Proc W unit,
    quiet rest /\ forall s, run c s = (rest (s_ensureInFrame s).2).2.
Proof.
  destruct c; try discriminate; intros _; unfold run, exec.
  - exists (single ← get (W:=W) s_single_layer_mode;
            (if negb single then select_target (s_layer_targets 2)
             else select_target (s_layer_targets 0));;
            call ev_C2D_ViewReset).
    split; [| intros s; unfold setTargetTexture; by rewrite bind_run].
    apply quiet_bind; [apply quiet_get | intros single].
    apply quiet_bind; [| intros _; apply quiet_call].
    apply quiet_if; apply quiet_select_target.
  - exists (call (ev_C2D_TargetClear s_top_screen opaque_black);;
            select_target s_top_screen;;
            call ev_C2D_ViewReset).
    split; [| intros s; unfold setTargetMainScreen; by rewrite bind_run].
    apply quiet_bind; [apply quiet_call | intros _].
    apply quiet_bind; [apply quiet_select_target | intros _; apply quiet_call].
  - exists (call (ev_C2D_TargetClear s_bottom_screen opaque_black);;
            select_target s_bottom_screen;;
            call ev_C2D_ViewReset).
    split; [| intros s; unfold setTargetSubScreen; by rewrite bind_run].
    apply quiet_bind; [apply quiet_call | intros _].
    apply quiet_bind; [apply quiet_select_target | intros _; apply quiet_call].
  - exists (single ← get (W:=W) s_single_layer_mode;
            (if negb single then select_target (s_layer_targets layer)
             else select_target (s_layer_targets 0));;
            minport_ApplyViewport).
    split; [| intros s; unfold setTargetLayer; by rewrite bind_run].
    apply quiet_bind; [apply quiet_get | intros single].
    apply quiet_bind; [| intros _; apply quiet_ApplyViewport].
    apply quiet_if; apply quiet_select_target.
Qed.

(** The four target selections begin a frame when there is none. *)
Lemma select_begins_frame (c : Call) (s : State W) :
  selects_target c = true -> g_in_frame s = false ->
  g_in_frame (run c s) = true
  /\ exists rest, calls_since s (run c s) = frame_begin_calls (s_single_layer_mode s) ++ rest.
Proof.
  intros Hsel Hidle.
  destruct (select_after_ensure c Hsel) as (rest & Hquiet & Hrun).
  destruct (ensureInFrame_idle s Hidle) as (Hflag & _ & Htrace).
  destruct (Hquiet (s_ensureInFrame s).2) as ([calls Hcalls] & Hkeep & _).
  rewrite Hrun. split; [by rewrite Hkeep |].
  exists calls. apply calls_since_app.
  by rewrite Hcalls, Htrace, <- app_assoc.
Qed.

(** C6 (amended). The four target selections ([setTargetTexture],
    [setTargetMainScreen], [setTargetSubScreen], [setTargetLayer]) made
    outside a frame begin one first: the layers in use (all four, or
    layer 0 alone in single-layer mode) and the bottom screen are cleared
    to transparent black and the flag is set.  The draw primitives
    [minport_RenderBoxFilled] and [minport_RenderTexturePrivate] leave
    the flag as it is, and [setTargetScreen] does nothing.  [repaint]
    outside a frame changes nothing, and the frame counter advances
    only in a [repaint] that ends a frame. *)
Theorem frame_controller (c : Call) (s : State W) :
  (selects_target c = true -> g_in_frame s = false ->
     g_in_frame (run c s) = true
     /\ exists rest,
          calls_since s (run c s) = frame_begin_calls (s_single_layer_mode s) ++ rest)
  /\ (draws c = true -> g_in_frame (run c s) = g_in_frame s)
  /\ run call_setTargetScreen s = s
  /\ (g_in_frame s = false -> repaint s = (tt, s))
  /\ (s_current_frame (run c s) <> s_current_frame s ->
        c = call_repaint /\ g_in_frame s = true /\ g_in_frame (run c s) = false
        /\ s_current_frame (run c s) = wrapu32 (s_current_frame s + 1)).
Proof.
  split; [apply select_begins_frame |].
  split.
  { destruct c; try discriminate; intros _; unfold run, exec; apply quiet_flag_counter.
    - apply quiet_RenderBoxFilled.
    - apply quiet_RenderTexturePrivate. }
  split; [reflexivity |].
  split; [apply repaint_idle |].
  intros Hadv.
  assert (Hc : c = call_repaint \/ c <> call_repaint)
    by (destruct c; first [by left | by right]).
  destruct Hc as [-> | Hother].
  - destruct (g_in_frame s) eqn:Hframe.
    + destruct (repaint_in_frame s Hframe) as [Hflag Hcount]. by repeat split.
    + exfalso. apply Hadv. unfold run, exec. by rewrite repaint_idle.
  - exfalso. apply Hadv. by apply frame_counter_kept.
Qed.


(** ** The sprite dispatcher *)

(** *** The automatic flip *)

Lemma auto_flip_done budget half y mode :
  3 <= mode -> auto_flip budget half y mode = (y, mode).
Proof.
  intros Hmode. destruct budget as [|k]; [done |]. simpl.
  rewrite (bool_decide_eq_false_2 (mode < 3)) by lia.
  by rewrite andb_false_r.
Qed.

(** Three iterations are all the loop can make: a larger budget gives
    the same result. *)
Lemma auto_flip_budget extra half y :
  auto_flip (3 + extra) half y 0 = auto_flip 3 half y 0.
Proof.
  simpl.
  repeat (destruct (_ && _); [| reflexivity]).
  apply auto_flip_done. lia.
Qed.

(** The loop subtracts the half height [Z.min 3 (y / half)] times and
    counts the subtractions. *)
Lemma auto_flip_value half y :
  0 < half -> 0 <= y <= 32767 ->
  auto_flip 3 half y 0 = (y - Z.min 3 (y / half) * half, Z.min 3 (y / half)).
Proof.
  intros Hhalf Hy. simpl.
  case_bool_decide as H1; simpl.
  2: { rewrite (Z.div_small y half) by lia. f_equal; lia. }
  rewrite (wrap16_id (y - half)) by (unfold in_int16; lia).
  case_bool_decide as H2; simpl.
  2: { assert (Hq : y / half = 1)
         by (symmetry; apply (Z.div_unique y half 1 (y - half)); lia).
       rewrite Hq. f_equal; lia. }
  rewrite (wrap16_id (y - half - half)) by (unfold in_int16; lia).
  case_bool_decide as H3; simpl.
  2: { assert (Hq : y / half = 2)
         by (symmetry; apply (Z.div_unique y half 2 (y - half - half)); lia).
       rewrite Hq. f_equal; lia. }
  rewrite (wrap16_id (y - half - half - half)) by (unfold in_int16; lia).
  assert (Hq : 3 <= y / half) by (apply Z.div_le_lower_bound; lia).
  rewrite (Z.min_l 3 (y / half)) by lia. f_equal; lia.
Qed.

(** *** The band selection *)


Local Opaque wrap16 Z.quot Z.mul Z.add Z.sub.

Ltac run_bands :=
  repeat progress
    (unfold mbind, Proc_bind, mret, Proc_ret, get, modify, call, when, draw_band;
     cbn [fst snd trace emit band app]).

(** The division of the split never traps: a top part is drawn only
    when the source rectangle crosses a band boundary, and then its
    height is positive. *)
Lemma draw_bands_total xDst yDst wDst hDst tx xSrc ySrc wSrc hSrc flip tint (s : State W) :
  (draw_bands xDst yDst wDst hDst tx xSrc ySrc wSrc hSrc flip tint s).1 = Some tt.
Proof.
  unfold draw_bands, cdiv.
  destruct (d_texture2 tx), (d_texture3 tx);
    repeat case_bool_decide; run_bands; try reflexivity; lia.
Qed.

Lemma blits_app (a b : list Event) : blits (a ++ b) = blits a ++ blits b.
Proof. unfold blits. apply omap_app. Qed.

(** Every blit of a band carries the flip flags it was given. *)
Lemma draw_bands_flips xDst yDst wDst hDst tx xSrc ySrc wSrc hSrc flip tint (s : State W) :
  Forall (fun b => b_flip b = flip)
    (blits (calls_since s (draw_bands xDst yDst wDst hDst tx xSrc ySrc wSrc hSrc flip tint s).2)).
Proof.
  destruct s as [e cf ds inf sw single show_w tex_h n cur wd tr].
  unfold draw_bands, cdiv, calls_since.
  destruct (d_texture2 tx), (d_texture3 tx);
    repeat case_bool_decide; run_bands;
    rewrite <- ?app_assoc, ?drop_app_length, ?drop_all;
    cbn [app blits omap]; repeat constructor.
Qed.


(** *** The whole dispatcher on a resident texture *)

Lemma begin_rotation_calls xDst yDst wDst hDst rotateAngle center (s : State W) :
  exists calls,
    trace (begin_rotation xDst yDst wDst hDst rotateAngle center s).2 = trace s ++ calls
    /\ blits calls = [].
Proof.
  unfold begin_rotation.
  destruct (pivot wDst hDst center); run_bands; eexists; rewrite <- ?app_assoc; (split; [reflexivity |]);
    reflexivity.
Qed.

(** On an inited picture whose first band is bound, the dispatcher
    returns normally and its blits are those of [draw_bands] on the
    source offset and the flip flags computed by the automatic flip. *)
Lemma blit_resident xDst yDst wDst hDst tx xSrc ySrc wSrc hSrc rotateAngle center flip tint
    (s : State W) :
  inited tx = true -> is_Some (d_texture tx) ->
  let y := (auto_flip 3 (Z.quot (h tx) 2) ySrc 0).1 in
  let mode := (auto_flip 3 (Z.quot (h tx) 2) ySrc 0).2 in
  (minport_RenderTexturePrivate xDst yDst wDst hDst tx xSrc ySrc wSrc hSrc
     rotateAngle center flip tint s).1 = Some tx
  /\ exists (s1 : State W) xDst' yDst',
       blits (calls_since s
                (minport_RenderTexturePrivate xDst yDst wDst hDst tx xSrc ySrc wSrc hSrc
                   rotateAngle center flip tint s).2)
       = blits (calls_since s1
                  (draw_bands xDst' yDst' wDst hDst tx xSrc y wSrc hSrc (Z.lxor flip mode)
                     tint s1).2).
Proof.
  intros Hin Hres. cbv zeta.
  unfold minport_RenderTexturePrivate.
  rewrite Hin, (bool_decide_eq_true_2 _ Hres). cbn [negb andb].
  rewrite bind_run. cbn [mret Proc_ret fst snd].
  rewrite (bool_decide_eq_true_2 _ Hres). cbn [negb].
  destruct (auto_flip 3 (Z.quot (h tx) 2) ySrc 0) as [y mode]. cbn [fst snd].
  rewrite bind_run.
  destruct (negb (Qeq_bool rotateAngle 0)).
  - destruct (begin_rotation_calls xDst yDst wDst hDst rotateAngle center s)
      as (pre & Hpre & Hnone).
    destruct (begin_rotation xDst yDst wDst hDst rotateAngle center s) as [[xDst' yDst'] s1].
    cbn [fst snd] in *. rewrite bind_run.
    pose proof (draw_bands_total xDst' yDst' wDst hDst tx xSrc y wSrc hSrc
                  (Z.lxor flip mode) tint s1) as Htotal.
    destruct (quiet_draw_bands xDst' yDst' wDst hDst tx xSrc y wSrc hSrc
                (Z.lxor flip mode) tint s1) as ([mid Hmid] & _).
    destruct (draw_bands xDst' yDst' wDst hDst tx xSrc y wSrc hSrc (Z.lxor flip mode) tint s1)
      as [r s2] eqn:Hrun.
    cbn [fst snd] in *. subst r. run_bands.
    split; [reflexivity |]. exists s1, xDst', yDst'. rewrite Hrun. cbn [snd].
    rewrite (calls_since_app s1 s2 mid Hmid).
    rewrite (calls_since_app s (emit ev_C2D_ViewRestore s2) (pre ++ mid ++ [ev_C2D_ViewRestore])).
    + rewrite !blits_app, Hnone. cbn [blits omap app]. by rewrite app_nil_r.
    + cbn [trace emit]. rewrite Hmid, Hpre. by rewrite <- !app_assoc.
  - cbn [mret Proc_ret fst snd]. rewrite bind_run.
    pose proof (draw_bands_total xDst yDst wDst hDst tx xSrc y wSrc hSrc
                  (Z.lxor flip mode) tint s) as Htotal.
    destruct (draw_bands xDst yDst wDst hDst tx xSrc y wSrc hSrc (Z.lxor flip mode) tint s)
      as [r s2] eqn:Hrun.
    cbn [fst snd] in *. subst r. run_bands.
    split; [reflexivity |]. exists s, xDst, yDst. by rewrite Hrun.
Qed.


Lemma auto_flip_range budget half y mode :
  in_int16 y -> in_int16 (auto_flip budget half y mode).1.
Proof.
  revert y mode. induction budget as [|k IH]; intros y mode Hy; [done |].
  cbn [auto_flip]. destruct (_ && _); [| done].
  apply IH, wrap16_range.
Qed.



(** C1 (amended). On an inited, loaded texture with half height
    [half = h / 2 > 0], the dispatcher subtracts [half] from the source
    Y offset [k = min 3 (ySrc / half)] times and XORs the flip flags
    once with the count [k]: one half height toggles flip bit 0, two
    half heights toggle flip bit 1, three toggle both.  Every blit it
    issues carries [flip xor k], which is the requested [flip] only for
    [k = 0]; for [ySrc < 4 * half] the reduced offset is [ySrc mod half]
    and the blit is dispatched exactly like one at the reduced offset
    with flip flags [flip xor k]. *)
Theorem automatic_flip xDst yDst wDst hDst tx xSrc ySrc wSrc hSrc rotateAngle center flip tint
    (s : State W) :
  inited tx = true -> is_Some (d_texture tx) ->
  let half := Z.quot (h tx) 2 in
  0 < half -> 0 <= ySrc <= 32767 ->
  let k := Z.min 3 (ySrc / half) in
  let blit y f :=
    minport_RenderTexturePrivate xDst yDst wDst hDst tx xSrc y wSrc hSrc
      rotateAngle center f tint s in
  auto_flip 3 half ySrc 0 = (ySrc - k * half, k)
  /\ Forall (fun b => b_flip b = Z.lxor flip k) (blits (calls_since s (blit ySrc flip).2))
  /\ (Z.lxor flip k = flip <-> k = 0)
  /\ (ySrc < 4 * half ->
        ySrc - k * half = ySrc mod half
        /\ blit ySrc flip = blit (ySrc - k * half) (Z.lxor flip k)).
Proof.
  intros Hin Hres half Hhalf Hy k blit.
  assert (Hflip : auto_flip 3 half ySrc 0 = (ySrc - k * half, k))
    by (by apply auto_flip_value).
  split; [exact Hflip |]. split; [| split].
  - destruct (blit_resident xDst yDst wDst hDst tx xSrc ySrc wSrc hSrc rotateAngle center
                flip tint s Hin Hres) as (_ & s1 & xDst' & yDst' & Hblits).
    cbv zeta in Hblits. fold half in Hblits. rewrite Hflip in Hblits.
    subst blit. cbv beta. rewrite Hblits. apply draw_bands_flips.
  - split.
    + intros Heq.
      assert (Hk : Z.lxor flip (Z.lxor flip k) = Z.lxor flip flip) by (by rewrite Heq).
      by rewrite <- Z.lxor_assoc, Z.lxor_nilpotent, Z.lxor_0_l in Hk.
    + intros ->. apply Z.lxor_0_r.
  - intros Hlt.
    assert (Hq : 0 <= ySrc / half <= 3).
    { split; [apply Z.div_pos; lia |].
      apply Z.lt_succ_r. apply Z.div_lt_upper_bound; lia. }
    assert (Hk : k = ySrc / half) by (subst k; lia).
    assert (Hmod : ySrc - k * half = ySrc mod half)
      by (rewrite Hk, Z.mod_eq by lia; lia).
    split; [exact Hmod |].
    pose proof (Z.mod_pos_bound ySrc half Hhalf) as Hbound.
    subst blit. cbv beta. unfold minport_RenderTexturePrivate.
    rewrite Hin, (bool_decide_eq_true_2 _ Hres). cbn [negb andb].
    rewrite !bind_run. cbn [mret Proc_ret fst snd].
    rewrite (bool_decide_eq_true_2 _ Hres). cbn [negb].
    fold half. rewrite Hflip.
    rewrite (auto_flip_value half (ySrc - k * half)) by lia.
    rewrite Hmod, (Z.div_small (ySrc mod half) half) by lia.
    rewrite (Z.min_r 3 0) by lia.
    replace (ySrc mod half - 0 * half) with (ySrc mod half) by lia.
    by rewrite Z.lxor_0_r.
Qed.


(** ** Coordinate mapping *)

(** Truncating division by a positive number. *)
Lemma rem_facts n p : 0 < p ->
  Z.quot n p * p = n - Z.rem n p /\ Z.abs (Z.rem n p) < p /\ 0 <= Z.rem n p * n
  /\ Z.abs (Z.quot n p * p) <= Z.abs n /\ Z.abs (Z.quot n p) <= Z.abs n.
Proof.
  intros Hp.
  assert (H1 : Z.quot n p * p = n - Z.rem n p) by (pose proof (Z.quot_rem' n p); lia).
  assert (H2 : Z.abs (Z.rem n p) < p) by (pose proof (Z.rem_bound_abs n p); lia).
  assert (H3 : 0 <= Z.rem n p * n) by (apply Z.rem_sign_mul; lia).
  assert (H4 : Z.abs (Z.quot n p * p) <= Z.abs n).
  { generalize dependent (Z.rem n p). generalize (Z.quot n p). intros q r H1 H2 H3.
    destruct (Z.eq_dec q 0) as [-> | Hq]; [lia |]. nia. }
  repeat split; try assumption. nia.
Qed.

(** Scaling by [S / p] and back by [p / S], both with truncation, moves
    a coordinate by less than one unit toward zero when [p <= S], and
    not at all when [S] is a multiple of [p]. *)
Lemma scale_back a S p :
  0 < p <= S ->
  let there := Z.quot (a * S) p in
  let back := Z.quot (there * p) S in
  Z.abs there <= Z.abs (a * S)
  /\ Z.abs (there * p) <= Z.abs (a * S)
  /\ (0 <= a -> a - 1 <= back <= a)
  /\ (a <= 0 -> a <= back <= a + 1)
  /\ (S mod p = 0 -> back = a).
Proof.
  intros Hp there back.
  destruct (rem_facts (a * S) p) as (Ht & Hr & Hs & Hsmall & Hq); [lia |].
  fold there in Ht, Hsmall, Hq.
  destruct (rem_facts (there * p) S) as (Hb & Hr' & Hs' & _); [lia |].
  fold back in Hb.
  split; [exact Hq |]. split; [exact Hsmall |].
  split; [| split].
  - intros Ha. generalize dependent (Z.rem (a * S) p). generalize dependent (Z.rem (there * p) S).
    generalize dependent there. intros. nia.
  - intros Ha. generalize dependent (Z.rem (a * S) p). generalize dependent (Z.rem (there * p) S).
    generalize dependent there. intros. nia.
  - intros Hdiv. apply Z.mod_divide in Hdiv; [| lia]. destruct Hdiv as [k ->].
    assert (Hk : 0 < k) by nia.
    assert (Hth : there = a * k).
    { unfold there. replace (a * (k * p)) with (a * k * p) by lia. apply Z.quot_mul. lia. }
    unfold back. rewrite Hth. replace (a * k * p) with (a * (k * p)) by lia.
    apply Z.quot_mul. lia.
Qed.

(** One axis of [mapToScreen] followed by [mapFromScreen], outside the
    editor: no operation overflows or traps on coordinates of up to six
    digits. *)
Lemma axis_round_trip x px S p :
  -100040 <= x <= 100040 -> -100000 <= px <= 100000 -> 0 < p <= S -> S <= 10000 ->
  let a := x - px in
  let there := Z.quot (a * S) p in
  let back := Z.quot (there * p) S in
  cdiv (wrap32 (wrap32 (x - px) * S)) p = Some there
  /\ wrap32 there = there
  /\ cdiv (wrap32 (there * p)) S = Some back
  /\ wrap32 (wrap32 back + px) = back + px
  /\ -200041 <= back <= 200041
  /\ (0 <= a -> a - 1 <= back <= a)
  /\ (a <= 0 -> a <= back <= a + 1)
  /\ (S mod p = 0 -> back = a).
Proof.
  intros Hx Hpx Hp HS. cbv zeta.
  pose proof (scale_back (x - px) S p Hp) as Hscale. cbv zeta in Hscale.
  set (a := x - px) in *.
  set (there := Z.quot (a * S) p) in *.
  set (back := Z.quot (there * p) S) in *.
  destruct Hscale as (Hthere & Hprod & Hpos & Hneg & Hexact).
  assert (Ha : -200040 <= a <= 200040) by (unfold a; lia).
  assert (HaS : Z.abs (a * S) <= 2000400000) by nia.
  assert (Hback : -200041 <= back <= 200041).
  { destruct (Z_le_gt_dec 0 a) as [Hsign | Hsign];
      [specialize (Hpos Hsign) | specialize (Hneg ltac:(lia))]; lia. }
  unfold cdiv.
  rewrite (bool_decide_eq_false_2 (p = 0)) by lia.
  rewrite (bool_decide_eq_false_2 (S = 0)) by lia.
  rewrite (wrap32_id a) by (unfold in_int32; lia).
  rewrite (wrap32_id (a * S)) by (unfold in_int32; lia).
  rewrite (wrap32_id (there * p)) by (unfold in_int32; lia).
  rewrite (wrap32_id there) by (unfold in_int32; lia).
  rewrite (wrap32_id back) by (unfold in_int32; lia).
  rewrite (wrap32_id (back + px)) by (unfold in_int32; lia).
  repeat split; try done; try lia; auto.
Qed.

(** In the editor ([editorScreen.active] with [LevelEditor] or
    [MagicHand]) the two mappings double and halve: window to screen and
    back is the identity, screen to window and back drops the odd
    pixel. *)
Theorem mapToScreen_editor_round_trip ScreenW ScreenH x y (s : State W) :
  (LevelEditor (engine s) || MagicHand (engine s)) && editorScreen_active (engine s) = true ->
  in_int32 (x * 2) -> in_int32 (y * 2) ->
  mapToScreen ScreenW ScreenH x y s = Some (x * 2, y * 2)
  /\ mapFromScreen ScreenW ScreenH (x * 2) (y * 2) s = Some (x, y)
  /\ (mapFromScreen ScreenW ScreenH x y s ≫= fun p => mapToScreen ScreenW ScreenH p.1 p.2 s)
     = Some (x - Z.rem x 2, y - Z.rem y 2).
Proof.
  intros Hed Hx Hy. unfold mapToScreen, mapFromScreen. cbv zeta. rewrite Hed.
  rewrite !wrap32_id by done. rewrite !Z.quot_mul by lia.
  split; [done |]. split; [done |].
  cbn [mbind option_bind fst snd].
  pose proof (Z.quot_rem' x 2) as Hqx. pose proof (Z.quot_rem' y 2) as Hqy.
  pose proof (Z.rem_bound_abs x 2) as Hrx. pose proof (Z.rem_bound_abs y 2) as Hry.
  pose proof (Z.rem_sign_mul x 2) as Hsx. pose proof (Z.rem_sign_mul y 2) as Hsy.
  unfold in_int32 in *.
  rewrite !wrap32_id by (unfold in_int32; nia).
  f_equal. f_equal; lia.
Qed.

(** Outside the editor, with the physical screen no larger than the game
    screen: a window point mapped to the game screen and back comes out
    at most one pixel away, on the side of the physical origin, and
    exactly where it was when the game screen size is a multiple of the
    physical size.  Nothing overflows or traps on coordinates of up to
    five digits. *)
Theorem mapToScreen_round_trip ScreenW ScreenH x y (s : State W) :
  (LevelEditor (engine s) || MagicHand (engine s)) && editorScreen_active (engine s) = false ->
  -100000 <= x <= 100000 -> -100000 <= y <= 100000 ->
  -100000 <= g_screen_phys_x (engine s) <= 100000 ->
  -100000 <= g_screen_phys_y (engine s) <= 100000 ->
  0 < g_screen_phys_w (engine s) <= ScreenW -> ScreenW <= 10000 ->
  0 < g_screen_phys_h (engine s) <= ScreenH -> ScreenH <= 10000 ->
  exists dx dy x' y',
    mapToScreen ScreenW ScreenH x y s = Some (dx, dy)
    /\ mapFromScreen ScreenW ScreenH dx dy s = Some (x', y')
    /\ Z.abs (x' - x) <= 1 /\ Z.abs (y' - y) <= 1
    /\ (ScreenW mod g_screen_phys_w (engine s) = 0 -> x' = x)
    /\ (ScreenH mod g_screen_phys_h (engine s) = 0 -> y' = y).
Proof.
  intros Hed Hx Hy Hpx Hpy Hpw HSW Hph HSH.
  unfold mapToScreen, mapFromScreen. cbv zeta. rewrite Hed.
  set (off := if g_screen_swapped s then 0 else 40).
  assert (Hoff : (if negb (g_screen_swapped s) then wrap32 (x + 40) else x) = x + off).
  { unfold off. destruct (g_screen_swapped s); cbn [negb]; [lia |].
    apply wrap32_id. unfold in_int32. lia. }
  rewrite Hoff.
  destruct (axis_round_trip (x + off) (g_screen_phys_x (engine s)) ScreenW
              (g_screen_phys_w (engine s)))
    as (Hx1 & Hx2 & Hx3 & Hx4 & Hx5 & Hx6 & Hx7 & Hx8);
    [unfold off; destruct (g_screen_swapped s); lia | done | done | done |].
  destruct (axis_round_trip y (g_screen_phys_y (engine s)) ScreenH
              (g_screen_phys_h (engine s)))
    as (Hy1 & Hy2 & Hy3 & Hy4 & Hy5 & Hy6 & Hy7 & Hy8); [lia | done | done | done |].
  rewrite Hx1, Hy1. cbn [mbind option_bind]. rewrite Hx2, Hy2.
  eexists _, _, _, _. split; [reflexivity |].
  rewrite Hx3, Hy3. cbn [mbind option_bind]. rewrite Hx4, Hy4.
  split; [reflexivity |].
  set (bx := Z.quot (Z.quot ((x + off - g_screen_phys_x (engine s)) * ScreenW)
                       (g_screen_phys_w (engine s)) * g_screen_phys_w (engine s)) ScreenW) in *.
  set (by_ := Z.quot (Z.quot ((y - g_screen_phys_y (engine s)) * ScreenH)
                        (g_screen_phys_h (engine s)) * g_screen_phys_h (engine s)) ScreenH) in *.
  assert (Hfinal : (if negb (g_screen_swapped s)
                    then wrap32 (bx + g_screen_phys_x (engine s) - 40)
                    else bx + g_screen_phys_x (engine s))
                   = bx + g_screen_phys_x (engine s) - off).
  { unfold off. destruct (g_screen_swapped s); cbn [negb]; [lia |].
    apply wrap32_id. unfold in_int32. lia. }
  rewrite Hfinal.
  repeat split.
  - destruct (Z_le_gt_dec 0 (x + off - g_screen_phys_x (engine s))) as [Ha | Ha];
      [specialize (Hx6 Ha) | specialize (Hx7 ltac:(lia))]; lia.
  - destruct (Z_le_gt_dec 0 (y - g_screen_phys_y (engine s))) as [Ha | Ha];
      [specialize (Hy6 Ha) | specialize (Hy7 ltac:(lia))]; lia.
  - intros Hdiv. specialize (Hx8 Hdiv). lia.
  - intros Hdiv. specialize (Hy8 Hdiv). lia.
Qed.

(** ** The layer targets *)

Lemma allocations_app (a b : list GpuCall) : allocations (a ++ b) = allocations a ++ allocations b.
Proof. unfold allocations. apply omap_app. Qed.

Lemma destroy_layers_spec layers ly :
  exists calls,
    gpu_calls (destroy_layers layers ly) = gpu_calls ly ++ calls
    /\ allocations calls = []
    /\ s_tex_w (destroy_layers layers ly) = s_tex_w ly.
Proof.
  revert ly. induction layers as [|i rest IH]; intros ly.
  - exists []. by rewrite app_nil_r.
  - cbn [destroy_layers]. destruct (target_set (slot i ly)).
    + destruct (IH (set_slot i (mkLayerSlot false false
                        (layer_subtex (slot i (gpu (gpu_C3D_TexDelete i)
                                                  (gpu (gpu_C3D_RenderTargetDelete i) ly)))))
                      (gpu (gpu_C3D_TexDelete i) (gpu (gpu_C3D_RenderTargetDelete i) ly))))
        as (calls & Hc & Ha & Hw).
      exists ([gpu_C3D_RenderTargetDelete i; gpu_C3D_TexDelete i] ++ calls).
      rewrite Hc, Hw. cbn [gpu_calls set_slot gpu s_tex_w].
      rewrite <- !app_assoc. split; [done |]. split; [| done].
      rewrite allocations_app, Ha. reflexivity.
    + apply IH.
Qed.

Lemma create_layers_spec created mem_w mem_h (ly : Layers) (s : State W) :
  let r := create_layers created mem_w mem_h four_layers ly s in
  r.2 = s
  /\ s_tex_w r.1 = s_tex_w ly
  /\ gpu_calls r.1
     = gpu_calls ly ++ creation_calls mem_w mem_h (layers_in_use (s_single_layer_mode s)).
Proof.
  cbv zeta. unfold four_layers, layers_in_use, creation_calls, four_layers.
  cbn [create_layers]. unfold mbind, Proc_bind, mret, Proc_ret, get.
  destruct (s_single_layer_mode s) eqn:Hsingle; simpl; rewrite ?Hsingle; simpl;
    rewrite <- ?app_assoc; by repeat split.
Qed.

Lemma set_filters_spec (ly : Layers) (s : State W) :
  set_filters four_layers ly s
  = (mkLayers (s_tex_w ly) (slots ly)
       (gpu_calls ly ++ map gpu_C3D_TexSetFilter (layers_in_use (s_single_layer_mode s))), s).
Proof.
  unfold four_layers, layers_in_use, four_layers.
  cbn [set_filters]. unfold mbind, Proc_bind, mret, Proc_ret, get.
  destruct (s_single_layer_mode s) eqn:Hsingle; simpl; rewrite ?Hsingle; simpl;
    unfold gpu; simpl; rewrite <- ?app_assoc; reflexivity.
Qed.

(** What [s_createSceneTargets] leaves in the globals and which calls it
    makes. *)
Lemma createSceneTargets_spec created ScreenW ScreenH swap (ly : Layers) (s : State W) :
  let tex_w := Z.quot ScreenW 2 in
  let tex_h := Z.quot ScreenH 2 in
  let single := bool_decide (tier_w tex_w >= 512) && bool_decide (tier_h tex_h = 512) || swap in
  let r := s_createSceneTargets created ScreenW ScreenH swap ly s in
  r.2 = set_s_tex_show_w (Z.min tex_w (tier_w tex_w))
          (set_s_single_layer_mode single (set_s_tex_h (Z.min tex_h (tier_h tex_h)) s))
  /\ s_tex_w r.1 = Z.min tex_w (tier_w tex_w)
  /\ exists deleted,
       allocations deleted = []
       /\ gpu_calls r.1
          = gpu_calls ly ++ deleted
            ++ creation_calls (tier_w tex_w) (tier_h tex_h) (layers_in_use single).
Proof.
  cbv zeta. unfold s_createSceneTargets, s_destroySceneTargets.
  set (tex_w := Z.quot ScreenW 2). set (tex_h := Z.quot ScreenH 2).
  assert (Hmw : (if bool_decide (tex_w > 512) then 1024
                 else if bool_decide (tex_w <= 256) then 256 else 512) = tier_w tex_w)
    by reflexivity.
  rewrite Hmw. clear Hmw.
  assert (Hmh : (if bool_decide (tex_h <= 256) then 256 else 512) = tier_h tex_h) by reflexivity.
  rewrite Hmh. clear Hmh.
  assert (Htw : (if bool_decide (tex_w > tier_w tex_w) then tier_w tex_w else tex_w)
                = Z.min tex_w (tier_w tex_w)) by (case_bool_decide; lia).
  assert (Hth : (if bool_decide (tex_h > tier_h tex_h) then tier_h tex_h else tex_h)
                = Z.min tex_h (tier_h tex_h)) by (clear Htw; case_bool_decide; lia).
  rewrite Htw, Hth. clear Htw Hth.
  set (single := bool_decide (tier_w tex_w >= 512) && bool_decide (tier_h tex_h = 512) || swap).
  assert (Hsingle : (if bool_decide (tier_w tex_w >= 512) && bool_decide (tier_h tex_h = 512)
                     then true else if swap then true else false) = single).
  { unfold single. destruct (_ && _); [done |]. by destruct swap. }
  rewrite Hsingle.
  destruct (destroy_layers_spec four_layers ly) as (deleted & Hd & Ha & Hw).
  set (ly0 := set_s_tex_w (Z.min tex_w (tier_w tex_w)) (destroy_layers four_layers ly)).
  set (s0 := set_s_single_layer_mode single (set_s_tex_h (Z.min tex_h (tier_h tex_h)) s)).
  rewrite !bind_run. unfold modify, mret, Proc_ret. cbn [fst snd].
  change (set_s_single_layer_mode single (set_s_tex_h (Z.min tex_h (tier_h tex_h)) s)) with s0.
  destruct (create_layers_spec created (tier_w tex_w) (tier_h tex_h) ly0 s0)
    as (Hs & Hcw & Hcalls).
  rewrite Hs, Hcw. split; [reflexivity |]. split; [reflexivity |].
  exists deleted. split; [exact Ha |].
  rewrite Hcalls. unfold ly0. cbn [set_s_tex_w gpu_calls]. rewrite Hd.
  by rewrite <- app_assoc.
Qed.

Lemma gpu_since_app (ly ly' : Layers) calls :
  gpu_calls ly' = gpu_calls ly ++ calls -> gpu_since ly ly' = calls.
Proof. intros Hc. unfold gpu_since. rewrite Hc. apply drop_app_length. Qed.

Lemma allocations_creation mem_w mem_h layers :
  allocations (creation_calls mem_w mem_h layers) = map (fun i => (i, mem_w, mem_h)) layers.
Proof. induction layers as [|i rest IH]; [done |]. cbn. by rewrite <- IH. Qed.

Lemma tier_w_cases t :
  (tier_w t = 256 \/ tier_w t = 512 \/ tier_w t = 1024)
  /\ (t <= 1024 -> t <= tier_w t) /\ (1024 < t -> tier_w t = 1024)
  /\ (tier_w t >= 512 <-> 256 < t).
Proof. unfold tier_w. repeat case_bool_decide; lia. Qed.

Lemma tier_h_cases t :
  (tier_h t = 256 \/ tier_h t = 512)
  /\ (t <= 512 -> t <= tier_h t) /\ (512 < t -> tier_h t = 512)
  /\ (tier_h t = 512 <-> 256 < t).
Proof. unfold tier_h. repeat case_bool_decide; lia. Qed.

(** [s_createSceneTargets] gives every layer texture it allocates the
    same size, 256, 512 or 1024 wide and 256 or 512 high, and leaves a
    logical size that fits into it: half the game screen size, cut to
    1024 by 512 when the game screen is larger. *)
Theorem createSceneTargets_sizes created ScreenW ScreenH swap (ly : Layers) (s : State W) :
  let r := s_createSceneTargets created ScreenW ScreenH swap ly s in
  exists mem_w mem_h,
    (mem_w = 256 \/ mem_w = 512 \/ mem_w = 1024) /\ (mem_h = 256 \/ mem_h = 512)
    /\ Forall (fun a => a.1.2 = mem_w /\ a.2 = mem_h) (allocations (gpu_since ly r.1))
    /\ s_tex_w r.1 <= mem_w /\ s_tex_h r.2 <= mem_h
    /\ s_tex_show_w r.2 = s_tex_w r.1
    /\ s_tex_w r.1 = Z.min (Z.quot ScreenW 2) 1024
    /\ s_tex_h r.2 = Z.min (Z.quot ScreenH 2) 512.
Proof.
  cbv zeta.
  destruct (createSceneTargets_spec created ScreenW ScreenH swap ly s)
    as (Hs & Hw & deleted & Hdel & Hcalls).
  destruct (tier_w_cases (Z.quot ScreenW 2)) as (Hw1 & Hw2 & Hw3 & _).
  destruct (tier_h_cases (Z.quot ScreenH 2)) as (Hh1 & Hh2 & Hh3 & _).
  exists (tier_w (Z.quot ScreenW 2)), (tier_h (Z.quot ScreenH 2)).
  split; [exact Hw1 |]. split; [exact Hh1 |].
  rewrite (gpu_since_app _ _ _ Hcalls), allocations_app, Hdel, allocations_creation.
  rewrite Hs, Hw. cbn [s_tex_h s_tex_show_w set_s_tex_show_w set_s_single_layer_mode set_s_tex_h app].
  split; [| lia].
  apply List.Forall_map, Forall_true. done.
Qed.

(** [s_createSceneTargets] selects single-layer mode exactly when the
    screens are swapped or the game screen is at least 514 pixels in both
    directions, and it allocates the first layer only in that mode and
    the four layers 0 to 3 otherwise. *)
Theorem createSceneTargets_single_layer created ScreenW ScreenH swap (ly : Layers)
    (s : State W) :
  let r := s_createSceneTargets created ScreenW ScreenH swap ly s in
  (s_single_layer_mode r.2 = true <-> swap = true \/ (514 <= ScreenW /\ 514 <= ScreenH))
  /\ map (fun a => a.1.1) (allocations (gpu_since ly r.1))
     = (if s_single_layer_mode r.2 then [0] else [0; 1; 2; 3]).
Proof.
  cbv zeta.
  destruct (createSceneTargets_spec created ScreenW ScreenH swap ly s)
    as (Hs & Hw & deleted & Hdel & Hcalls).
  destruct (tier_w_cases (Z.quot ScreenW 2)) as (_ & _ & _ & Hw4).
  destruct (tier_h_cases (Z.quot ScreenH 2)) as (_ & _ & _ & Hh4).
  rewrite (gpu_since_app _ _ _ Hcalls), allocations_app, Hdel, allocations_creation.
  rewrite Hs. cbn [s_single_layer_mode set_s_tex_show_w set_s_single_layer_mode app].
  split.
  - assert (HW : 256 < Z.quot ScreenW 2 <-> 514 <= ScreenW).
    { pose proof (Z.quot_rem' ScreenW 2). pose proof (Z.rem_bound_abs ScreenW 2).
      pose proof (Z.rem_sign_mul ScreenW 2). nia. }
    assert (HH : 256 < Z.quot ScreenH 2 <-> 514 <= ScreenH).
    { pose proof (Z.quot_rem' ScreenH 2). pose proof (Z.rem_bound_abs ScreenH 2).
      pose proof (Z.rem_sign_mul ScreenH 2). nia. }
    rewrite orb_true_iff, andb_true_iff, !bool_decide_eq_true. tauto.
  - rewrite map_map. cbn [fst]. rewrite map_id. reflexivity.
Qed.

(** [minport_ApplyPhysCoords] as a conditional re-creation followed by
    the swap flag and the filter loop. *)
Lemma ApplyPhysCoords_unfold created ScreenW ScreenH swap (ly : Layers) (s : State W) :
  let recreate :=
    negb (bool_decide (Z.quot ScreenW 2 = s_tex_w ly))
    || negb (bool_decide (Z.quot ScreenH 2 = s_tex_h s))
    || negb (eqb (g_screen_swapped s) swap) in
  let r0 := if recreate then s_createSceneTargets created ScreenW ScreenH swap ly s
            else (ly, s) in
  minport_ApplyPhysCoords created ScreenW ScreenH swap ly s
  = set_filters four_layers r0.1 (set_g_screen_swapped swap r0.2).
Proof.
  cbv zeta. unfold minport_ApplyPhysCoords.
  rewrite !bind_run. unfold get at 1 2. cbn [fst snd].
  destruct (_ || _); reflexivity.
Qed.


(** The outcome of [minport_ApplyPhysCoords] in terms of the layers and
    state before the filter loop. *)
Lemma ApplyPhysCoords_result created ScreenW ScreenH swap (ly : Layers) (s : State W) :
  let recreate :=
    negb (bool_decide (Z.quot ScreenW 2 = s_tex_w ly))
    || negb (bool_decide (Z.quot ScreenH 2 = s_tex_h s))
    || negb (eqb (g_screen_swapped s) swap) in
  let r0 := if recreate then s_createSceneTargets created ScreenW ScreenH swap ly s
            else (ly, s) in
  minport_ApplyPhysCoords created ScreenW ScreenH swap ly s
  = (mkLayers (s_tex_w r0.1) (slots r0.1)
       (gpu_calls r0.1 ++ map gpu_C3D_TexSetFilter (layers_in_use (s_single_layer_mode r0.2))),
     set_g_screen_swapped swap r0.2).
Proof.
  cbv zeta. rewrite ApplyPhysCoords_unfold. cbv zeta. by rewrite set_filters_spec.
Qed.

(** With a game screen of at most 2049 by 1025 pixels, one call of
    [minport_ApplyPhysCoords] settles the layer targets: the swap flag
    holds what [should_swap_screen()] returned, and a second call in the
    same situation deletes and creates nothing; it only sets the texture
    filters again and leaves the state as it is. *)
Theorem ApplyPhysCoords_settles created ScreenW ScreenH swap (ly : Layers) (s : State W) :
  Z.quot ScreenW 2 <= 1024 -> Z.quot ScreenH 2 <= 512 ->
  let r1 := minport_ApplyPhysCoords created ScreenW ScreenH swap ly s in
  let r2 := minport_ApplyPhysCoords created ScreenW ScreenH swap r1.1 r1.2 in
  g_screen_swapped r1.2 = swap
  /\ r2.2 = r1.2
  /\ s_tex_w r2.1 = s_tex_w r1.1 /\ slots r2.1 = slots r1.1
  /\ gpu_since r1.1 r2.1
     = map gpu_C3D_TexSetFilter (if s_single_layer_mode r1.2 then [0] else [0; 1; 2; 3]).
Proof.
  intros HW HH. cbv zeta.
  rewrite (ApplyPhysCoords_result created ScreenW ScreenH swap ly s). cbv zeta.
  set (recreate := _ || _ || _).
  set (r0 := if recreate then _ else _).
  assert (Hsizes : s_tex_w r0.1 = Z.quot ScreenW 2 /\ s_tex_h r0.2 = Z.quot ScreenH 2).
  { unfold r0. destruct recreate eqn:Hre.
    - destruct (createSceneTargets_spec created ScreenW ScreenH swap ly s) as (Hs & Hw & _).
      rewrite Hs, Hw. cbn [s_tex_h set_s_tex_show_w set_s_single_layer_mode set_s_tex_h].
      destruct (tier_w_cases (Z.quot ScreenW 2)) as (_ & Hw2 & _).
      destruct (tier_h_cases (Z.quot ScreenH 2)) as (_ & Hh2 & _). lia.
    - unfold recreate in Hre. rewrite !orb_false_iff, !negb_false_iff in Hre.
      destruct Hre as [[Hw Hh] _].
      apply bool_decide_eq_true in Hw, Hh. cbn [fst snd]. by split. }
  destruct Hsizes as [Hw0 Hh0].
  cbn [fst snd]. split; [reflexivity |].
  rewrite ApplyPhysCoords_result. cbv zeta.
  cbn [s_tex_w s_tex_h g_screen_swapped set_g_screen_swapped].
  rewrite Hw0, Hh0, !bool_decide_eq_true_2 by done.
  rewrite eqb_reflx. cbn [negb orb fst snd s_tex_w slots gpu_calls s_single_layer_mode
                          set_g_screen_swapped].
  split; [reflexivity |]. split; [reflexivity |]. split; [reflexivity |].
  unfold gpu_since. cbn [gpu_calls]. apply drop_app_length.
Qed.


(** [minport_ApplyPhysCoords] keeps the swap flag and the composition
    mode together: if single-layer mode was on whenever the screens were
    swapped, it still is afterwards, with the swap flag at what
    [should_swap_screen()] returned. *)
Theorem ApplyPhysCoords_swapped_is_single created ScreenW ScreenH swap (ly : Layers)
    (s : State W) :
  (g_screen_swapped s = true -> s_single_layer_mode s = true) ->
  let r := minport_ApplyPhysCoords created ScreenW ScreenH swap ly s in
  g_screen_swapped r.2 = swap
  /\ (g_screen_swapped r.2 = true -> s_single_layer_mode r.2 = true).
Proof.
  intros Hinv. cbv zeta.
  rewrite (ApplyPhysCoords_result created ScreenW ScreenH swap ly s). cbv zeta.
  cbn [fst snd g_screen_swapped set_g_screen_swapped]. split; [reflexivity |].
  intros ->.
  destruct (_ || _ || _) eqn:Hre; cbn [s_single_layer_mode set_g_screen_swapped].
  - destruct (createSceneTargets_spec created ScreenW ScreenH true ly s) as (Hs & _).
    rewrite Hs. cbn [s_single_layer_mode set_s_tex_show_w set_s_single_layer_mode].
    apply orb_true_r.
  - rewrite !orb_false_iff, !negb_false_iff in Hre. destruct Hre as [_ Hsw].
    apply eqb_prop in Hsw. cbn [snd]. by apply Hinv.
Qed.

(** ** Frames are opened and closed in pairs *)

Lemma open_frames_app (a b : list Event) : open_frames (a ++ b) = open_frames a + open_frames b.
Proof.
  unfold open_frames. induction a as [|e a IH]; cbn [foldr app]; [done |].
  rewrite IH. lia.
Qed.

(** The frames left open by the calls so far, less the one the frame flag
    accounts for. *)
Definition frame_balance (s : State W) : Z :=
  open_frames (trace s) - (if g_in_frame s then 1 else 0).

(** Procedures that keep the frame flag and neither begin nor end a
    frame. *)
Definition still {A} (c : Proc W A) : Prop :=
  forall s, g_in_frame (c s).2 = g_in_frame s
            /\ open_frames (trace (c s).2) = open_frames (trace s).

Lemma still_ret {A} (a : A) : still (mret a : Proc W A).
Proof. by intros s. Qed.

Lemma still_bind {A B} (c : Proc W A) (k : A -> Proc W B) :
  still c -> (forall a, still (k a)) -> still (c ≫= k).
Proof.
  intros Hc Hk s. rewrite bind_run.
  destruct (Hc s) as [Hf Ho]. destruct (Hk (c s).1 (c s).2) as [Hf' Ho'].
  split; congruence.
Qed.

Lemma still_get {A} (f : State W -> A) : still (get f).
Proof. by intros s. Qed.

Lemma still_call e : frame_delta e = 0 -> still (call (W:=W) e).
Proof.
  intros He s. split; [done |].
  unfold call, modify. cbn [snd trace emit]. rewrite open_frames_app.
  unfold open_frames at 2. cbn [foldr]. lia.
Qed.

Lemma still_count (f : Z -> Z) :
  still (modify (fun s : State W => set_s_num_textures_loaded (f (s_num_textures_loaded s)) s)).
Proof. by intros s. Qed.

Lemma still_target t : still (modify (W:=W) (set_s_cur_target t)).
Proof. by intros s. Qed.

Lemma still_load path : still (do_C2D_SpriteSheetLoad path).
Proof.
  intros s. unfold do_C2D_SpriteSheetLoad.
  destruct (C2D_SpriteSheetLoad path (world s)) as [r wd]. cbn [snd g_in_frame trace emit set_world].
  split; [done |]. rewrite open_frames_app. unfold open_frames at 2. cbn [foldr frame_delta]. lia.
Qed.

Lemma still_free sheet : still (do_C2D_SpriteSheetFree sheet).
Proof.
  intros s. unfold do_C2D_SpriteSheetFree. cbn [snd g_in_frame trace emit set_world].
  split; [done |]. rewrite open_frames_app. unfold open_frames at 2. cbn [foldr frame_delta]. lia.
Qed.

Lemma still_evict : still do_minport_freeTextureMemory.
Proof.
  intros s. unfold do_minport_freeTextureMemory. cbn [snd g_in_frame trace emit set_world].
  split; [done |]. rewrite open_frames_app. unfold open_frames at 2. cbn [foldr frame_delta]. lia.
Qed.

Lemma still_when b (c : Proc W unit) : still c -> still (when b c).
Proof. intros Hc. destruct b; [done | apply still_ret]. Qed.

Lemma still_if {A} (b : bool) (c1 c2 : Proc W A) :
  still c1 -> still c2 -> still (if b then c1 else c2).
Proof. by destruct b. Qed.

Ltac still_step :=
  first
    [ apply still_ret | apply still_get | apply still_call; reflexivity
    | apply (still_count (fun n => n + 1)) | apply (still_count (fun n => n - 1))
    | apply still_target
    | apply still_load | apply still_free | apply still_evict
    | apply still_bind; [| intros ?] | apply still_when | apply still_if
    | match goal with |- still (match ?x with _ => _ end) => destruct x end ].

Ltac still_auto := repeat still_step.

Lemma still_failed_to_load path : still (failed_to_load path).
Proof. unfold failed_to_load, pLogWarning. still_auto. Qed.

Lemma still_tryHard path : still (s_tryHardToLoadC2D_SpriteSheet path).
Proof. unfold s_tryHardToLoadC2D_SpriteSheet, do_linearSpaceFree. still_auto. Qed.

Lemma still_lazyLoad target : still (lazyLoad target).
Proof.
  unfold lazyLoad.
  apply still_if; [apply still_ret |].
  apply still_bind; [apply still_tryHard | intros [sheet|]].
  - apply still_bind.
    { unfold load_band2. apply still_if; [| apply still_ret].
      apply still_bind; [apply still_tryHard | intros [?|]]; [apply still_ret |].
      apply still_bind; [apply still_failed_to_load | intros; apply still_ret]. }
    intros t1. apply still_bind.
    { unfold load_band3. apply still_if; [| apply still_ret].
      apply still_bind; [apply still_load | intros [?|]]; [apply still_ret |].
      apply still_bind; [apply still_failed_to_load | intros; apply still_ret]. }
    intros t2. apply still_bind; [| intros; apply still_ret].
    unfold after_load, do_linearSpaceFree, pLogDebug. still_auto.
  - apply still_bind; [apply still_failed_to_load | intros; apply still_ret].
Qed.

Lemma still_deleteTexture tx lazyUnload : still (deleteTexture tx lazyUnload).
Proof. unfold deleteTexture, free_band. still_auto. Qed.

Lemma still_lazyUnLoad target : still (lazyUnLoad target).
Proof. unfold lazyUnLoad. apply still_if; [apply still_ret | apply still_deleteTexture]. Qed.

Lemma still_LoadPicture path : still (LoadPicture path).
Proof. unfold LoadPicture, pLogWarning. still_auto. Qed.

Lemma still_lazyLoadPicture path : still (lazyLoadPicture path).
Proof.
  unfold lazyLoadPicture, pLogWarning.
  apply still_bind; [apply still_get | intros active].
  apply still_if; [apply still_ret |].
  apply still_if; [apply still_ret |].
  apply still_bind; [apply still_get | intros [file|]].
  - still_auto.
  - apply still_bind; [apply still_call; reflexivity | intros _].
    apply still_bind; [apply still_lazyLoad | intros t; apply still_lazyUnLoad].
Qed.

Lemma still_RenderBoxFilled x1 y1 x2 y2 r g b a :
  still (minport_RenderBoxFilled x1 y1 x2 y2 r g b a).
Proof. unfold minport_RenderBoxFilled. still_auto. Qed.

Lemma still_draw_bands xDst yDst wDst hDst tx xSrc ySrc wSrc hSrc flip tint :
  still (draw_bands xDst yDst wDst hDst tx xSrc ySrc wSrc hSrc flip tint).
Proof.
  unfold draw_bands, draw_band.
  apply still_if; [| still_auto].
  repeat match goal with
         | |- still (let '(_, _) := ?x in _) => destruct x
         | |- still (match ?x with _ => _ end) => destruct x
         end; still_auto.
Qed.

Lemma still_RenderTexturePrivate xDst yDst wDst hDst tx xSrc ySrc wSrc hSrc
    rotateAngle center flip tint :
  still (minport_RenderTexturePrivate xDst yDst wDst hDst tx xSrc ySrc wSrc hSrc
           rotateAngle center flip tint).
Proof.
  unfold minport_RenderTexturePrivate.
  apply still_if; [apply still_ret |].
  apply still_bind; [apply still_if; [apply still_lazyLoad | apply still_ret] | intros tx'].
  apply still_if; [apply still_ret |].
  destruct (auto_flip _ _ _ _) as [y mode].
  apply still_bind.
  { apply still_if; [| apply still_ret]. unfold begin_rotation.
    destruct (pivot _ _ center); still_auto. }
  intros [xd yd].
  apply still_bind; [apply still_draw_bands | intros [[]|]]; still_auto.
Qed.

Lemma still_select_target t : still (select_target t).
Proof. unfold select_target. still_auto. Qed.

Lemma still_ApplyViewport : still minport_ApplyViewport.
Proof. unfold minport_ApplyViewport. still_auto. Qed.

Definition balanced {A} (c : Proc W A) : Prop :=
  forall s, frame_balance (c s).2 = frame_balance s.

Lemma balanced_still {A} (c : Proc W A) : still c -> balanced c.
Proof. intros Hc s. destruct (Hc s) as [Hf Ho]. unfold frame_balance. by rewrite Hf, Ho. Qed.

Lemma balanced_bind {A B} (c : Proc W A) (k : A -> Proc W B) :
  balanced c -> (forall a, balanced (k a)) -> balanced (c ≫= k).
Proof. intros Hc Hk s. rewrite bind_run. by rewrite Hk, Hc. Qed.

Lemma still_frame_counter (f : Z -> Z) :
  still (modify (fun s : State W => set_s_current_frame (f (s_current_frame s)) s)).
Proof. by intros s. Qed.

Lemma still_depth (f : State W -> Q) :
  still (modify (fun s : State W => set_s_depth_slider (f s) s)).
Proof. by intros s. Qed.

Lemma still_for_each_layer body layers :
  (forall layer, still (body layer)) -> still (for_each_layer body layers).
Proof.
  intros Hbody. induction layers as [|layer rest IH]; [apply still_ret |].
  cbn [for_each_layer].
  apply still_bind; [apply Hbody | intros _].
  apply still_bind; [apply still_get | intros single].
  apply still_if; [apply still_ret | apply IH].
Qed.

Lemma still_for_all_layers body layers :
  (forall layer, still (body layer)) -> still (for_all_layers body layers).
Proof.
  intros Hbody. induction layers as [|layer rest IH]; [apply still_ret |].
  cbn [for_all_layers]. apply still_bind; [apply Hbody | intros _; apply IH].
Qed.

Lemma still_draw_layer xDst xSrc layer : still (draw_layer xDst xSrc layer).
Proof. unfold draw_layer. still_auto. Qed.

Lemma still_begin_screen t : still (begin_screen t).
Proof. unfold begin_screen. still_auto. Qed.

(** A procedure that, started with the frame flag at [b], leaves it at
    [b'] and opens [d] frames more than it closes. *)
Definition shifts {A} (b b' : bool) (d : Z) (c : Proc W A) : Prop :=
  forall s, g_in_frame s = b ->
    g_in_frame (c s).2 = b' /\ open_frames (trace (c s).2) = open_frames (trace s) + d.

Lemma shifts_still {A} b (c : Proc W A) : still c -> shifts b b 0 c.
Proof. intros Hc s Hb. destruct (Hc s) as [Hf Ho]. split; [congruence | lia]. Qed.

Lemma shifts_still_bind {A B} b b' d (c : Proc W A) (k : A -> Proc W B) :
  still c -> (forall a, shifts b b' d (k a)) -> shifts b b' d (c ≫= k).
Proof.
  intros Hc Hk s Hb. rewrite bind_run. destruct (Hc s) as [Hf Ho].
  destruct (Hk (c s).1 (c s).2) as [Hf' Ho']; [congruence |].
  split; [done | lia].
Qed.

Lemma shifts_call {B} b b' d d' e (k : unit -> Proc W B) :
  d = frame_delta e + d' -> (forall a, shifts b b' d' (k a)) -> shifts b b' d (call e ≫= k).
Proof.
  intros -> Hk s Hb. rewrite bind_run.
  destruct (Hk (call e s).1 (call e s).2) as [Hf' Ho']; [done |].
  split; [done |]. rewrite Ho'. unfold call, modify. cbn [snd trace emit].
  rewrite open_frames_app. unfold open_frames at 2. cbn [foldr]. lia.
Qed.

Lemma shifts_flag {B} b v b' d (k : unit -> Proc W B) :
  (forall a, shifts v b' d (k a)) -> shifts b b' d (modify (set_g_in_frame v) ≫= k).
Proof.
  intros Hk s Hb. rewrite bind_run.
  destruct (Hk (modify (set_g_in_frame v) s).1 (modify (set_g_in_frame v) s).2)
    as [Hf' Ho']; [done |].
  by split.
Qed.

Lemma shifts_last_call b e : shifts b b (frame_delta e) (call (W:=W) e).
Proof.
  intros s Hb. split; [done |]. unfold call, modify. cbn [snd trace emit].
  rewrite open_frames_app. unfold open_frames at 2. cbn [foldr]. lia.
Qed.

Lemma shifts_last_flag b v : shifts b v 0 (modify (W:=W) (set_g_in_frame v)).
Proof.
  intros s Hb. split; [done |]. unfold modify. cbn [snd trace set_g_in_frame]. lia.
Qed.

Lemma balanced_shifts {A} (c : Proc W A) (s : State W) b' d :
  shifts (g_in_frame s) b' d c ->
  d = (if b' then 1 else 0) - (if g_in_frame s then 1 else 0) ->
  frame_balance (c s).2 = frame_balance s.
Proof.
  intros Hc Hd. destruct (Hc s eq_refl) as [Hf Ho].
  unfold frame_balance. rewrite Hf, Ho. lia.
Qed.

(** Guards on the frame flag. *)
Lemma guard_run {A} (k : bool -> Proc W A) (s : State W) :
  (get (W:=W) g_in_frame ≫= k) s = k (g_in_frame s) s.
Proof. reflexivity. Qed.

Lemma balanced_ensureInFrame : balanced s_ensureInFrame.
Proof.
  intros s. unfold s_ensureInFrame. rewrite guard_run.
  destruct (g_in_frame s) eqn:Hflag; cbn [negb]; [reflexivity |].
  apply (balanced_shifts _ s true 1); [| by rewrite Hflag].
  rewrite Hflag.
  apply shifts_still_bind; [apply still_call; reflexivity | intros _].
  apply (shifts_call _ _ _ 0); [reflexivity | intros _].
  apply shifts_still_bind.
  { apply still_for_each_layer. intros layer. apply still_call. reflexivity. }
  intros _. apply shifts_still_bind; [apply still_call; reflexivity | intros _].
  apply shifts_last_flag.
Qed.

Lemma balanced_clearBuffer : balanced clearBuffer.
Proof.
  intros s. unfold clearBuffer. rewrite guard_run.
  destruct (g_in_frame s) eqn:Hflag; cbn [negb]; [reflexivity |].
  apply (balanced_shifts _ s false 0); [| by rewrite Hflag].
  rewrite Hflag.
  apply (shifts_call _ _ _ (-1)); [reflexivity | intros _].
  do 10 (apply shifts_still_bind; [apply still_call; reflexivity | intros _]).
  apply shifts_last_call.
Qed.

Lemma balanced_repaint : balanced repaint.
Proof.
  intros s. unfold repaint. rewrite guard_run.
  destruct (g_in_frame s) eqn:Hflag; cbn [negb]; [| reflexivity].
  apply (balanced_shifts _ s false (-1)); [| by rewrite Hflag].
  rewrite Hflag.
  apply shifts_still_bind; [apply still_depth | intros _].
  apply shifts_still_bind; [apply still_target | intros _].
  apply shifts_still_bind; [apply still_call; reflexivity | intros _].
  apply shifts_still_bind; [apply still_get | intros e].
  apply shifts_still_bind; [apply still_get | intros swapped].
  apply shifts_still_bind; [apply still_get | intros single].
  apply shifts_still_bind; [apply still_get | intros depth].
  apply shifts_still_bind.
  { assert (Hone : forall t x, still (begin_screen t;;
                                       for_each_layer (draw_layer x shift) four_layers)).
    { intros t x. apply still_bind; [apply still_begin_screen | intros _].
      apply still_for_each_layer. intros layer. apply still_draw_layer. }
    do 4 (apply still_if; [apply Hone |]).
    apply still_bind; [apply still_begin_screen | intros _].
    apply still_bind;
      [apply still_for_all_layers; intros layer; apply still_draw_layer | intros _].
    apply still_bind; [apply still_begin_screen | intros _].
    apply still_for_all_layers. intros layer. apply still_draw_layer. }
  intros _.
  apply shifts_still_bind; [apply (still_frame_counter (fun n => wrapu32 (n + 1))) | intros _].
  apply shifts_flag. intros _.
  apply shifts_still_bind; [apply still_call; reflexivity | intros _].
  apply shifts_still_bind; [apply still_call; reflexivity | intros _].
  apply shifts_last_call.
Qed.

(** No entry point changes the balance between the frames open in the
    backend and the frame flag. *)
Lemma balance_kept (c : Call) (s : State W) : frame_balance (run c s) = frame_balance s.
Proof.
  destruct c; unfold run, exec.
  - unfold setTargetTexture.
    apply balanced_bind; [apply balanced_ensureInFrame | intros _].
    apply balanced_still. still_auto.
  - reflexivity.
  - unfold setTargetMainScreen.
    apply balanced_bind; [apply balanced_ensureInFrame | intros _].
    apply balanced_still. still_auto.
  - unfold setTargetSubScreen.
    apply balanced_bind; [apply balanced_ensureInFrame | intros _].
    apply balanced_still. still_auto.
  - unfold setTargetLayer.
    apply balanced_bind; [apply balanced_ensureInFrame | intros _].
    apply balanced_still.
    apply still_bind; [apply still_get | intros single].
    apply still_bind; [apply still_if; apply still_select_target | intros _].
    apply still_ApplyViewport.
  - apply balanced_clearBuffer.
  - apply balanced_repaint.
  - apply balanced_still, still_ApplyViewport.
  - apply balanced_still, still_RenderBoxFilled.
  - apply balanced_still, still_RenderTexturePrivate.
  - apply balanced_still, still_lazyLoad.
  - apply balanced_still, still_lazyUnLoad.
  - apply balanced_still, still_deleteTexture.
  - apply balanced_still, still_LoadPicture.
  - apply balanced_still, still_lazyLoadPicture.
Qed.

(** Whatever sequence of entry points is called, [C3D_FrameBegin] and
    [C3D_FrameEnd] stay paired: if the frames begun and not yet ended
    were one with the frame flag set and none with it clear, they still
    are after the calls.  So a frame is never begun twice, and never
    ended without having been begun. *)
Theorem frames_balanced (cs : list Call) (s : State W) :
  open_frames (trace s) = (if g_in_frame s then 1 else 0) ->
  let s' := foldl (fun st c => run c st) s cs in
  open_frames (trace s') = (if g_in_frame s' then 1 else 0).
Proof.
  intros Hs. cbv zeta.
  assert (Hbal : frame_balance (foldl (fun st c => run c st) s cs) = frame_balance s).
  { revert s Hs. induction cs as [|c cs IH]; intros s Hs; [done |].
    cbn [foldl]. rewrite IH; [apply balance_kept |].
    pose proof (balance_kept c s) as Hk. unfold frame_balance in Hk. lia. }
  unfold frame_balance in Hbal. lia.
Qed.

(** ** The hardware viewport *)

Local Opaque Z.min Z.max.

(** Inside a frame with a current target, [minport_ApplyViewport] sets
    one hardware viewport, and that viewport lies inside the frame
    buffer of the target, whatever the engine asks for: its origin is
    not negative and it ends at or before the buffer's width and height.
    Its size is not negative when the requested size is not. *)
Theorem ApplyViewport_inside_frame_buffer (s : State W) (t : C3D_RenderTarget) :
  g_in_frame s = true -> s_cur_target s = Some t ->
  1 <= frameBuf_width t -> 1 <= frameBuf_height t ->
  exists x y vw vh,
    viewports (calls_since s (exec minport_ApplyViewport s)) = [(x, y, vw, vh)]
    /\ 0 <= x /\ 0 <= y
    /\ x + vw <= frameBuf_width t /\ y + vh <= frameBuf_height t
    /\ (0 <= g_viewport_w (engine s) -> 0 <= g_viewport_h (engine s) -> 0 <= vw /\ 0 <= vh).
Proof.
  intros Hframe Hcur Hfw Hfh.
  destruct s as [e cf ds inf sw single show_w tex_h n cur wd tr].
  cbn [g_in_frame s_cur_target engine] in *. subst inf cur.
  unfold exec, minport_ApplyViewport, calls_since.
  repeat progress
    (unfold mbind, Proc_bind, mret, Proc_ret, get, modify, call, when;
     cbn [fst snd negb engine g_in_frame s_cur_target trace emit]).
  destruct (g_viewport_offset_ignore e); cbn [negb fst snd s_cur_target emit];
    destruct (linked t); cbn [fst snd trace emit];
    rewrite <- ?app_assoc, drop_app_length; unfold viewports; cbn [omap list_omap app];
    eexists _, _, _, _; (split; [reflexivity |]); lia.
Qed.

(** ** [repaint] on swapped screens and in the editor *)

Lemma repaint_trace_flat (s : State W) :
  g_in_frame s = true ->
  g_screen_swapped s = true
  \/ LevelEditor (engine s) && negb (editorScreen_active (engine s)) = true ->
  trace (exec repaint s) =
    trace s ++
    ev_C2D_ViewReset ::
    composite_at s (flat_target s).1 (flat_target s).2 (layers_in_use (s_single_layer_mode s))
    ++ frame_end_calls.
Proof.
  intros Hframe Hflat.
  unfold composite_at, flat_target, layers_in_use, four_layers.
  destruct s as [e cf ds inf sw single show_w tex_h n cur wd tr].
  cbn [g_in_frame g_screen_swapped engine world s_single_layer_mode trace
       s_tex_show_w s_tex_h] in *.
  subst inf.
  unfold exec, repaint, begin_screen, draw_layer, four_layers.
  repeat progress (unfold mbind, Proc_bind, mret, Proc_ret, get, modify, call; simpl).
  destruct sw; simpl.
  - destruct ((LevelEditor e || MagicHand e) && editorScreen_active e); destruct single;
      repeat progress (unfold mbind, Proc_bind, mret, Proc_ret, get, modify, call; simpl);
      rewrite <- ?app_assoc; reflexivity.
  - destruct Hflat as [Hsw | Hed]; [discriminate |].
    rewrite Hed. simpl. destruct single;
      repeat progress (unfold mbind, Proc_bind, mret, Proc_ret, get, modify, call; simpl);
      rewrite <- ?app_assoc; reflexivity.
Qed.

(** In a frame with the screens swapped, [repaint] composes onto one
    screen only: the top screen, 40 pixels to the right, when the editor
    screen is active in the level editor or with the magic hand, and the
    bottom screen otherwise.  With the screens not swapped, in the level
    editor without an active editor screen, it is the bottom screen, 40
    pixels to the left.  In each case the layers in use (one in
    single-layer mode, else four) are blended without source offset and
    the frame ends. *)
Theorem repaint_flat_composition (s : State W) :
  g_in_frame s = true ->
  g_screen_swapped s = true
  \/ LevelEditor (engine s) && negb (editorScreen_active (engine s)) = true ->
  let e := engine s in
  let calls := calls_since s (exec repaint s) in
  let '(t, x) :=
    if g_screen_swapped s then
      if (LevelEditor e || MagicHand e) && editorScreen_active e
      then (s_top_screen, g_screen_phys_x e + 40)
      else (s_bottom_screen, g_screen_phys_x e)
    else (s_bottom_screen, g_screen_phys_x e - 40) in
  calls = ev_C2D_ViewReset
          :: composite_at s t x (if s_single_layer_mode s then [0] else [0; 1; 2; 3])
          ++ frame_end_calls
  /\ scenes calls = [t]
  /\ g_in_frame (exec repaint s) = false.
Proof.
  intros Hframe Hflat. cbv zeta.
  rewrite (calls_since_app _ _ _ (repaint_trace_flat s Hframe Hflat)).
  unfold flat_target. cbv zeta.
  destruct (if g_screen_swapped s then _ else _) as [t x]. cbn [fst snd].
  split; [reflexivity |]. split.
  - unfold layers_in_use. by destruct (s_single_layer_mode s).
  - by apply repaint_in_frame.
Qed.

(** ** Loading and releasing pictures *)

(** [LoadPicture] with the game closed or an empty path does nothing and
    returns an uninited picture.  Otherwise it makes exactly one upload
    attempt, with no eviction pass and no retry: on success the picture
    is inited, not lazy, holds the sheet, measures twice the sheet's
    size, and the texture counter goes up by one; on failure a warning
    is logged, the picture is uninited and holds nothing, and the
    counter is unchanged. *)
Theorem LoadPicture_outcome path (s : State W) :
  let target := (LoadPicture path s).1 in
  let s' := (LoadPicture path s).2 in
  if negb (GameIsActive (engine s)) || bool_decide (path = "") then
    s' = s /\ inited target = false /\ bound_bands target = []
  else
    world s' = (C2D_SpriteSheetLoad path (world s)).2
    /\ l_path target = path /\ l_lazyLoaded target = false
    /\ match (C2D_SpriteSheetLoad path (world s)).1 with
       | Some sheet =>
           inited target = true /\ bound_bands target = [sheet]
           /\ w target = width (subtex (sheet_image sheet)) * 2
           /\ h target = height (subtex (sheet_image sheet)) * 2
           /\ s_num_textures_loaded s' = s_num_textures_loaded s + 1
           /\ calls_since s s' = [ev_C2D_SpriteSheetLoad path (Some sheet)]
       | None =>
           inited target = false /\ bound_bands target = []
           /\ s_num_textures_loaded s' = s_num_textures_loaded s
           /\ calls_since s s'
              = [ev_C2D_SpriteSheetLoad path None;
                 ev_pLogWarning ("FAILED TO LOAD!!! " +:+ path)]
       end.
Proof.
  cbv zeta.
  unfold LoadPicture, do_C2D_SpriteSheetLoad, pLogWarning, call, modify, get,
    mbind, Proc_bind, mret, Proc_ret, calls_since, bound_bands.
  destruct (GameIsActive (engine s)); cbn [negb orb]; [| by repeat split].
  cbn [l_path set_path set_inited emptyPicture].
  case_bool_decide as Hpath; [by repeat split |].
  cbn [l_path set_lazyLoaded set_path set_inited emptyPicture].
  destruct (C2D_SpriteSheetLoad path (world s)) as [[sheet|] wd]; simpl.
  - rewrite drop_app_length. by repeat split.
  - rewrite <- app_assoc, drop_app_length. by repeat split.
Qed.

(** [deleteTexture] on an inited picture releases every sheet the
    picture holds exactly once, first band first, and leaves none bound;
    the texture counter goes down by one if the first band was bound,
    the other bands are not counted.  Called for a lazy unload it keeps
    the picture inited with its path and size, so that it can be loaded
    again; otherwise it resets the picture, and deleting it once more
    does nothing. *)
Theorem deleteTexture_releases (tx : StdPicture) (lazyUnload : bool) (s : State W) :
  inited tx = true ->
  let r := deleteTexture tx lazyUnload s in
  bound_bands r.1 = []
  /\ frees (calls_since s r.2) = bound_bands tx
  /\ s_num_textures_loaded r.2
     = s_num_textures_loaded s - match d_texture tx with Some _ => 1 | None => 0 end
  /\ (if lazyUnload
      then inited r.1 = true /\ l_lazyLoaded r.1 = l_lazyLoaded tx /\ l_path r.1 = l_path tx
           /\ w r.1 = w tx /\ h r.1 = h tx
      else inited r.1 = false /\ l_lazyLoaded r.1 = false
           /\ w r.1 = 0 /\ h r.1 = 0 /\ frame_w r.1 = 0 /\ frame_h r.1 = 0
           /\ forall again, deleteTexture r.1 again r.2 = (r.1, r.2)).
Proof.
  intros Hin. cbv zeta.
  destruct tx as [i vw vh fw fh p lz t1 i1 t2 i2 t3 i3]. cbn [inited] in Hin. subst i.
  destruct s as [e cf ds inf sw single show_w tex_h n cur wd tr].
  unfold deleteTexture, free_band, calls_since, bound_bands, frees.
  destruct t1, t2, t3, lazyUnload;
    repeat progress
      (unfold mbind, Proc_bind, mret, Proc_ret, get, modify, call, when,
         do_C2D_SpriteSheetFree;
       cbn [fst snd negb inited d_texture d_texture2 d_texture3 set_texture set_texture2
            set_texture3 set_inited set_lazyLoaded set_size set_frame_size
            trace emit set_world set_s_num_textures_loaded s_num_textures_loaded
            l_path l_lazyLoaded w h frame_w frame_h world]);
    rewrite <- ?app_assoc, drop_app_length;
    cbn [omap list_omap app id];
    repeat split; lia.
Qed.

(** The picture [lazyLoad] hands back: the one it was given, the same
    picture given up as uninited, or a picture with its first band
    bound. *)
Lemma lazyLoad_picture (target : StdPicture) (s : State W) :
  let target' := (lazyLoad target s).1 in
  (target' = target /\ (lazyLoad target s).2 = s
   /\ (inited target = false \/ l_lazyLoaded target = false \/ is_Some (d_texture target)))
  \/ (inited target = true /\ l_lazyLoaded target = true /\ d_texture target = None
      /\ ((s_tryHardToLoadC2D_SpriteSheet (l_path target) s).1 = None
          /\ target' = set_inited false target
          \/ (exists sheet, (s_tryHardToLoadC2D_SpriteSheet (l_path target) s).1 = Some sheet
                            /\ inited target' = true /\ l_lazyLoaded target' = true
                            /\ d_texture target' = Some sheet))).
Proof.
  cbv zeta.
  destruct (inited target) eqn:Hin; last first.
  { left. unfold lazyLoad. rewrite Hin. cbn. auto. }
  destruct (l_lazyLoaded target) eqn:Hlazy; last first.
  { left. unfold lazyLoad. rewrite Hin, Hlazy. cbn. auto. }
  destruct (d_texture target) as [sheet0|] eqn:Htex.
  { left. unfold lazyLoad. rewrite Hin, Hlazy, Htex.
    rewrite bool_decide_eq_true_2 by (by eexists). cbn. split; [done |]. split; [done |].
    right. right. by eexists. }
  right. split; [done |]. split; [done |]. split; [done |].
  destruct (s_tryHardToLoadC2D_SpriteSheet (l_path target) s).1 as [sheet|] eqn:Hfirst.
  - right. exists sheet. split; [done |].
    destruct (lazyLoad_first_band target s sheet Hin Hlazy Htex Hfirst) as (H1 & H2 & H3 & _).
    by repeat split.
  - left. split; [done |].
    destruct (lazyLoad_unfold target s Hin Hlazy Htex) as (bands & _ & Hrun).
    rewrite Hrun, Hfirst. reflexivity.
Qed.

Lemma lazyLoad_ok (target : StdPicture) (s : State W) :
  picture_ok target -> picture_ok (lazyLoad target s).1.
Proof.
  intros [Hok1 Hok2].
  destruct (lazyLoad_picture target s) as [(-> & _) | (Hin & Hlazy & Htex & Hcase)];
    [by split |].
  destruct Hcase as [[_ ->] | (sheet & _ & Hin' & _ & Htex')].
  - split; [done |]. cbn [d_texture d_texture2 d_texture3 set_inited]. exact Hok2.
  - split; [congruence | congruence].
Qed.

Lemma deleteTexture_ok (tx : StdPicture) (lazyUnload : bool) (s : State W) :
  picture_ok tx -> picture_ok (deleteTexture tx lazyUnload s).1.
Proof.
  intros Hok. unfold deleteTexture.
  destruct (inited tx) eqn:Hin; cbn [negb]; [| exact Hok].
  rewrite !bind_run. destruct lazyUnload; cbn [negb mret Proc_ret fst]; by split.
Qed.

Lemma lazyUnLoad_ok (target : StdPicture) (s : State W) :
  picture_ok target -> picture_ok (lazyUnLoad target s).1.
Proof.
  intros Hok. unfold lazyUnLoad.
  destruct (_ || _); [exact Hok | by apply deleteTexture_ok].
Qed.

Lemma empty_ok : picture_ok emptyPicture.
Proof. by split. Qed.

Lemma LoadPicture_ok path (s : State W) : picture_ok (LoadPicture path s).1.
Proof.
  unfold LoadPicture, do_C2D_SpriteSheetLoad, pLogWarning, call, modify, get,
    mbind, Proc_bind, mret, Proc_ret.
  destruct (GameIsActive (engine s)); cbn [negb]; [| by split].
  case_bool_decide; [by split |].
  cbn [l_path set_lazyLoaded set_path set_inited emptyPicture].
  destruct (C2D_SpriteSheetLoad path (world s)) as [[sheet|] wd]; simpl; by split.
Qed.

(** The data-model invariant of a picture (an uninited picture holds no
    sheet, a picture without its first band holds no other band) holds
    for every picture that [LoadPicture] or [lazyLoadPicture] returns,
    and [lazyLoad], [lazyUnLoad], [deleteTexture] and the dispatcher
    hand back a picture that satisfies it whenever they are given one. *)
Theorem picture_invariant (s : State W) :
  (forall path, picture_ok (LoadPicture path s).1)
  /\ (forall path, picture_ok (lazyLoadPicture path s).1)
  /\ (forall tx, picture_ok tx -> picture_ok (lazyLoad tx s).1)
  /\ (forall tx, picture_ok tx -> picture_ok (lazyUnLoad tx s).1)
  /\ (forall tx lazyUnload, picture_ok tx -> picture_ok (deleteTexture tx lazyUnload s).1)
  /\ (forall xDst yDst wDst hDst tx xSrc ySrc wSrc hSrc rotateAngle center flip tint tx',
        picture_ok tx ->
        (minport_RenderTexturePrivate xDst yDst wDst hDst tx xSrc ySrc wSrc hSrc
           rotateAngle center flip tint s).1 = Some tx' ->
        picture_ok tx').
Proof.
  split; [| split; [| split; [| split; [| split]]]].
  - intros path. apply LoadPicture_ok.
  - intros path. unfold lazyLoadPicture.
    rewrite bind_run. unfold get at 1. cbn [fst snd].
    destruct (negb _); [apply empty_ok |].
    case_bool_decide; [by split |].
    rewrite bind_run. unfold get at 1. cbn [fst snd].
    destruct (fopen _ _) as [file|].
    + unfold get, when, pLogWarning, call, modify, mbind, Proc_bind, mret, Proc_ret.
      cbn [fst snd].
      destruct (fclose_fails (path +:+ ".size") (world s)); by split.
    + rewrite !bind_run. apply lazyUnLoad_ok, lazyLoad_ok. by split.
  - intros tx. apply lazyLoad_ok.
  - intros tx. apply lazyUnLoad_ok.
  - intros tx lazyUnload. apply deleteTexture_ok.
  - intros xDst yDst wDst hDst tx xSrc ySrc wSrc hSrc rotateAngle center flip tint tx' Hok.
    unfold minport_RenderTexturePrivate.
    destruct (negb (inited tx)); [by intros [= <-] |].
    rewrite bind_run.
    assert (Hok' : picture_ok
              ((if negb (bool_decide (is_Some (d_texture tx))) && l_lazyLoaded tx
                then lazyLoad tx else mret tx) s).1).
    { destruct (_ && _); [by apply lazyLoad_ok | exact Hok]. }
    destruct ((if negb (bool_decide (is_Some (d_texture tx))) && l_lazyLoaded tx
               then lazyLoad tx else mret tx) s) as [tx1 s1].
    cbn [fst snd] in *.
    destruct (negb (bool_decide (is_Some (d_texture tx1)))); [by intros [= <-] |].
    destruct (auto_flip 3 (Z.quot (h tx1) 2) ySrc 0) as [y mode].
    rewrite bind_run.
    destruct ((if negb (Qeq_bool rotateAngle 0)
               then begin_rotation xDst yDst wDst hDst rotateAngle center
               else mret (xDst, yDst)) s1) as [[xDst' yDst'] s2].
    cbn [fst snd]. rewrite bind_run.
    destruct (draw_bands xDst' yDst' wDst hDst tx1 xSrc y wSrc hSrc (Z.lxor flip mode) tint s2)
      as [[[]|] s3]; cbn [fst snd]; [| discriminate].
    rewrite bind_run. cbn [mret Proc_ret fst snd]. by intros [= <-].
Qed.

(** ** Loading on first use *)

(** Procedures all of whose calls satisfy [P]. *)
Definition only (P : Event -> bool) {A} (c : Proc W A) : Prop :=
  forall s, exists calls, trace (c s).2 = trace s ++ calls /\ forallb P calls = true.

Lemma only_ret P {A} (a : A) : only P (mret a : Proc W A).
Proof. intros s. exists []. by rewrite app_nil_r. Qed.

Lemma only_bind P {A B} (c : Proc W A) (k : A -> Proc W B) :
  only P c -> (forall a, only P (k a)) -> only P (c ≫= k).
Proof.
  intros Hc Hk s. rewrite bind_run.
  destruct (Hc s) as (c1 & Ht1 & Hp1). destruct (Hk (c s).1 (c s).2) as (c2 & Ht2 & Hp2).
  exists (c1 ++ c2). rewrite Ht2, Ht1, <- app_assoc. split; [done |].
  rewrite forallb_app. by rewrite Hp1, Hp2.
Qed.

Lemma only_get P {A} (f : State W -> A) : only P (get f).
Proof. intros s. exists []. by rewrite app_nil_r. Qed.

Lemma only_call P e : P e = true -> only P (call (W:=W) e).
Proof. intros He s. exists [e]. split; [done |]. cbn. by rewrite He. Qed.

Lemma only_count P (f : Z -> Z) :
  only P (modify (fun s : State W => set_s_num_textures_loaded (f (s_num_textures_loaded s)) s)).
Proof. intros s. exists []. by rewrite app_nil_r. Qed.

Lemma only_load path : only loader_event (do_C2D_SpriteSheetLoad path).
Proof.
  intros s. unfold do_C2D_SpriteSheetLoad.
  destruct (C2D_SpriteSheetLoad path (world s)) as [r wd]. by eexists [_].
Qed.

Lemma only_free sheet : only loader_event (do_C2D_SpriteSheetFree sheet).
Proof. intros s. by eexists [_]. Qed.

Lemma only_evict : only loader_event do_minport_freeTextureMemory.
Proof. intros s. by eexists [_]. Qed.

Lemma only_when P b (c : Proc W unit) : only P c -> only P (when b c).
Proof. intros Hc. destruct b; [done | apply only_ret]. Qed.

Lemma only_if P {A} (b : bool) (c1 c2 : Proc W A) :
  only P c1 -> only P c2 -> only P (if b then c1 else c2).
Proof. by destruct b. Qed.

Ltac only_step :=
  first
    [ apply only_ret | apply only_get | apply only_call; reflexivity
    | apply (only_count _ (fun n => n + 1)) | apply (only_count _ (fun n => n - 1))
    | apply only_load | apply only_free | apply only_evict
    | apply only_bind; [| intros ?] | apply only_when | apply only_if
    | match goal with |- only _ (match ?x with _ => _ end) => destruct x end ].

Ltac only_auto := repeat only_step.

Lemma only_failed_to_load path : only loader_event (failed_to_load path).
Proof. unfold failed_to_load, pLogWarning. only_auto. Qed.

Lemma only_tryHard path : only loader_event (s_tryHardToLoadC2D_SpriteSheet path).
Proof. unfold s_tryHardToLoadC2D_SpriteSheet, do_linearSpaceFree. only_auto. Qed.

Lemma only_lazyLoad target : only loader_event (lazyLoad target).
Proof.
  unfold lazyLoad.
  apply only_if; [apply only_ret |].
  apply only_bind; [apply only_tryHard | intros [sheet|]].
  - apply only_bind.
    { unfold load_band2. apply only_if; [| apply only_ret].
      apply only_bind; [apply only_tryHard | intros [?|]]; [apply only_ret |].
      apply only_bind; [apply only_failed_to_load | intros; apply only_ret]. }
    intros t1. apply only_bind.
    { unfold load_band3. apply only_if; [| apply only_ret].
      apply only_bind; [apply only_load | intros [?|]]; [apply only_ret |].
      apply only_bind; [apply only_failed_to_load | intros; apply only_ret]. }
    intros t2. apply only_bind; [| intros; apply only_ret].
    unfold after_load, do_linearSpaceFree, pLogDebug. only_auto.
  - apply only_bind; [apply only_failed_to_load | intros; apply only_ret].
Qed.

Lemma only_deleteTexture tx lazyUnload : only loader_event (deleteTexture tx lazyUnload).
Proof. unfold deleteTexture, free_band. only_auto. Qed.

Lemma only_lazyUnLoad target : only loader_event (lazyUnLoad target).
Proof. unfold lazyUnLoad. apply only_if; [apply only_ret | apply only_deleteTexture]. Qed.

Lemma only_LoadPicture path : only loader_event (LoadPicture path).
Proof. unfold LoadPicture, pLogWarning. only_auto. Qed.

Lemma only_lazyLoadPicture path : only loader_event (lazyLoadPicture path).
Proof.
  unfold lazyLoadPicture, pLogWarning.
  apply only_bind; [apply only_get | intros active].
  apply only_if; [apply only_ret |].
  apply only_if; [apply only_ret |].
  apply only_bind; [apply only_get | intros [file|]].
  - only_auto.
  - apply only_bind; [apply only_call; reflexivity | intros _].
    apply only_bind; [apply only_lazyLoad | intros t; apply only_lazyUnLoad].
Qed.

Lemma only_draw_bands P xDst yDst wDst hDst tx xSrc ySrc wSrc hSrc flip tint :
  (forall e, is_blit e = true -> P e = true) ->
  only P (draw_bands xDst yDst wDst hDst tx xSrc ySrc wSrc hSrc flip tint).
Proof.
  intros HP.
  assert (Hcall : forall im a b c d e f g i j k,
            only P (call (W:=W) (ev_C2D_DrawImage_Custom im a b c d e f g i j k))).
  { intros. apply only_call. by apply HP. }
  unfold draw_bands, draw_band.
  apply only_if; [| apply only_bind; [apply Hcall | intros; apply only_ret]].
  repeat first
    [ apply Hcall | apply only_ret | apply only_bind; [| intros ?]
    | match goal with
      | |- only _ (let '(_, _) := ?x in _) => destruct x
      | |- only _ (match ?x with _ => _ end) => destruct x
      end ].
Qed.

Lemma only_draw_resident xDst yDst wDst hDst tx xSrc ySrc wSrc hSrc rotateAngle center flip tint :
  only draw_event
    (draw_resident xDst yDst wDst hDst tx xSrc ySrc wSrc hSrc rotateAngle center flip tint).
Proof.
  unfold draw_resident.
  destruct (auto_flip _ _ _ _) as [y mode].
  apply only_bind.
  { apply only_if; [| apply only_ret]. unfold begin_rotation.
    destruct (pivot _ _ center); only_auto. }
  intros [xd yd].
  apply only_bind; [apply only_draw_bands; by intros [] | intros [[]|]]; only_auto.
Qed.

(** The dispatcher is the lazy load followed by the draw of a resident
    picture. *)
Lemma RenderTexturePrivate_unfold xDst yDst wDst hDst tx xSrc ySrc wSrc hSrc
    rotateAngle center flip tint (s : State W) :
  inited tx = true ->
  let loaded := (if negb (bool_decide (is_Some (d_texture tx))) && l_lazyLoaded tx
                 then lazyLoad tx else mret tx) s in
  minport_RenderTexturePrivate xDst yDst wDst hDst tx xSrc ySrc wSrc hSrc
    rotateAngle center flip tint s
  = if negb (bool_decide (is_Some (d_texture loaded.1))) then (Some loaded.1, loaded.2)
    else draw_resident xDst yDst wDst hDst loaded.1 xSrc ySrc wSrc hSrc
           rotateAngle center flip tint loaded.2.
Proof.
  intros Hin. cbv zeta. unfold minport_RenderTexturePrivate, draw_resident.
  rewrite Hin. cbn [negb]. rewrite bind_run.
  destruct (negb (bool_decide (is_Some (d_texture _)))); reflexivity.
Qed.

Lemma draw_resident_total xDst yDst wDst hDst tx xSrc ySrc wSrc hSrc rotateAngle center flip tint
    (s : State W) :
  (draw_resident xDst yDst wDst hDst tx xSrc ySrc wSrc hSrc rotateAngle center flip tint s).1
  = Some tx.
Proof.
  unfold draw_resident.
  destruct (auto_flip 3 (Z.quot (h tx) 2) ySrc 0) as [y mode].
  rewrite bind_run.
  destruct ((if negb (Qeq_bool rotateAngle 0)
             then begin_rotation xDst yDst wDst hDst rotateAngle center
             else mret (xDst, yDst)) s) as [[xDst' yDst'] s1].
  cbn [fst snd]. rewrite bind_run.
  rewrite (draw_bands_total xDst' yDst' wDst hDst tx xSrc y wSrc hSrc (Z.lxor flip mode) tint s1).
  by rewrite bind_run.
Qed.

Lemma loader_calls_no_blit calls : forallb loader_event calls = true -> blits calls = [].
Proof.
  induction calls as [|e calls IH]; [done |]. cbn [forallb].
  intros [He Hrest]%andb_true_iff. unfold blits. cbn [omap list_omap].
  destruct e; try discriminate; by apply IH.
Qed.

Lemma draw_calls_no_upload calls :
  forallb draw_event calls = true -> uploads calls = 0%nat /\ evictions calls = 0%nat.
Proof.
  induction calls as [|e calls IH]; [done |]. cbn [forallb].
  intros [He Hrest]%andb_true_iff. unfold uploads, evictions. cbn [List.filter].
  destruct e; try discriminate; by apply IH.
Qed.

(** A blit of a resident picture draws and does nothing else: no upload
    and no eviction pass. *)
Lemma resident_blit_draws xDst yDst wDst hDst tx xSrc ySrc wSrc hSrc rotateAngle center flip tint
    (s : State W) :
  inited tx = true -> is_Some (d_texture tx) ->
  let r := minport_RenderTexturePrivate xDst yDst wDst hDst tx xSrc ySrc wSrc hSrc
             rotateAngle center flip tint s in
  r.1 = Some tx
  /\ exists calls, trace r.2 = trace s ++ calls /\ forallb draw_event calls = true.
Proof.
  intros Hin Hres. cbv zeta.
  rewrite RenderTexturePrivate_unfold by done. cbv zeta.
  rewrite (bool_decide_eq_true_2 _ Hres). cbn [negb andb mret Proc_ret fst snd].
  rewrite (bool_decide_eq_true_2 _ Hres). cbn [negb].
  split; [apply draw_resident_total | apply only_draw_resident].
Qed.

(** A lazy picture that is not resident is uploaded by the first blit
    that uses it.  If the upload succeeds the picture comes back resident
    and a later blit of it uploads nothing; if it fails the picture comes
    back uninited, nothing is drawn, and a later blit of it does nothing
    at all: no further upload is attempted. *)
Theorem blit_loads_on_first_use xDst yDst wDst hDst tx xSrc ySrc wSrc hSrc
    rotateAngle center flip tint (s : State W) :
  inited tx = true -> l_lazyLoaded tx = true -> d_texture tx = None ->
  let blit x y vw vh p xs ys ws hs angle c f t :=
    minport_RenderTexturePrivate x y vw vh p xs ys ws hs angle c f t in
  let r := blit xDst yDst wDst hDst tx xSrc ySrc wSrc hSrc rotateAngle center flip tint s in
  exists tx1,
    r.1 = Some tx1
    /\ match (s_tryHardToLoadC2D_SpriteSheet (l_path tx) s).1 with
       | Some sheet =>
           inited tx1 = true /\ d_texture tx1 = Some sheet
           /\ forall x y vw vh xs ys ws hs angle c f t,
                uploads (calls_since r.2 (blit x y vw vh tx1 xs ys ws hs angle c f t r.2).2)
                = 0%nat
       | None =>
           inited tx1 = false
           /\ blits (calls_since s r.2) = []
           /\ forall x y vw vh xs ys ws hs angle c f t,
                blit x y vw vh tx1 xs ys ws hs angle c f t r.2 = (Some tx1, r.2)
       end.
Proof.
  intros Hin Hlazy Htex. cbv zeta.
  rewrite RenderTexturePrivate_unfold by done. cbv zeta.
  rewrite Htex, Hlazy.
  rewrite (bool_decide_eq_false_2 (is_Some None)) by (by intros [? ?]).
  cbn [negb andb].
  destruct (lazyLoad_picture tx s) as [(_ & _ & Hno) | (_ & _ & _ & Hcase)].
  { destruct Hno as [Hno | [Hno | [? Hno]]]; congruence. }
  destruct Hcase as [[Hfirst Hgive] | (sheet & Hfirst & Hin1 & Hlazy1 & Htex1)];
    rewrite Hfirst.
  - rewrite Hgive. cbn [d_texture set_inited]. rewrite Htex.
    rewrite (bool_decide_eq_false_2 (is_Some None)) by (by intros [? ?]).
    cbn [negb fst snd]. exists (set_inited false tx).
    split; [done |]. split; [done |]. split.
    + destruct (only_lazyLoad tx s) as (calls & Ht & Hp).
      rewrite (calls_since_app _ _ _ Ht). by apply loader_calls_no_blit.
    + intros. reflexivity.
  - rewrite Htex1. rewrite bool_decide_eq_true_2 by (by eexists). cbn [negb].
    exists (lazyLoad tx s).1.
    split; [apply draw_resident_total |]. split; [done |]. split; [done |].
    intros x y vw vh xs ys ws hs angle c f t.
    destruct (resident_blit_draws x y vw vh (lazyLoad tx s).1 xs ys ws hs angle c f t
                (draw_resident xDst yDst wDst hDst (lazyLoad tx s).1 xSrc ySrc wSrc hSrc
                   rotateAngle center flip tint (lazyLoad tx s).2).2)
      as (_ & calls & Ht & Hp); [done | by rewrite Htex1; eexists |].
    rewrite (calls_since_app _ _ _ Ht). by apply draw_calls_no_upload.
Qed.

(** ** Blits of a resident picture *)

(** The band split is vertical only: every blit keeps the horizontal
    extent of the request, in the source and in the destination. *)
Lemma draw_bands_columns xDst yDst wDst hDst tx xSrc ySrc wSrc hSrc flip tint (s : State W) :
  Forall (fun b => b_xDst b = xDst /\ b_wDst b = wDst /\ b_xSrc b = xSrc /\ b_wSrc b = wSrc)
    (blits (calls_since s (draw_bands xDst yDst wDst hDst tx xSrc ySrc wSrc hSrc flip tint s).2)).
Proof.
  destruct s as [e cf ds inf sw single show_w tex_h n cur wd tr].
  unfold draw_bands, cdiv, calls_since.
  destruct (d_texture2 tx), (d_texture3 tx);
    repeat case_bool_decide; run_bands;
    rewrite <- ?app_assoc, ?drop_app_length, ?drop_all;
    cbn [app blits omap]; repeat constructor.
Qed.

(** A source rectangle that lies inside one band. *)
Lemma draw_bands_in_band xDst yDst wDst hDst tx xSrc y wSrc hSrc flip tint (s : State W) :
  in_int16 y ->
  let calls := calls_since s (draw_bands xDst yDst wDst hDst tx xSrc y wSrc hSrc flip tint s).2 in
  let one im ylocal :=
    calls = [ev_C2D_DrawImage_Custom (PictureImage im) xDst yDst wDst hDst
               xSrc ylocal wSrc hSrc flip tint] in
  (y + hSrc <= 1024 -> one (d_image tx) y)
  /\ (1024 <= y -> 1024 < y + hSrc <= 2048 ->
      match d_texture2 tx with Some _ => one (d_image2 tx) (y - 1024) | None => calls = [] end)
  /\ (2048 <= y -> 2048 < y + hSrc ->
      match d_texture3 tx with Some _ => one (d_image3 tx) (y - 2048) | None => calls = [] end).
Proof.
  intros Hy. cbv zeta. unfold in_int16 in Hy.
  destruct s as [e cf ds inf sw single show_w tex_h n cur wd tr].
  unfold draw_bands, cdiv, calls_since.
  split; [| split].
  - intros Hin. rewrite (bool_decide_eq_false_2 (y + hSrc > 1024)) by lia.
    run_bands. by rewrite drop_app_length.
  - intros Hlow Hin.
    rewrite (bool_decide_eq_true_2 (y + hSrc > 1024)) by lia.
    rewrite (bool_decide_eq_false_2 (y + hSrc > 2048)) by lia.
    rewrite (bool_decide_eq_false_2 (y < 1024)) by lia.
    rewrite (wrap16_id (y - 1024)) by (unfold in_int16; lia).
    destruct (d_texture2 tx); run_bands; by rewrite ?drop_app_length, ?drop_all.
  - intros Hlow Hin.
    rewrite (bool_decide_eq_true_2 (y + hSrc > 1024)) by lia.
    rewrite (bool_decide_eq_true_2 (y + hSrc > 2048)) by lia.
    rewrite (bool_decide_eq_false_2 (y < 2048)) by lia.
    rewrite (wrap16_id (y - 1024)) by (unfold in_int16; lia).
    rewrite (wrap16_id (y - 1024 - 1024)) by (unfold in_int16; lia).
    replace (y - 1024 - 1024) with (y - 2048) by lia.
    destruct (d_texture3 tx); run_bands; by rewrite ?drop_app_length, ?drop_all.
Qed.

Lemma draw_resident_plain xDst yDst wDst hDst tx xSrc ySrc wSrc hSrc rotateAngle center flip tint
    (s : State W) :
  Qeq_bool rotateAngle 0 = true ->
  (draw_resident xDst yDst wDst hDst tx xSrc ySrc wSrc hSrc rotateAngle center flip tint s).2
  = (draw_bands xDst yDst wDst hDst tx xSrc (auto_flip 3 (Z.quot (h tx) 2) ySrc 0).1 wSrc hSrc
       (Z.lxor flip (auto_flip 3 (Z.quot (h tx) 2) ySrc 0).2) tint s).2.
Proof.
  intros Hrot. unfold draw_resident.
  destruct (auto_flip 3 (Z.quot (h tx) 2) ySrc 0) as [y mode]. cbn [fst snd].
  rewrite Hrot. cbn [negb]. rewrite !bind_run. cbn [mret Proc_ret fst snd].
  rewrite bind_run.
  rewrite (draw_bands_total xDst yDst wDst hDst tx xSrc y wSrc hSrc (Z.lxor flip mode) tint s).
  reflexivity.
Qed.

(** A blit without rotation whose source rectangle (after the automatic
    flip) lies inside one 1024-row band is a single draw call with the
    destination as requested and the source row counted from the top of
    that band: row [y] of the first band, [y - 1024] of the second,
    [y - 2048] of the third.  If that band is not loaded, nothing is
    drawn. *)
Theorem blit_within_band xDst yDst wDst hDst tx xSrc ySrc wSrc hSrc rotateAngle center flip tint
    (s : State W) :
  inited tx = true -> is_Some (d_texture tx) -> in_int16 ySrc ->
  Qeq_bool rotateAngle 0 = true ->
  let y := (auto_flip 3 (Z.quot (h tx) 2) ySrc 0).1 in
  let mode := (auto_flip 3 (Z.quot (h tx) 2) ySrc 0).2 in
  let calls :=
    calls_since s
      (minport_RenderTexturePrivate xDst yDst wDst hDst tx xSrc ySrc wSrc hSrc
         rotateAngle center flip tint s).2 in
  let one im ylocal :=
    calls = [ev_C2D_DrawImage_Custom (PictureImage im) xDst yDst wDst hDst
               xSrc ylocal wSrc hSrc (Z.lxor flip mode) tint] in
  (y + hSrc <= 1024 -> one (d_image tx) y)
  /\ (1024 <= y -> 1024 < y + hSrc <= 2048 ->
      match d_texture2 tx with Some _ => one (d_image2 tx) (y - 1024) | None => calls = [] end)
  /\ (2048 <= y -> 2048 < y + hSrc ->
      match d_texture3 tx with Some _ => one (d_image3 tx) (y - 2048) | None => calls = [] end).
Proof.
  intros Hin Hres Hy Hrot. cbv zeta.
  rewrite RenderTexturePrivate_unfold by done. cbv zeta.
  rewrite (bool_decide_eq_true_2 _ Hres). cbn [negb andb mret Proc_ret fst snd].
  rewrite (bool_decide_eq_true_2 _ Hres). cbn [negb].
  rewrite draw_resident_plain by done.
  apply (draw_bands_in_band xDst yDst wDst hDst tx xSrc _ wSrc hSrc _ tint s).
  by apply auto_flip_range.
Qed.

(** A blit with a rotation saves the view, moves it to the pivot
    ([pivot]: half the given centre plus one half, computed in single
    precision and cut to an integer, or half the destination size when
    no centre is given), turns it, draws, and restores the view: between
    [C2D_ViewSave] and [C2D_ViewRestore] there are only draw calls, each
    with its destination column relative to the pivot.  A blit without
    rotation makes draw calls only. *)
Theorem blit_rotation_bracket xDst yDst wDst hDst tx xSrc ySrc wSrc hSrc rotateAngle center
    flip tint (s : State W) :
  inited tx = true -> is_Some (d_texture tx) ->
  let cx := (pivot wDst hDst center).1 in
  let cy := (pivot wDst hDst center).2 in
  let calls :=
    calls_since s
      (minport_RenderTexturePrivate xDst yDst wDst hDst tx xSrc ySrc wSrc hSrc
         rotateAngle center flip tint s).2 in
  if Qeq_bool rotateAngle 0 then forallb is_blit calls = true
  else
    exists draws,
      calls = [ev_C2D_ViewSave; ev_C2D_ViewTranslate (xDst + cx) (yDst + cy);
               ev_C2D_ViewRotateDegrees rotateAngle]
              ++ draws ++ [ev_C2D_ViewRestore]
      /\ forallb is_blit draws = true
      /\ Forall (fun b => b_xDst b = wrap16 (- cx) /\ b_wDst b = wDst) (blits draws).
Proof.
  intros Hin Hres. cbv zeta.
  rewrite RenderTexturePrivate_unfold by done. cbv zeta.
  rewrite (bool_decide_eq_true_2 _ Hres). cbn [negb andb mret Proc_ret fst snd].
  rewrite (bool_decide_eq_true_2 _ Hres). cbn [negb].
  destruct (Qeq_bool rotateAngle 0) eqn:Hrot.
  - rewrite draw_resident_plain by done.
    destruct (only_draw_bands is_blit xDst yDst wDst hDst tx xSrc
                (auto_flip 3 (Z.quot (h tx) 2) ySrc 0).1 wSrc hSrc
                (Z.lxor flip (auto_flip 3 (Z.quot (h tx) 2) ySrc 0).2) tint
                (fun e He => He) s) as (calls & Ht & Hp).
    by rewrite (calls_since_app _ _ _ Ht).
  - unfold draw_resident.
    destruct (auto_flip 3 (Z.quot (h tx) 2) ySrc 0) as [y mode].
    rewrite Hrot. cbn [negb]. rewrite !bind_run.
    set (cx := (pivot wDst hDst center).1).
    set (cy := (pivot wDst hDst center).2).
    assert (Hbegin : begin_rotation xDst yDst wDst hDst rotateAngle center s
                     = ((wrap16 (- cx), wrap16 (- cy)),
                        emit (ev_C2D_ViewRotateDegrees rotateAngle)
                          (emit (ev_C2D_ViewTranslate (xDst + cx) (yDst + cy))
                             (emit ev_C2D_ViewSave s)))).
    { unfold begin_rotation, cx, cy. by destruct (pivot wDst hDst center). }
    rewrite Hbegin. cbn [fst snd].
    set (s1 := emit (ev_C2D_ViewRotateDegrees rotateAngle) _).
    rewrite ?bind_run.
    rewrite (draw_bands_total (wrap16 (- cx)) (wrap16 (- cy)) wDst hDst tx xSrc y wSrc hSrc
               (Z.lxor flip mode) tint s1).
    destruct (only_draw_bands is_blit (wrap16 (- cx)) (wrap16 (- cy)) wDst hDst tx xSrc y wSrc
                hSrc (Z.lxor flip mode) tint (fun e He => He) s1) as (draws & Ht & Hp).
    pose proof (draw_bands_columns (wrap16 (- cx)) (wrap16 (- cy)) wDst hDst tx xSrc y wSrc
                  hSrc (Z.lxor flip mode) tint s1) as Hcols.
    rewrite (calls_since_app _ _ _ Ht) in Hcols.
    exists draws. split; [| split; [exact Hp |]].
    + apply calls_since_app. unfold when, call, modify, mbind, Proc_bind, mret, Proc_ret.
      cbn [fst snd trace emit]. rewrite Ht. unfold s1. cbn [trace emit].
      by rewrite <- !app_assoc.
    + eapply Forall_impl; [exact Hcols |]. by intros b (? & ? & _).
Qed.

(** ** Sheets uploaded and sheets released *)

Lemma loaded_sheets_app (a b : list Event) :
  loaded_sheets (a ++ b) = loaded_sheets a ++ loaded_sheets b.
Proof. unfold loaded_sheets. apply omap_app. Qed.

Lemma frees_app (a b : list Event) : frees (a ++ b) = frees a ++ frees b.
Proof. unfold frees. apply omap_app. Qed.

(** A step of the loader: the calls it made, with the sheets they
    uploaded and released. *)
Definition sheets {A} (c : Proc W A) (s : State W) (up down : list C2D_SpriteSheet) : Prop :=
  exists calls, trace (c s).2 = trace s ++ calls
                /\ loaded_sheets calls = up /\ frees calls = down.

Lemma sheets_bind {A B} (c : Proc W A) (k : A -> Proc W B) s up1 down1 up2 down2 up down :
  sheets c s up1 down1 -> sheets (k (c s).1) (c s).2 up2 down2 ->
  up = up1 ++ up2 -> down = down1 ++ down2 ->
  sheets (c ≫= k) s up down.
Proof.
  intros (c1 & Ht1 & Hu1 & Hd1) (c2 & Ht2 & Hu2 & Hd2) -> ->.
  exists (c1 ++ c2). rewrite bind_run, Ht2, Ht1, <- app_assoc.
  split; [done |]. by rewrite loaded_sheets_app, frees_app, Hu1, Hu2, Hd1, Hd2.
Qed.

Lemma sheets_ret {A} (a : A) s : sheets (mret a : Proc W A) s [] [].
Proof. exists []. by rewrite app_nil_r. Qed.

Lemma sheets_load path s :
  sheets (do_C2D_SpriteSheetLoad path) s
    (option_list (do_C2D_SpriteSheetLoad path s).1) [].
Proof.
  unfold sheets, do_C2D_SpriteSheetLoad.
  destruct (C2D_SpriteSheetLoad path (world s)) as [[sheet|] wd];
    (eexists [_]; cbn [fst snd trace emit set_world]; by repeat split).
Qed.

Lemma sheets_log {A} (c : Proc W A) s :
  only (fun e => match e with
                 | ev_pLogWarning _ | ev_pLogDebug _ | ev_minport_freeTextureMemory
                 | ev_minport_unlinkTexture _ => true
                 | _ => false
                 end) c ->
  sheets c s [] [].
Proof.
  intros Hc. destruct (Hc s) as (calls & Ht & Hp). exists calls. split; [done |].
  clear Ht. induction calls as [|e calls IH]; [done |].
  cbn [forallb] in Hp. apply andb_true_iff in Hp as [He Hp].
  unfold loaded_sheets, frees in *. cbn [omap list_omap].
  destruct e; try discriminate; by apply IH.
Qed.

Lemma sheets_tryHard path s :
  sheets (s_tryHardToLoadC2D_SpriteSheet path) s
    (option_list (s_tryHardToLoadC2D_SpriteSheet path s).1) [].
Proof.
  unfold s_tryHardToLoadC2D_SpriteSheet.
  pose proof (sheets_load path s) as Hfirst.
  destruct (do_C2D_SpriteSheetLoad path s) as [[sheet|] s1] eqn:Hrun; cbn [fst snd] in *.
  - eapply sheets_bind; [exact Hfirst | rewrite Hrun; apply sheets_ret | |].
    + by rewrite bind_run, Hrun.
    + reflexivity.
  - eapply sheets_bind; [exact Hfirst | rewrite Hrun; cbn [fst snd] | |].
    + eapply sheets_bind; [apply sheets_ret | | reflexivity | reflexivity].
      eapply sheets_bind; [| apply sheets_load | reflexivity | reflexivity].
      apply sheets_log. apply only_when. intros s'. by eexists [_].
    + rewrite bind_run, Hrun. cbn [fst snd option_list app]. by rewrite !bind_run.
    + reflexivity.
Qed.

Lemma bound_bands_eq tx :
  bound_bands tx
  = option_list (d_texture tx) ++ option_list (d_texture2 tx) ++ option_list (d_texture3 tx).
Proof. unfold bound_bands. by destruct (d_texture tx), (d_texture2 tx), (d_texture3 tx). Qed.

Lemma bound_bands_nil tx :
  bound_bands tx = [] <-> d_texture tx = None /\ d_texture2 tx = None /\ d_texture3 tx = None.
Proof.
  rewrite bound_bands_eq.
  destruct (d_texture tx), (d_texture2 tx), (d_texture3 tx); cbn; split;
    try discriminate; try done; by intros (? & ? & ?).
Qed.

Lemma sheets_failed_to_load path s : sheets (failed_to_load path) s [] [].
Proof.
  apply sheets_log. unfold failed_to_load, pLogWarning.
  apply only_bind; [by apply only_call | intros _; by apply only_call].
Qed.

Lemma sheets_load_band2 t s :
  d_texture2 t = None ->
  let t' := (load_band2 t s).1 in
  sheets (load_band2 t) s (option_list (d_texture2 t')) []
  /\ same_picture t t' /\ d_texture t' = d_texture t /\ d_texture3 t' = d_texture3 t.
Proof.
  intros Hnone. cbv zeta. unfold load_band2.
  case_bool_decide as Hh.
  2: { cbn [mret Proc_ret fst]. rewrite Hnone. split; [apply sheets_ret | by repeat split]. }
  pose proof (sheets_tryHard (l_path t +:+ "1") s) as Hfirst.
  rewrite bind_run.
  destruct (s_tryHardToLoadC2D_SpriteSheet (l_path t +:+ "1") s) as [[sheet|] s1] eqn:Hrun;
    cbn [fst snd] in *.
  - split; [| by repeat split].
    eapply sheets_bind; [exact Hfirst | rewrite Hrun; apply sheets_ret | reflexivity | reflexivity].
  - rewrite bind_run. cbn [mret Proc_ret fst]. rewrite Hnone. split; [| by repeat split].
    eapply sheets_bind; [exact Hfirst | rewrite Hrun; cbn [fst snd] | reflexivity | reflexivity].
    eapply sheets_bind;
      [apply sheets_failed_to_load | apply sheets_ret | reflexivity | reflexivity].
Qed.

Lemma sheets_load_band3 t s :
  d_texture3 t = None ->
  let t' := (load_band3 t s).1 in
  sheets (load_band3 t) s (option_list (d_texture3 t')) []
  /\ same_picture t t' /\ d_texture t' = d_texture t /\ d_texture2 t' = d_texture2 t.
Proof.
  intros Hnone. cbv zeta. unfold load_band3.
  case_bool_decide as Hh.
  2: { cbn [mret Proc_ret fst]. rewrite Hnone. split; [apply sheets_ret | by repeat split]. }
  pose proof (sheets_load (l_path t +:+ "2") s) as Hfirst.
  rewrite bind_run.
  destruct (do_C2D_SpriteSheetLoad (l_path t +:+ "2") s) as [[sheet|] s1] eqn:Hrun;
    cbn [fst snd] in *.
  - split; [| by repeat split].
    eapply sheets_bind; [exact Hfirst | rewrite Hrun; apply sheets_ret | reflexivity | reflexivity].
  - rewrite bind_run. cbn [mret Proc_ret fst]. rewrite Hnone. split; [| by repeat split].
    eapply sheets_bind; [exact Hfirst | rewrite Hrun; cbn [fst snd] | reflexivity | reflexivity].
    eapply sheets_bind;
      [apply sheets_failed_to_load | apply sheets_ret | reflexivity | reflexivity].
Qed.

Lemma sheets_after_load s : sheets after_load s [] [].
Proof.
  apply sheets_log. unfold after_load, do_linearSpaceFree, pLogDebug.
  apply only_bind; [apply (only_count _ (fun n => n + 1)) | intros _].
  apply only_bind; [apply only_get | intros free].
  apply only_when. apply only_bind; [by apply only_call | intros _].
  intros s'. by eexists [_].
Qed.

(** [lazyLoad] on a picture that holds no sheet. *)
Lemma sheets_lazyLoad target s :
  bound_bands target = [] ->
  let target' := (lazyLoad target s).1 in
  sheets (lazyLoad target) s (bound_bands target') []
  /\ l_path target' = l_path target /\ l_lazyLoaded target' = l_lazyLoaded target
  /\ (is_Some (d_texture target') ->
      inited target' = true /\ l_lazyLoaded target' = true
      /\ w target' = (if bool_decide (w target = 0)
                      then width (subtex (sheet_image (default (mkSheet 0 blankImage)
                                                         (d_texture target')))) * 2
                      else w target)
      /\ h target' = (if bool_decide (w target = 0)
                      then height (subtex (sheet_image (default (mkSheet 0 blankImage)
                                                          (d_texture target')))) * 2
                      else h target)).
Proof.
  intros Hnone. cbv zeta.
  apply bound_bands_nil in Hnone as (Ht1 & Ht2 & Ht3).
  assert (Hempty : bound_bands target = []) by (by apply bound_bands_nil).
  unfold lazyLoad.
  destruct (negb (inited target) || negb (l_lazyLoaded target)
            || bool_decide (is_Some (d_texture target))) eqn:Hguard.
  { cbn [mret Proc_ret fst]. rewrite Hempty, Ht1.
    split; [apply sheets_ret |]. split; [done |]. split; [done |].
    intros [? Hsome]. discriminate Hsome. }
  apply orb_false_iff in Hguard as [Hguard _].
  apply orb_false_iff in Hguard as [Hin Hlazy].
  apply negb_false_iff in Hin, Hlazy.
  pose proof (sheets_tryHard (l_path target) s) as Hfirst.
  rewrite bind_run.
  destruct (s_tryHardToLoadC2D_SpriteSheet (l_path target) s) as [[sheet|] s1] eqn:Hrun;
    cbn [fst snd] in *.
  - (* the first band is bound *)
    set (t1 := s_loadTexture target sheet).
    assert (Hbase : same_picture (set_size (w t1) (h t1) target) t1
                    /\ d_texture t1 = Some sheet /\ d_texture2 t1 = None
                    /\ d_texture3 t1 = None).
    { unfold t1, s_loadTexture, same_picture. cbn. case_bool_decide; cbn; by repeat split. }
    destruct Hbase as ((Hi1 & Hl1 & Hp1 & _) & Hd1 & Hd2 & Hd3).
    destruct (sheets_load_band2 t1 s1 Hd2) as (Hs2 & (Hi2 & Hl2 & Hp2 & Hw2 & Hh2) & Hd12 & Hd32).
    rewrite !bind_run.
    set (r2 := load_band2 t1 s1) in *.
    assert (Hd3' : d_texture3 r2.1 = None) by congruence.
    destruct (sheets_load_band3 r2.1 r2.2 Hd3')
      as (Hs3 & (Hi3 & Hl3 & Hp3 & Hw3 & Hh3) & Hd13 & Hd23).
    set (r3 := load_band3 r2.1 r2.2) in *.
    cbn [mret Proc_ret fst snd].
    split; [| split; [| split]].
    + eapply sheets_bind; [exact Hfirst | rewrite Hrun; cbn [fst snd] | | reflexivity].
      * eapply sheets_bind; [exact Hs2 | fold r2 | reflexivity | reflexivity].
        eapply sheets_bind; [exact Hs3 | fold r3 | reflexivity | reflexivity].
        eapply sheets_bind; [apply sheets_after_load | apply sheets_ret | reflexivity | reflexivity].
      * rewrite bound_bands_eq, Hd13, Hd12, Hd1, Hd23. cbn [option_list app].
        by rewrite !app_nil_r.
    + cbn [l_path set_size] in *. congruence.
    + cbn [l_lazyLoaded set_size] in *. congruence.
    + intros _. rewrite Hd13, Hd12, Hd1. cbn [default].
      cbn [inited l_lazyLoaded set_size] in *.
      split; [congruence |]. split; [congruence |].
      rewrite Hw3, Hw2, Hh3, Hh2. unfold t1, s_loadTexture.
      unfold C2D_SpriteSheetGetImage, id. cbn [w set_image set_texture].
      destruct (bool_decide (w target = 0)); by cbn.
  - (* given up *)
    rewrite bind_run. cbn [mret Proc_ret fst].
    assert (Hgone : bound_bands (set_inited false target) = [])
      by (by apply bound_bands_nil).
    rewrite Hgone. split; [| split; [done | split; [done |]]].
    2: { cbn [d_texture set_inited]. rewrite Ht1. intros [? Hsome]. discriminate Hsome. }
    eapply sheets_bind; [exact Hfirst | rewrite Hrun; cbn [fst snd] | reflexivity | reflexivity].
    eapply sheets_bind;
      [apply sheets_failed_to_load | apply sheets_ret | reflexivity | reflexivity].
Qed.

Lemma sheets_deleteTexture tx lazyUnload s :
  inited tx = true ->
  let tx' := (deleteTexture tx lazyUnload s).1 in
  sheets (deleteTexture tx lazyUnload) s [] (bound_bands tx)
  /\ bound_bands tx' = []
  /\ (lazyUnload = true -> same_picture tx tx').
Proof.
  intros Hin. cbv zeta.
  destruct tx as [i vw vh fw fh p lz t1 i1 t2 i2 t3 i3]. cbn [inited] in Hin. subst i.
  destruct s as [e cf ds inf sw single show_w tex_h n cur wd tr].
  unfold sheets, deleteTexture, free_band, bound_bands, same_picture.
  destruct t1, t2, t3, lazyUnload;
    repeat progress
      (unfold mbind, Proc_bind, mret, Proc_ret, get, modify, call, when,
         do_C2D_SpriteSheetFree;
       cbn [fst snd negb inited d_texture d_texture2 d_texture3 set_texture set_texture2
            set_texture3 set_inited set_lazyLoaded set_size set_frame_size
            trace emit set_world set_s_num_textures_loaded s_num_textures_loaded
            l_path l_lazyLoaded w h frame_w frame_h world]);
    rewrite <- ?app_assoc;
    (split; [eexists; split; [reflexivity |]; by split |]);
    (split; [reflexivity |]); intros Hlazy; try discriminate Hlazy; by repeat split.
Qed.

Lemma sheets_lazyUnLoad target s :
  picture_ok target ->
  let target' := (lazyUnLoad target s).1 in
  sheets (lazyUnLoad target) s []
    (if inited target && l_lazyLoaded target then bound_bands target else [])
  /\ (inited target && l_lazyLoaded target = true ->
      bound_bands target' = [] /\ same_picture target target').
Proof.
  intros [Hok1 Hok2]. cbv zeta. unfold lazyUnLoad.
  destruct (inited target) eqn:Hin; cbn [negb orb andb].
  2: { split; [apply sheets_ret | discriminate]. }
  destruct (l_lazyLoaded target) eqn:Hlazy; cbn [negb orb].
  2: { split; [apply sheets_ret | discriminate]. }
  destruct (d_texture target) as [sheet|] eqn:Htex.
  - rewrite bool_decide_eq_true_2 by (by eexists). cbn [negb].
    destruct (sheets_deleteTexture target true s Hin) as (Hs & Hnone & Hsame).
    split; [exact Hs |]. intros _. split; [exact Hnone | by apply Hsame].
  - rewrite bool_decide_eq_false_2 by (by intros [? ?]). cbn [negb mret Proc_ret fst].
    assert (Hempty : bound_bands target = []).
    { apply bound_bands_nil. destruct (Hok2 eq_refl). by repeat split. }
    rewrite Hempty. split; [apply sheets_ret |]. intros _. split; [done | by repeat split].
Qed.

Lemma sheets_since {A} (c : Proc W A) s up down :
  sheets c s up down ->
  loaded_sheets (calls_since s (c s).2) = up /\ frees (calls_since s (c s).2) = down.
Proof. intros (calls & Ht & Hu & Hd). by rewrite (calls_since_app _ _ _ Ht). Qed.

(** [lazyLoad] on a picture that holds no sheet keeps every sheet it
    uploads: the sheets its uploads returned are, in order, the bands
    bound to the picture it hands back, and it releases nothing. *)
Theorem lazyLoad_keeps_what_it_uploads (target : StdPicture) (s : State W) :
  bound_bands target = [] ->
  let r := lazyLoad target s in
  loaded_sheets (calls_since s r.2) = bound_bands r.1
  /\ frees (calls_since s r.2) = [].
Proof.
  intros Hnone. cbv zeta.
  destruct (sheets_lazyLoad target s Hnone) as (Hs & _).
  by apply sheets_since.
Qed.

(** A lazy picture that was loaded and is unloaded again is the picture
    it was before: inited, lazy, with its path and declared size and no
    sheet bound, so it can be loaded again; and the sheets released by
    the unload are exactly those the load had uploaded. *)
Theorem lazy_load_unload_round_trip (target : StdPicture) (s : State W) :
  inited target = true -> l_lazyLoaded target = true -> bound_bands target = [] ->
  w target <> 0 ->
  let r1 := lazyLoad target s in
  let r2 := lazyUnLoad r1.1 r1.2 in
  is_Some (d_texture r1.1) ->
  inited r2.1 = true /\ l_lazyLoaded r2.1 = true /\ l_path r2.1 = l_path target
  /\ w r2.1 = w target /\ h r2.1 = h target
  /\ bound_bands r2.1 = []
  /\ frees (calls_since r1.2 r2.2) = loaded_sheets (calls_since s r1.2).
Proof.
  intros Hin Hlazy Hnone Hw. cbv zeta. intros Hres.
  destruct (sheets_lazyLoad target s Hnone) as (Hs1 & Hp1 & Hl1 & Hloaded).
  destruct (Hloaded Hres) as (Hin1 & Hlazy1 & Hw1 & Hh1).
  rewrite bool_decide_eq_false_2 in Hw1, Hh1 by done.
  assert (Hok : picture_ok (lazyLoad target s).1).
  { apply lazyLoad_ok. apply bound_bands_nil in Hnone as (? & ? & ?). by split. }
  destruct (sheets_lazyUnLoad (lazyLoad target s).1 (lazyLoad target s).2 Hok)
    as (Hs2 & Hback).
  rewrite Hin1, Hlazy1 in Hs2, Hback. cbn [andb] in Hs2, Hback.
  destruct (Hback eq_refl) as (Hgone & Hi2 & Hl2 & Hp2 & Hw2 & Hh2).
  destruct (sheets_since _ _ _ _ Hs1) as [Hup _].
  destruct (sheets_since _ _ _ _ Hs2) as [_ Hdown].
  rewrite Hup, Hdown.
  repeat split; congruence.
Qed.

(** [lazyLoadPicture] never keeps a texture: whether it reads the size
    file or probes the picture, the picture it returns holds no sheet,
    and every sheet an upload returned during the call was released
    before it ended. *)
Theorem lazyLoadPicture_releases_probe (path : string) (s : State W) :
  let r := lazyLoadPicture path s in
  bound_bands r.1 = []
  /\ frees (calls_since s r.2) = loaded_sheets (calls_since s r.2).
Proof.
  cbv zeta. unfold lazyLoadPicture.
  rewrite bind_run. change ((get (fun s0 : State W => GameIsActive (engine s0)) s).1)
    with (GameIsActive (engine s)).
  change ((get (fun s0 : State W => GameIsActive (engine s0)) s).2) with s.
  destruct (negb (GameIsActive (engine s))).
  { cbn [mret Proc_ret fst snd]. unfold calls_since. by rewrite drop_all. }
  case_bool_decide as Hpath.
  { cbn [mret Proc_ret fst snd]. unfold calls_since. by rewrite drop_all. }
  rewrite bind_run.
  change ((get (fun s0 : State W => fopen (path +:+ ".size") (world s0)) s).1)
    with (fopen (path +:+ ".size") (world s)).
  change ((get (fun s0 : State W => fopen (path +:+ ".size") (world s0)) s).2) with s.
  destruct (fopen (path +:+ ".size") (world s)) as [file|].
  - unfold get, when, pLogWarning, call, modify, mbind, Proc_bind, mret, Proc_ret, calls_since.
    cbn [fst snd].
    destruct (fclose_fails (path +:+ ".size") (world s)); cbn [fst snd trace emit];
      rewrite ?drop_app_length, ?drop_all; by split.
  - set (target := set_lazyLoaded true (set_inited true
                     (set_path path (set_inited false emptyPicture)))).
    assert (Hnone : bound_bands target = []) by reflexivity.
    assert (Hok0 : picture_ok target) by (by split).
    set (s0 := (pLogWarning "lazyLoadPicture: Couldn't open size file." s).2).
    destruct (sheets_lazyLoad target s0 Hnone) as (Hs1 & Hp1 & Hl1 & Hloaded).
    pose proof (lazyLoad_ok target s0 Hok0) as Hok.
    destruct (sheets_lazyUnLoad (lazyLoad target s0).1 (lazyLoad target s0).2 Hok)
      as (Hs2 & Hback).
    assert (Hwhole : sheets (pLogWarning "lazyLoadPicture: Couldn't open size file.";;
                             target ← lazyLoad target; lazyUnLoad target) s
                       ([] ++ (bound_bands (lazyLoad target s0).1 ++ []))
                       ([] ++ ([] ++ (if inited (lazyLoad target s0).1
                                         && l_lazyLoaded (lazyLoad target s0).1
                                      then bound_bands (lazyLoad target s0).1 else [])))).
    { eapply sheets_bind; [| | reflexivity | reflexivity].
      - apply sheets_log. unfold pLogWarning. by apply only_call.
      - eapply sheets_bind; [exact Hs1 | exact Hs2 | reflexivity | reflexivity]. }
    destruct (sheets_since _ _ _ _ Hwhole) as [Hup Hdown].
    rewrite Hup, Hdown. rewrite !bind_run. fold s0.
    cbn [app]. rewrite app_nil_r.
    destruct (inited (lazyLoad target s0).1 && l_lazyLoaded (lazyLoad target s0).1) eqn:Hboth.
    + split; [| done]. by apply Hback.
    + assert (Htex : d_texture (lazyLoad target s0).1 = None).
      { destruct (d_texture (lazyLoad target s0).1) eqn:Htex; [| done].
        destruct Hloaded as (Hi & Hl & _); [by eexists |].
        rewrite Hi, Hl in Hboth. discriminate Hboth. }
      assert (Hempty : bound_bands (lazyLoad target s0).1 = []).
      { apply bound_bands_nil. destruct Hok as [_ Hrest]. destruct (Hrest Htex).
        by repeat split. }
      rewrite Hempty. split; [| done].
      unfold lazyUnLoad. rewrite Htex.
      rewrite (bool_decide_eq_false_2 (is_Some None)) by (by intros [? ?]).
      cbn [negb]. rewrite !orb_true_r. exact Hempty.
Qed.

End Generic.

(** ** Runs on the scripted backend *)

Lemma lazyLoad_resident_is_noop_witness :
  is_Some (d_texture resident_picture)
  /\ lazyLoad resident_picture (sim_state (mkSim ∅ ∅ 0 8000000 0))
     = (resident_picture, sim_state (mkSim ∅ ∅ 0 8000000 0)).
Proof.
  assert (Hres : is_Some (d_texture resident_picture)) by (eexists; reflexivity).
  split; [exact Hres |].
  exact (proj1 (lazyLoad_resident_is_noop resident_picture
                  (sim_state (mkSim ∅ ∅ 0 8000000 0)) Hres)).
Defined.

(** Two refused uploads with little memory left: one eviction pass, two
    attempts, and the resource is given up. *)
Lemma lazyLoad_retries_once_witness :
  let target := lazy_picture "a.t3x" 64 64 in
  let s := sim_state (mkSim ∅ ∅ 2 1000 0) in
  (inited target = true /\ l_lazyLoaded target = true /\ d_texture target = None
   /\ (C2D_SpriteSheetLoad (l_path target) (world s)).1 = None)
  /\ inited (lazyLoad target s).1 = false
  /\ uploads (calls_since s (lazyLoad target s).2) = 2%nat
  /\ evictions (calls_since s (lazyLoad target s).2) = 1%nat.
Proof.
  intros target s.
  split; [repeat split |].
  pose proof (lazyLoad_retries_once target s eq_refl eq_refl eq_refl eq_refl) as [_ Hgive_up].
  destruct (Hgive_up eq_refl) as (Hin & _ & Hup & Hev & _).
  exact (conj Hin (conj Hup Hev)).
Defined.

(** C5 as stated fails: with 8000000 bytes free, two failed uploads are
    not separated by any eviction pass. *)
Lemma lazyLoad_failure_without_eviction :
  let target := lazy_picture "a.t3x" 64 64 in
  let s := sim_state (mkSim ∅ ∅ 2 8000000 0) in
  ~ ((C2D_SpriteSheetLoad (l_path target) (world s)).1 = None ->
     evictions (calls_since s (lazyLoad target s).2) = 1%nat).
Proof.
  intros target s Hclaim.
  specialize (Hclaim eq_refl). vm_compute in Hclaim. discriminate.
Qed.

(** One refused upload with little memory left: the retry succeeds, and
    the call runs two eviction passes, one before the retry and one for
    the low memory after the upload. *)
Lemma lazyLoad_two_eviction_passes :
  let target := lazy_picture "a.t3x" 64 64 in
  let s := sim_state (mkSim {[ "a.t3x" := sim_sheet 1 ]} ∅ 1 1000 0) in
  d_texture (lazyLoad target s).1 = Some (sim_sheet 1)
  /\ uploads (calls_since s (lazyLoad target s).2) = 2%nat
  /\ evictions (calls_since s (lazyLoad target s).2) = 2%nat.
Proof. intros target s. by vm_compute. Qed.


Lemma lazyLoadPicture_reads_size_file_witness :
  let s := sim_state (mkSim ∅ {[ "a.t3x.size" := size_file 64 5000 ]} 0 8000000 0) in
  (GameIsActive (engine s) = true /\ "a.t3x" <> ""
   /\ 0 <= 64 <= 9999 /\ 0 <= 5000 <= 9999
   /\ fopen ("a.t3x" +:+ ".size") (world s) = Some (size_file 64 5000))
  /\ w (lazyLoadPicture "a.t3x" s).1 = 64
  /\ h (lazyLoadPicture "a.t3x" s).1 = 5000
  /\ d_texture (lazyLoadPicture "a.t3x" s).1 = None.
Proof.
  intros s.
  assert (Hpath : "a.t3x" <> "") by discriminate.
  assert (Hopen : fopen ("a.t3x" +:+ ".size") (world s) = Some (size_file 64 5000))
    by (vm_compute; reflexivity).
  split; [repeat split; try done; lia |].
  pose proof (lazyLoadPicture_reads_size_file "a.t3x" 64 5000 s eq_refl Hpath
                ltac:(lia) ltac:(lia) Hopen) as (Hw & Hh & _ & _ & _ & Htx & _).
  exact (conj Hw (conj Hh Htx)).
Defined.

(** No size file: the picture is probed and measures 64 by 64. *)
Lemma lazyLoadPicture_size_file_cases_witness :
  let s := sim_state (mkSim {[ "a.t3x" := sim_sheet 1 ]} ∅ 0 8000000 0) in
  (GameIsActive (engine s) = true /\ "a.t3x" <> "")
  /\ w (lazyLoadPicture "a.t3x" s).1 = 64
  /\ h (lazyLoadPicture "a.t3x" s).1 = 64
  /\ d_texture (lazyLoadPicture "a.t3x" s).1 = None.
Proof.
  intros s.
  assert (Hpath : "a.t3x" <> "") by discriminate.
  split; [by split |].
  pose proof (lazyLoadPicture_size_file_cases "a.t3x" s eq_refl Hpath) as Hcases.
  cbv zeta in Hcases.
  assert (Hopen : fopen ("a.t3x" +:+ ".size") (world s) = None) by (vm_compute; reflexivity).
  rewrite Hopen in Hcases.
  destruct Hcases as (_ & Htx & Hprobe).
  assert (Hsheet : (s_tryHardToLoadC2D_SpriteSheet "a.t3x"
                      (emit (ev_pLogWarning "lazyLoadPicture: Couldn't open size file.") s)).1
                   = Some (sim_sheet 1)) by (vm_compute; reflexivity).
  rewrite Hsheet in Hprobe. destruct Hprobe as (_ & Hw & Hh).
  exact (conj Hw (conj Hh Htx)).
Defined.

(** C8 as stated fails: a size file that opens but holds two words is
    not replaced by a probe.  No upload is attempted and the resource
    gets the dimensions 0 by 0, where the probe (what happens without
    the file) finds 64 by 64. *)
Lemma malformed_size_file_is_not_probed :
  let sheets : gmap string C2D_SpriteSheet := {[ "a.t3x" := sim_sheet 1 ]} in
  let bad := sim_state (mkSim sheets {[ "a.t3x.size" := malformed_size_file ]} 0 8000000 0) in
  let absent := sim_state (mkSim sheets ∅ 0 8000000 0) in
  ~ (size_file_ok malformed_size_file = false ->
     (0 < uploads (calls_since bad (lazyLoadPicture "a.t3x" bad).2))%nat
     /\ w (lazyLoadPicture "a.t3x" bad).1 = w (lazyLoadPicture "a.t3x" absent).1
     /\ h (lazyLoadPicture "a.t3x" bad).1 = h (lazyLoadPicture "a.t3x" absent).1).
Proof.
  intros sheets bad absent Hclaim.
  destruct (Hclaim eq_refl) as (_ & Hw & _).
  vm_compute in Hw. discriminate.
Qed.


(** Selecting the texture target outside a frame begins one. *)
Lemma frame_controller_witness :
  let s := sim_state (mkSim ∅ ∅ 0 8000000 0) in
  (selects_target call_setTargetTexture = true /\ g_in_frame s = false)
  /\ g_in_frame (run call_setTargetTexture s) = true.
Proof.
  intros s. split; [by split |].
  destruct (frame_controller call_setTargetTexture s) as [Hbegin _].
  exact (proj1 (Hbegin eq_refl eq_refl)).
Defined.

(** C6 as stated fails: a filled rectangle drawn outside a frame does
    not begin one. *)
Lemma draw_outside_frame_begins_none :
  let s := sim_state (mkSim ∅ ∅ 0 8000000 0) in
  let c := call_minport_RenderBoxFilled 0 0 16 16 255 255 255 255 in
  ~ (draws c || selects_target c = true -> g_in_frame s = false ->
     g_in_frame (run c s) = true).
Proof.
  intros s c Hclaim.
  specialize (Hclaim eq_refl eq_refl). vm_compute in Hclaim. discriminate.
Qed.



(** One half height down a 64-row picture: every blit has flip bit 0
    toggled. *)
Lemma automatic_flip_witness :
  let s := sim_state (mkSim ∅ ∅ 0 8000000 0) in
  (inited resident_picture = true /\ is_Some (d_texture resident_picture)
   /\ 0 < Z.quot (h resident_picture) 2 /\ 0 <= 32 <= 32767)
  /\ Forall (fun b => b_flip b = 1)
       (blits (calls_since s
                 (minport_RenderTexturePrivate 0 0 32 32 resident_picture 0 32 32 32
                    0 None 0 untinted s).2)).
Proof.
  intros s.
  assert (Hres : is_Some (d_texture resident_picture)) by (eexists; reflexivity).
  assert (Hhalf : 0 < Z.quot (h resident_picture) 2) by (vm_compute; reflexivity).
  assert (Hy : 0 <= 32 <= 32767) by lia.
  split; [by repeat split |].
  exact (proj1 (proj2 (automatic_flip 0 0 32 32 resident_picture 0 32 32 32 0 None 0 untinted s
                         eq_refl Hres Hhalf Hy))).
Defined.

(** C1 as stated fails: two half heights down, the blit has flip bit 1
    set where the blit at offset 0 has no flip at all; the original
    orientation is not restored. *)
Lemma two_half_heights_do_not_restore :
  let s := sim_state (mkSim ∅ ∅ 0 8000000 0) in
  let flips ySrc :=
    map b_flip
      (blits (calls_since s
                (exec (minport_RenderTexturePrivate 0 0 32 32 resident_picture 0 ySrc 32 32
                         0 None 0 untinted) s))) in
  ~ (flips (2 * Z.quot (h resident_picture) 2) = flips 0).
Proof.
  intros s flips Hclaim. vm_compute in Hclaim. discriminate.
Qed.

(** ** More runs on the scripted backend *)

(** The editor with its screen active, on swapped screens. *)
Lemma mapToScreen_editor_round_trip_witness :
  let s := mkState (mkEngine true true false true 0 0 320 240 0 0 640 480 0 0 false)
             0 0 false true true 320 240 0 None (mkSim ∅ ∅ 0 8000000 0) [] in
  ((LevelEditor (engine s) || MagicHand (engine s)) && editorScreen_active (engine s) = true
   /\ in_int32 (100 * 2) /\ in_int32 (50 * 2))
  /\ mapToScreen 640 480 100 50 s = Some (200, 100)
  /\ mapFromScreen 640 480 200 100 s = Some (100, 50).
Proof.
  intros s.
  assert (Hx : in_int32 (100 * 2)) by (unfold in_int32; lia).
  assert (Hy : in_int32 (50 * 2)) by (unfold in_int32; lia).
  split; [by repeat split |].
  destruct (mapToScreen_editor_round_trip 640 480 100 50 s eq_refl Hx Hy) as (H1 & H2 & _).
  exact (conj H1 H2).
Defined.

(** A game screen of 800 by 480 on the physical 400 by 240: the point
    comes back exactly. *)
Lemma mapToScreen_round_trip_witness :
  let s := sim_state (mkSim ∅ ∅ 0 8000000 0) in
  ((LevelEditor (engine s) || MagicHand (engine s)) && editorScreen_active (engine s) = false
   /\ 0 < g_screen_phys_w (engine s) <= 800 /\ 0 < g_screen_phys_h (engine s) <= 480)
  /\ exists dx dy,
       mapToScreen 800 480 100 50 s = Some (dx, dy)
       /\ mapFromScreen 800 480 dx dy s = Some (100, 50).
Proof.
  intros s.
  assert (Hw : 0 < g_screen_phys_w (engine s) <= 800) by (simpl; lia).
  assert (Hh : 0 < g_screen_phys_h (engine s) <= 480) by (simpl; lia).
  split; [by repeat split |].
  destruct (mapToScreen_round_trip 800 480 100 50 s eq_refl ltac:(lia) ltac:(lia)
              ltac:(simpl; lia) ltac:(simpl; lia) Hw ltac:(lia) Hh ltac:(lia))
    as (dx & dy & x' & y' & Hto & Hfrom & _ & _ & Hx & Hy).
  exists dx, dy. split; [exact Hto |].
  rewrite Hfrom, (Hx eq_refl), (Hy eq_refl). reflexivity.
Defined.

Lemma ApplyPhysCoords_settles_witness :
  let s := sim_state (mkSim ∅ ∅ 0 8000000 0) in
  let r1 := minport_ApplyPhysCoords (fun _ => true) 800 480 false no_layers s in
  let r2 := minport_ApplyPhysCoords (fun _ => true) 800 480 false r1.1 r1.2 in
  (Z.quot 800 2 <= 1024 /\ Z.quot 480 2 <= 512)
  /\ r2.2 = r1.2 /\ allocations (gpu_since r1.1 r2.1) = [].
Proof.
  intros s r1 r2.
  assert (HW : Z.quot 800 2 <= 1024) by (apply Z.leb_le; reflexivity).
  assert (HH : Z.quot 480 2 <= 512) by (apply Z.leb_le; reflexivity).
  split; [by split |].
  destruct (ApplyPhysCoords_settles (fun _ => true) 800 480 false no_layers s HW HH)
    as (_ & Hs & _ & _ & Hcalls).
  split; [exact Hs |].
  fold r1 in Hcalls. fold r2 in Hcalls. rewrite Hcalls.
  by destruct (s_single_layer_mode r1.2).
Defined.


Lemma ApplyPhysCoords_swapped_is_single_witness :
  let s := sim_state (mkSim ∅ ∅ 0 8000000 0) in
  let r := minport_ApplyPhysCoords (fun _ => true) 800 480 true no_layers s in
  (g_screen_swapped s = true -> s_single_layer_mode s = true)
  /\ g_screen_swapped r.2 = true /\ s_single_layer_mode r.2 = true.
Proof.
  intros s r.
  assert (Hinv : g_screen_swapped s = true -> s_single_layer_mode s = true)
    by (simpl; intros Hsw; discriminate Hsw).
  split; [exact Hinv |].
  destruct (ApplyPhysCoords_swapped_is_single (fun _ => true) 800 480 true no_layers s Hinv)
    as (Hsw & Hsingle).
  exact (conj Hsw (Hsingle Hsw)).
Defined.

(** A frame drawn and presented, the screens cleared, and a second frame
    begun. *)
Lemma frames_balanced_witness :
  let s := sim_state (mkSim ∅ ∅ 0 8000000 0) in
  let s' := foldl (fun st c => run c st) s
              [call_setTargetTexture; call_minport_RenderBoxFilled 0 0 10 10 0 0 0 255;
               call_repaint; call_clearBuffer; call_setTargetLayer 1] in
  open_frames (trace s) = (if g_in_frame s then 1 else 0)
  /\ open_frames (trace s') = (if g_in_frame s' then 1 else 0).
Proof.
  intros s s'.
  assert (Hs : open_frames (trace s) = (if g_in_frame s then 1 else 0)) by reflexivity.
  split; [exact Hs |].
  exact (frames_balanced
           [call_setTargetTexture; call_minport_RenderBoxFilled 0 0 10 10 0 0 0 255;
            call_repaint; call_clearBuffer; call_setTargetLayer 1] s Hs).
Defined.

(** The engine asks for 800 by 480 on a layer of 512 by 256. *)
Lemma ApplyViewport_inside_frame_buffer_witness :
  let t := s_layer_targets 2 in
  let s := set_s_cur_target (Some t) (sim_frame (mkSim ∅ ∅ 0 8000000 0)) in
  (g_in_frame s = true /\ s_cur_target s = Some t
   /\ 1 <= frameBuf_width t /\ 1 <= frameBuf_height t)
  /\ exists x y vw vh,
       viewports (calls_since s (exec minport_ApplyViewport s)) = [(x, y, vw, vh)]
       /\ 0 <= x /\ 0 <= y /\ x + vw <= 512 /\ y + vh <= 256.
Proof.
  intros t s.
  assert (Hfw : 1 <= frameBuf_width t) by (simpl; lia).
  assert (Hfh : 1 <= frameBuf_height t) by (simpl; lia).
  split; [by repeat split |].
  destruct (ApplyViewport_inside_frame_buffer s t eq_refl eq_refl Hfw Hfh)
    as (x & y & vw & vh & Hv & Hx & Hy & Hxw & Hyh & _).
  exists x, y, vw, vh. exact (conj Hv (conj Hx (conj Hy (conj Hxw Hyh)))).
Defined.

(** A frame on swapped screens outside the editor. *)
Lemma repaint_flat_composition_witness :
  let s := set_g_screen_swapped true (sim_frame (mkSim ∅ ∅ 0 8000000 0)) in
  (g_in_frame s = true /\ g_screen_swapped s = true)
  /\ scenes (calls_since s (exec repaint s)) = [s_bottom_screen]
  /\ g_in_frame (exec repaint s) = false.
Proof.
  intros s.
  split; [by split |].
  exact (proj2 (repaint_flat_composition s eq_refl (or_introl eq_refl))).
Defined.

(** A picture with two bands bound, unloaded lazily. *)
Lemma deleteTexture_releases_witness :
  let s := sim_state (mkSim ∅ ∅ 0 8000000 0) in
  let r := deleteTexture two_band_picture true s in
  inited two_band_picture = true
  /\ bound_bands r.1 = []
  /\ frees (calls_since s r.2) = [sim_sheet 1; sim_sheet 2]
  /\ inited r.1 = true.
Proof.
  intros s r.
  split; [reflexivity |].
  destruct (deleteTexture_releases two_band_picture true s eq_refl)
    as (Hnone & Hfrees & _ & Hin & _).
  exact (conj Hnone (conj Hfrees Hin)).
Defined.

Lemma picture_invariant_witness :
  let s := sim_state (mkSim {[ "a.t3x" := sim_sheet 1 ]} ∅ 0 8000000 0) in
  picture_ok (lazy_picture "a.t3x" 64 64)
  /\ picture_ok (LoadPicture "a.t3x" s).1
  /\ picture_ok (lazyLoad (lazy_picture "a.t3x" 64 64) s).1.
Proof.
  intros s.
  assert (Hok : picture_ok (lazy_picture "a.t3x" 64 64))
    by (split; [intros _; reflexivity | intros _; split; reflexivity]).
  split; [exact Hok |].
  destruct (picture_invariant s) as (Hload & _ & Hlazy & _).
  exact (conj (Hload "a.t3x") (Hlazy _ Hok)).
Defined.

(** The first blit of a lazy picture uploads it; the second one, of the
    picture that came back, uploads nothing. *)
Lemma blit_loads_on_first_use_witness :
  let tx := lazy_picture "a.t3x" 64 64 in
  let s := sim_frame (mkSim {[ "a.t3x" := sim_sheet 1 ]} ∅ 0 8000000 0) in
  let r := minport_RenderTexturePrivate 0 0 32 32 tx 0 0 32 32 0 None 0 untinted s in
  (inited tx = true /\ l_lazyLoaded tx = true /\ d_texture tx = None)
  /\ exists tx1,
       r.1 = Some tx1 /\ d_texture tx1 = Some (sim_sheet 1)
       /\ uploads (calls_since r.2
                     (minport_RenderTexturePrivate 8 8 32 32 tx1 0 0 32 32 0 None 0 untinted
                        r.2).2) = 0%nat.
Proof.
  intros tx s r.
  split; [by repeat split |].
  destruct (blit_loads_on_first_use 0 0 32 32 tx 0 0 32 32 0 None 0 untinted s
              eq_refl eq_refl eq_refl) as (tx1 & Hr & Hcase).
  assert (Hfirst : (s_tryHardToLoadC2D_SpriteSheet (l_path tx) s).1 = Some (sim_sheet 1))
    by reflexivity.
  rewrite Hfirst in Hcase. destruct Hcase as (_ & Htex & Hlater).
  exists tx1. split; [exact Hr |]. split; [exact Htex |].
  exact (Hlater 8 8 32 32 0 0 32 32 0%Q None 0 untinted).
Defined.

(** Rows 1100 to 1199 of a picture with two bands: one draw call from
    row 76 of the second band. *)
Lemma blit_within_band_witness :
  let s := sim_frame (mkSim ∅ ∅ 0 8000000 0) in
  (inited two_band_picture = true /\ is_Some (d_texture two_band_picture)
   /\ in_int16 1100 /\ Qeq_bool 0 0 = true)
  /\ calls_since s
       (minport_RenderTexturePrivate 0 0 64 100 two_band_picture 0 1100 64 100
          0 None 0 untinted s).2
     = [ev_C2D_DrawImage_Custom (PictureImage (d_image2 two_band_picture)) 0 0 64 100
          0 76 64 100 0 untinted].
Proof.
  intros s.
  assert (Hres : is_Some (d_texture two_band_picture)) by (eexists; reflexivity).
  assert (Hy : in_int16 1100) by (unfold in_int16; lia).
  split; [by repeat split |].
  destruct (blit_within_band 0 0 64 100 two_band_picture 0 1100 64 100 0 None 0 untinted s
              eq_refl Hres Hy eq_refl) as (_ & Hsecond & _).
  exact (Hsecond ltac:(simpl; lia) ltac:(simpl; lia)).
Defined.

(** A quarter turn about the centre (0.99999994f, 7.0f): the pivot is
    (1, 4), because the sum 0.49999997f + 0.5f is rounded to 1 in single
    precision. *)
Lemma blit_rotation_bracket_witness :
  let s := sim_frame (mkSim ∅ ∅ 0 8000000 0) in
  (inited resident_picture = true /\ is_Some (d_texture resident_picture))
  /\ pivot 32 32 (Some near_corner) = (1, 4)
  /\ exists draws,
       calls_since s
         (minport_RenderTexturePrivate 100 50 32 32 resident_picture 0 0 32 32
            90 (Some near_corner) 0 untinted s).2
       = [ev_C2D_ViewSave; ev_C2D_ViewTranslate 101 54; ev_C2D_ViewRotateDegrees 90]
         ++ draws ++ [ev_C2D_ViewRestore]
       /\ forallb is_blit draws = true.
Proof.
  intros s.
  assert (Hres : is_Some (d_texture resident_picture)) by (eexists; reflexivity).
  split; [by split |]. split; [vm_compute; reflexivity |].
  destruct (blit_rotation_bracket 100 50 32 32 resident_picture 0 0 32 32 90
              (Some near_corner) 0 untinted s eq_refl Hres) as (draws & Hcalls & Hblits & _).
  exists draws. exact (conj Hcalls Hblits).
Defined.

(** A picture declared 64 by 3000: two bands are uploaded and bound. *)
Lemma lazyLoad_keeps_what_it_uploads_witness :
  let target := lazy_picture "a.t3x" 64 3000 in
  let s := sim_state
             (mkSim {[ "a.t3x" := sim_sheet 1; "a.t3x1" := sim_sheet 2 ]} ∅ 0 8000000 0) in
  bound_bands target = []
  /\ loaded_sheets (calls_since s (lazyLoad target s).2) = bound_bands (lazyLoad target s).1
  /\ frees (calls_since s (lazyLoad target s).2) = [].
Proof.
  intros target s.
  split; [reflexivity |].
  exact (lazyLoad_keeps_what_it_uploads target s eq_refl).
Defined.

Lemma lazy_load_unload_round_trip_witness :
  let target := lazy_picture "a.t3x" 64 3000 in
  let s := sim_state
             (mkSim {[ "a.t3x" := sim_sheet 1; "a.t3x1" := sim_sheet 2 ]} ∅ 0 8000000 0) in
  let r1 := lazyLoad target s in
  let r2 := lazyUnLoad r1.1 r1.2 in
  (inited target = true /\ l_lazyLoaded target = true /\ bound_bands target = []
   /\ w target <> 0 /\ is_Some (d_texture r1.1))
  /\ w r2.1 = 64 /\ h r2.1 = 3000 /\ bound_bands r2.1 = []
  /\ frees (calls_since r1.2 r2.2) = loaded_sheets (calls_since s r1.2).
Proof.
  intros target s r1 r2.
  assert (Hw : w target <> 0) by (simpl; lia).
  assert (Hres : is_Some (d_texture r1.1)) by (eexists; reflexivity).
  split; [by repeat split |].
  destruct (lazy_load_unload_round_trip target s eq_refl eq_refl eq_refl Hw Hres)
    as (_ & _ & _ & Hw2 & Hh2 & Hnone & Hfrees).
  exact (conj Hw2 (conj Hh2 (conj Hnone Hfrees))).
Defined.

End RenderProps.

